(** * The PIC32MZ peripheral register bank and interrupt arbiter

    A shallow embedding of [hw/mips/mips_pic32mz.c]: the interrupt
    arbiter ([update_irq_status], [irq_raise], [irq_clear]), the
    assign/clear/set/invert rule ([write_op]), the device reset
    ([io_reset]), the two register switches ([io_read32],
    [io_write32]), the load/store entry points ([pic32_io_read],
    [pic32_io_write]), the interrupt hooks of the CPU
    ([pic32_timer_irq], [pic32_soft_irq]) and the store into the
    flash memories ([store_byte]), followed by the properties proved
    about them.

    The file [pic32mz.h] that names the register offsets and bit
    masks, the QEMU header that places the Cause.RIPL field, and the
    peripheral models ([pic32_uart.c], [pic32_spi.c], ...) are not
    part of the embedded source.  The constants are the fields of the
    class [pic32mz_h] and the peripheral entry points the fields of
    the class [peripherals]; every definition below is parametric in
    both. *)

From Stdlib Require Import ZArith List Bool Lia.
Import ListNotations.
Local Open Scope Z_scope.
Set Warnings "-notation-for-abbreviation".

(** ** C integers

    [unsigned] and [uint32_t] values are integers in [0, 2^32);
    [int] values are integers in [-2^31, 2^31).  Conversions wrap. *)

Definition u32 (z : Z) : Z := z mod 2 ^ 32.
Definition s32 (z : Z) : Z := (z + 2 ^ 31) mod 2 ^ 32 - 2 ^ 31.
Definition u16 (z : Z) : Z := z mod 2 ^ 16.
Definition u8 (z : Z) : Z := z mod 2 ^ 8.

Declare Scope c_scope.
Delimit Scope c_scope with C.
Infix "<<" := Z.shiftl (at level 52, left associativity) : c_scope.
Infix ">>" := Z.shiftr (at level 52, left associativity) : c_scope.
Infix ".&" := Z.land (at level 54, left associativity) : c_scope.
Infix ".^" := Z.lxor (at level 56, left associativity) : c_scope.
Infix ".|" := Z.lor (at level 58, left associativity) : c_scope.
Notation "~~ x" := (Z.lnot x) (at level 35, right associativity) : c_scope.
Local Open Scope c_scope.

(** A C condition: an integer is true when it is not zero. *)
Definition truth (z : Z) : bool := negb (z =? 0).

(** ** Register names

    One constructor per register name used by the source.  The banked
    names [IFS(n)], [IEC(n)], [IPC(n)] and [OFF(n)] are families; the
    source writes the first three also as [IFS0] ... [IPC47]. *)

Inductive reg : Type :=
  | IFS (n : Z) | IEC (n : Z) | IPC (n : Z) | OFF (n : Z)
  | INTCON | INTSTAT | IPTMR | PRECON | PRESTAT | CFGCON | DEVID | SYSKEY
  | RCON | RSWRST | OSCCON | OSCTUN | SPLLCON | REFO1CON | REFO2CON
  | REFO3CON | REFO4CON | PB1DIV | PB2DIV | PB3DIV | PB4DIV | PB5DIV | PB7DIV
  | PB8DIV | INT1R | T4CKR | T9CKR | IC1R | IC6R | U3CTSR | U4RXR | U6RXR
  | SS2R | SDI6R | OCFAR | REFCLKI3R | INT2R | T3CKR | T8CKR | IC2R | IC5R
  | IC9R | U1CTSR | U2RXR | U5CTSR | SS1R | SS3R | SS4R | SS5R | C2RXR
  | INT3R | T2CKR | T6CKR | IC3R | IC7R | U1RXR | U2CTSR | U5RXR | U6CTSR
  | SDI1R | SDI3R | SDI5R | SS6R | REFCLKI1R | INT4R | T5CKR | T7CKR | IC4R
  | IC8R | U3RXR | U4CTSR | SDI2R | SDI4R | C1RXR | REFCLKI4R | RPA15R
  | RPB1R | RPB3R | RPC4R | RPC13R | RPD3R | RPD7R | RPD11R | RPD15R | RPE5R
  | RPF0R | RPF5R | RPG0R | RPG7R | RPB2R | RPB6R | RPB14R | RPC2R | RPD0R
  | RPD1R | RPD5R | RPE8R | RPF2R | RPF3R | RPF13R | RPG9R | RPA14R | RPB5R
  | RPB9R | RPB10R | RPC1R | RPC14R | RPD2R | RPD6R | RPD10R | RPD14R | RPF1R
  | RPF4R | RPG1R | RPG8R | RPB0R | RPB7R | RPB8R | RPB15R | RPC3R | RPD4R
  | RPD9R | RPD12R | RPE3R | RPE9R | RPF8R | RPF12R | RPG6R | RTCCON
  | RTCTIME | RTCDATE | ANSELA | TRISA | PORTA | LATA | ODCA | CNPUA | CNPDA
  | CNCONA | CNENA | CNSTATA | ANSELB | TRISB | PORTB | LATB | ODCB | CNPUB
  | CNPDB | CNCONB | CNENB | CNSTATB | ANSELC | TRISC | PORTC | LATC | ODCC
  | CNPUC | CNPDC | CNCONC | CNENC | CNSTATC | ANSELD | TRISD | PORTD | LATD
  | ODCD | CNPUD | CNPDD | CNCOND | CNEND | CNSTATD | ANSELE | TRISE | PORTE
  | LATE | ODCE | CNPUE | CNPDE | CNCONE | CNENE | CNSTATE | ANSELF | TRISF
  | PORTF | LATF | ODCF | CNPUF | CNPDF | CNCONF | CNENF | CNSTATF | ANSELG
  | TRISG | PORTG | LATG | ODCG | CNPUG | CNPDG | CNCONG | CNENG | CNSTATG
  | ANSELH | TRISH | PORTH | LATH | ODCH | CNPUH | CNPDH | CNCONH | CNENH
  | CNSTATH | ANSELJ | TRISJ | PORTJ | LATJ | ODCJ | CNPUJ | CNPDJ | CNCONJ
  | CNENJ | CNSTATJ | TRISK | PORTK | LATK | ODCK | CNPUK | CNPDK | CNCONK
  | CNENK | CNSTATK | U1TXREG | U1MODE | U1STA | U1BRG | U1RXREG | U2TXREG
  | U2MODE | U2STA | U2BRG | U2RXREG | U3TXREG | U3MODE | U3STA | U3BRG
  | U3RXREG | U4TXREG | U4MODE | U4STA | U4BRG | U4RXREG | U5TXREG | U5MODE
  | U5STA | U5BRG | U5RXREG | U6TXREG | U6MODE | U6STA | U6BRG | U6RXREG
  | SPI1CON | SPI1STAT | SPI1BUF | SPI1BRG | SPI1CON2 | SPI2CON | SPI2STAT
  | SPI2BUF | SPI2BRG | SPI2CON2 | SPI3CON | SPI3STAT | SPI3BUF | SPI3BRG
  | SPI3CON2 | SPI4CON | SPI4STAT | SPI4BUF | SPI4BRG | SPI4CON2 | T1CON
  | TMR1 | PR1 | T2CON | TMR2 | PR2 | T3CON | TMR3 | PR3 | T4CON | TMR4 | PR4
  | T5CON | TMR5 | PR5 | T6CON | TMR6 | PR6 | T7CON | TMR7 | PR7 | T8CON
  | TMR8 | PR8 | T9CON | TMR9 | PR9 | ETHCON1 | ETHCON2 | ETHTXST | ETHRXST
  | ETHHT0 | ETHHT1 | ETHPMM0 | ETHPMM1 | ETHPMCS | ETHPMO | ETHRXFC
  | ETHRXWM | ETHIEN | ETHIRQ | ETHSTAT | ETHRXOVFLOW | ETHFRMTXOK
  | ETHSCOLFRM | ETHMCOLFRM | ETHFRMRXOK | ETHFCSERR | ETHALGNERR | EMAC1CFG1
  | EMAC1CFG2 | EMAC1IPGT | EMAC1IPGR | EMAC1CLRT | EMAC1MAXF | EMAC1SUPP
  | EMAC1TEST | EMAC1MCFG | EMAC1MCMD | EMAC1MADR | EMAC1MWTD | EMAC1MRDD
  | EMAC1MIND | EMAC1SA0 | EMAC1SA1 | EMAC1SA2 | USBCSR0 | USBCSR1 | USBCSR2
  | USBCSR3 | USBIENCSR0 | USBIENCSR1 | USBIENCSR2 | USBIENCSR3 | USBFIFO0
  | USBFIFO1 | USBFIFO2 | USBFIFO3 | USBFIFO4 | USBFIFO5 | USBFIFO6
  | USBFIFO7 | USBOTG | USBFIFOA | USBHWVER | USBINFO | USBEOFRST | USBE0TXA
  | USBE0RXA | USBE1TXA | USBE1RXA | USBE2TXA | USBE2RXA | USBE3TXA
  | USBE3RXA | USBE4TXA | USBE4RXA | USBE5TXA | USBE5RXA | USBE6TXA
  | USBE6RXA | USBE7TXA | USBE7RXA | USBE0CSR0 | USBE0CSR2 | USBE0CSR3
  | USBE1CSR0 | USBE1CSR1 | USBE1CSR2 | USBE1CSR3 | USBE2CSR0 | USBE2CSR1
  | USBE2CSR2 | USBE2CSR3 | USBE3CSR0 | USBE3CSR1 | USBE3CSR2 | USBE3CSR3
  | USBE4CSR0 | USBE4CSR1 | USBE4CSR2 | USBE4CSR3 | USBE5CSR0 | USBE5CSR1
  | USBE5CSR2 | USBE5CSR3 | USBE6CSR0 | USBE6CSR1 | USBE6CSR2 | USBE6CSR3
  | USBE7CSR0 | USBE7CSR1 | USBE7CSR2 | USBE7CSR3 | USBDMAINT | USBDMA1C
  | USBDMA1A | USBDMA1N | USBDMA2C | USBDMA2A | USBDMA2N | USBDMA3C
  | USBDMA3A | USBDMA3N | USBDMA4C | USBDMA4A | USBDMA4N | USBDMA5C
  | USBDMA5A | USBDMA5N | USBDMA6C | USBDMA6A | USBDMA6N | USBDMA7C
  | USBDMA7A | USBDMA7N | USBDMA8C | USBDMA8A | USBDMA8N | USBE1RPC
  | USBE2RPC | USBE3RPC | USBE4RPC | USBE5RPC | USBE6RPC | USBE7RPC
  | USBDPBFD | USBTMCON1 | USBTMCON2 | USBLPMR1 | USBLMPR2 | SPI5CON
  | SPI5STAT | SPI5BRG | SPI6CON | SPI6STAT | SPI6BRG | SPI5CON2 | SPI6CON2.

Notation IFS0 := (IFS 0).
Notation IFS1 := (IFS 1).
Notation IFS2 := (IFS 2).
Notation IFS3 := (IFS 3).
Notation IFS4 := (IFS 4).
Notation IFS5 := (IFS 5).
Notation IEC0 := (IEC 0).
Notation IEC1 := (IEC 1).
Notation IEC2 := (IEC 2).
Notation IEC3 := (IEC 3).
Notation IEC4 := (IEC 4).
Notation IEC5 := (IEC 5).
Notation IPC0 := (IPC 0).
Notation IPC1 := (IPC 1).
Notation IPC2 := (IPC 2).
Notation IPC3 := (IPC 3).
Notation IPC4 := (IPC 4).
Notation IPC5 := (IPC 5).
Notation IPC6 := (IPC 6).
Notation IPC7 := (IPC 7).
Notation IPC8 := (IPC 8).
Notation IPC9 := (IPC 9).
Notation IPC10 := (IPC 10).
Notation IPC11 := (IPC 11).
Notation IPC12 := (IPC 12).
Notation IPC13 := (IPC 13).
Notation IPC14 := (IPC 14).
Notation IPC15 := (IPC 15).
Notation IPC16 := (IPC 16).
Notation IPC17 := (IPC 17).
Notation IPC18 := (IPC 18).
Notation IPC19 := (IPC 19).
Notation IPC20 := (IPC 20).
Notation IPC21 := (IPC 21).
Notation IPC22 := (IPC 22).
Notation IPC23 := (IPC 23).
Notation IPC24 := (IPC 24).
Notation IPC25 := (IPC 25).
Notation IPC26 := (IPC 26).
Notation IPC27 := (IPC 27).
Notation IPC28 := (IPC 28).
Notation IPC29 := (IPC 29).
Notation IPC30 := (IPC 30).
Notation IPC31 := (IPC 31).
Notation IPC32 := (IPC 32).
Notation IPC33 := (IPC 33).
Notation IPC34 := (IPC 34).
Notation IPC35 := (IPC 35).
Notation IPC36 := (IPC 36).
Notation IPC37 := (IPC 37).
Notation IPC38 := (IPC 38).
Notation IPC39 := (IPC 39).
Notation IPC40 := (IPC 40).
Notation IPC41 := (IPC 41).
Notation IPC42 := (IPC 42).
Notation IPC43 := (IPC 43).
Notation IPC44 := (IPC 44).
Notation IPC45 := (IPC 45).
Notation IPC46 := (IPC 46).
Notation IPC47 := (IPC 47).

(** The four views of a register: the register itself and its
    clear, set and invert aliases. *)
Inductive alias : Type := PLAIN | CLR | SET | INV.

(** Displacement of a view from the canonical offset. *)
Definition disp (a : alias) : Z :=
  match a with PLAIN => 0 | CLR => 4 | SET => 8 | INV => 12 end.

(** A case label of a register switch, which is also the string the
    switch stores in [*namep]: [Name U1MODE CLR] is ["U1MODECLR"]. *)
Record label : Type := Name { base : reg; view : alias }.

Definition canonical (r : reg) : label := Name r PLAIN.
Coercion canonical : reg >-> label.

(** Modelled from the spec: the alias names of [pic32mz.h], which is
    not part of the embedded source.  The spec (section 3, Alias
    Group) places the CLR, SET and INV alias of a canonical register
    at the fixed displacements +4, +8 and +12. *)
Definition REFO1CONCLR : label := Name REFO1CON CLR.
Definition REFO1CONSET : label := Name REFO1CON SET.
Definition REFO1CONINV : label := Name REFO1CON INV.
Definition REFO2CONCLR : label := Name REFO2CON CLR.
Definition REFO2CONSET : label := Name REFO2CON SET.
Definition REFO2CONINV : label := Name REFO2CON INV.
Definition REFO3CONCLR : label := Name REFO3CON CLR.
Definition REFO3CONSET : label := Name REFO3CON SET.
Definition REFO3CONINV : label := Name REFO3CON INV.
Definition REFO4CONCLR : label := Name REFO4CON CLR.
Definition REFO4CONSET : label := Name REFO4CON SET.
Definition REFO4CONINV : label := Name REFO4CON INV.
Definition PB1DIVCLR : label := Name PB1DIV CLR.
Definition PB1DIVSET : label := Name PB1DIV SET.
Definition PB1DIVINV : label := Name PB1DIV INV.
Definition PB2DIVCLR : label := Name PB2DIV CLR.
Definition PB2DIVSET : label := Name PB2DIV SET.
Definition PB2DIVINV : label := Name PB2DIV INV.
Definition PB3DIVCLR : label := Name PB3DIV CLR.
Definition PB3DIVSET : label := Name PB3DIV SET.
Definition PB3DIVINV : label := Name PB3DIV INV.
Definition PB4DIVCLR : label := Name PB4DIV CLR.
Definition PB4DIVSET : label := Name PB4DIV SET.
Definition PB4DIVINV : label := Name PB4DIV INV.
Definition PB5DIVCLR : label := Name PB5DIV CLR.
Definition PB5DIVSET : label := Name PB5DIV SET.
Definition PB5DIVINV : label := Name PB5DIV INV.
Definition PB7DIVCLR : label := Name PB7DIV CLR.
Definition PB7DIVSET : label := Name PB7DIV SET.
Definition PB7DIVINV : label := Name PB7DIV INV.
Definition PB8DIVCLR : label := Name PB8DIV CLR.
Definition PB8DIVSET : label := Name PB8DIV SET.
Definition PB8DIVINV : label := Name PB8DIV INV.
Definition U1MODECLR : label := Name U1MODE CLR.
Definition U1MODESET : label := Name U1MODE SET.
Definition U1MODEINV : label := Name U1MODE INV.
Definition U1STACLR : label := Name U1STA CLR.
Definition U1STASET : label := Name U1STA SET.
Definition U1STAINV : label := Name U1STA INV.
Definition U1BRGCLR : label := Name U1BRG CLR.
Definition U1BRGSET : label := Name U1BRG SET.
Definition U1BRGINV : label := Name U1BRG INV.
Definition U2MODECLR : label := Name U2MODE CLR.
Definition U2MODESET : label := Name U2MODE SET.
Definition U2MODEINV : label := Name U2MODE INV.
Definition U2STACLR : label := Name U2STA CLR.
Definition U2STASET : label := Name U2STA SET.
Definition U2STAINV : label := Name U2STA INV.
Definition U2BRGCLR : label := Name U2BRG CLR.
Definition U2BRGSET : label := Name U2BRG SET.
Definition U2BRGINV : label := Name U2BRG INV.
Definition U3MODECLR : label := Name U3MODE CLR.
Definition U3MODESET : label := Name U3MODE SET.
Definition U3MODEINV : label := Name U3MODE INV.
Definition U3STACLR : label := Name U3STA CLR.
Definition U3STASET : label := Name U3STA SET.
Definition U3STAINV : label := Name U3STA INV.
Definition U3BRGCLR : label := Name U3BRG CLR.
Definition U3BRGSET : label := Name U3BRG SET.
Definition U3BRGINV : label := Name U3BRG INV.
Definition U4MODECLR : label := Name U4MODE CLR.
Definition U4MODESET : label := Name U4MODE SET.
Definition U4MODEINV : label := Name U4MODE INV.
Definition U4STACLR : label := Name U4STA CLR.
Definition U4STASET : label := Name U4STA SET.
Definition U4STAINV : label := Name U4STA INV.
Definition U4BRGCLR : label := Name U4BRG CLR.
Definition U4BRGSET : label := Name U4BRG SET.
Definition U4BRGINV : label := Name U4BRG INV.
Definition U5MODECLR : label := Name U5MODE CLR.
Definition U5MODESET : label := Name U5MODE SET.
Definition U5MODEINV : label := Name U5MODE INV.
Definition U5STACLR : label := Name U5STA CLR.
Definition U5STASET : label := Name U5STA SET.
Definition U5STAINV : label := Name U5STA INV.
Definition U5BRGCLR : label := Name U5BRG CLR.
Definition U5BRGSET : label := Name U5BRG SET.
Definition U5BRGINV : label := Name U5BRG INV.
Definition U6MODECLR : label := Name U6MODE CLR.
Definition U6MODESET : label := Name U6MODE SET.
Definition U6MODEINV : label := Name U6MODE INV.
Definition U6STACLR : label := Name U6STA CLR.
Definition U6STASET : label := Name U6STA SET.
Definition U6STAINV : label := Name U6STA INV.
Definition U6BRGCLR : label := Name U6BRG CLR.
Definition U6BRGSET : label := Name U6BRG SET.
Definition U6BRGINV : label := Name U6BRG INV.
Definition SPI1CONCLR : label := Name SPI1CON CLR.
Definition SPI1CONSET : label := Name SPI1CON SET.
Definition SPI1CONINV : label := Name SPI1CON INV.
Definition SPI1STATCLR : label := Name SPI1STAT CLR.
Definition SPI1STATSET : label := Name SPI1STAT SET.
Definition SPI1STATINV : label := Name SPI1STAT INV.
Definition SPI1BRGCLR : label := Name SPI1BRG CLR.
Definition SPI1BRGSET : label := Name SPI1BRG SET.
Definition SPI1BRGINV : label := Name SPI1BRG INV.
Definition SPI1CON2CLR : label := Name SPI1CON2 CLR.
Definition SPI1CON2SET : label := Name SPI1CON2 SET.
Definition SPI1CON2INV : label := Name SPI1CON2 INV.
Definition SPI2CONCLR : label := Name SPI2CON CLR.
Definition SPI2CONSET : label := Name SPI2CON SET.
Definition SPI2CONINV : label := Name SPI2CON INV.
Definition SPI2STATCLR : label := Name SPI2STAT CLR.
Definition SPI2STATSET : label := Name SPI2STAT SET.
Definition SPI2STATINV : label := Name SPI2STAT INV.
Definition SPI2BRGCLR : label := Name SPI2BRG CLR.
Definition SPI2BRGSET : label := Name SPI2BRG SET.
Definition SPI2BRGINV : label := Name SPI2BRG INV.
Definition SPI2CON2CLR : label := Name SPI2CON2 CLR.
Definition SPI2CON2SET : label := Name SPI2CON2 SET.
Definition SPI2CON2INV : label := Name SPI2CON2 INV.
Definition SPI3CONCLR : label := Name SPI3CON CLR.
Definition SPI3CONSET : label := Name SPI3CON SET.
Definition SPI3CONINV : label := Name SPI3CON INV.
Definition SPI3STATCLR : label := Name SPI3STAT CLR.
Definition SPI3STATSET : label := Name SPI3STAT SET.
Definition SPI3STATINV : label := Name SPI3STAT INV.
Definition SPI3BRGCLR : label := Name SPI3BRG CLR.
Definition SPI3BRGSET : label := Name SPI3BRG SET.
Definition SPI3BRGINV : label := Name SPI3BRG INV.
Definition SPI3CON2CLR : label := Name SPI3CON2 CLR.
Definition SPI3CON2SET : label := Name SPI3CON2 SET.
Definition SPI3CON2INV : label := Name SPI3CON2 INV.
Definition SPI4CONCLR : label := Name SPI4CON CLR.
Definition SPI4CONSET : label := Name SPI4CON SET.
Definition SPI4CONINV : label := Name SPI4CON INV.
Definition SPI4STATCLR : label := Name SPI4STAT CLR.
Definition SPI4STATSET : label := Name SPI4STAT SET.
Definition SPI4STATINV : label := Name SPI4STAT INV.
Definition SPI4BRGCLR : label := Name SPI4BRG CLR.
Definition SPI4BRGSET : label := Name SPI4BRG SET.
Definition SPI4BRGINV : label := Name SPI4BRG INV.
Definition SPI4CON2CLR : label := Name SPI4CON2 CLR.
Definition SPI4CON2SET : label := Name SPI4CON2 SET.
Definition SPI4CON2INV : label := Name SPI4CON2 INV.
Definition RTCCONCLR : label := Name RTCCON CLR.
Definition RTCCONSET : label := Name RTCCON SET.

(** ** Constants of the missing headers *)

Class pic32mz_h : Type := {
  (** offset of a register in the peripheral window *)
  addr : reg -> Z;
  (** number of the last interrupt source *)
  PIC32_IRQ_LAST : Z;
  (** position of the IP field of the CP0 Cause register *)
  CP0Ca_IP : Z;
  PIC32_CFGCON_DMAPRI : Z;  PIC32_CFGCON_CPUPRI : Z;
  PIC32_CFGCON_ICACLK : Z;  PIC32_CFGCON_OCACLK : Z;
  PIC32_CFGCON_IOLOCK : Z;  PIC32_CFGCON_PMDLOCK : Z;
  PIC32_CFGCON_PGLOCK : Z;  PIC32_CFGCON_USBSSEN : Z;
  PIC32_CFGCON_ECC_MASK : Z; PIC32_CFGCON_ECC_DISWR : Z;
  PIC32_CFGCON_JTAGEN : Z;  PIC32_CFGCON_TROEN : Z;
  PIC32_CFGCON_TDOEN : Z;
  PIC32_RTCC_ON : Z;        PIC32_RTCC_CLKON : Z;
  PIC32_RTCC_HALFSEC : Z;   PIC32_RTCC_SYNC : Z;
  PIC32_RTCTIME_SEC : Z;    PIC32_RTCTIME_MIN : Z;
  PIC32_RTCTIME_HOUR : Z;   PIC32_RTCDATE_DAY : Z;
  PIC32_RTCDATE_MONTH : Z;  PIC32_RTCDATE_YEAR : Z;
  PIC32_USTA_URXDA : Z;     PIC32_USTA_FERR : Z;
  PIC32_USTA_PERR : Z;      PIC32_USTA_RIDLE : Z;
  PIC32_USTA_TRMT : Z;      PIC32_USTA_UTXBF : Z;
  PIC32_SPISTAT_SPIROV : Z; PIC32_SPISTAT_SPITBE : Z
}.

(** Offset of a case label. *)
Definition offset_of {H : pic32mz_h} (l : label) : Z := addr (base l) + disp (view l).

(** ** Machine state *)

(** Board variants. *)
Inductive board : Type := BOARD_WIFIRE | BOARD_MEBII | BOARD_EXPLORER16 | BOARD_HMZ144.

(** The fields of [struct tm] that [io_reset] reads. *)
Record tm : Type := {
  tm_sec : Z; tm_min : Z; tm_hour : Z; tm_wday : Z;
  tm_mday : Z; tm_mon : Z; tm_year : Z
}.

(** The text of a diagnostic, by format string. *)
Inductive message : Type :=
  | Read_not_supported (offset : Z)
    (* "--- Read 1f8%05x: peripheral register not supported\n" *)
  | Write_not_supported (data offset : Z)
    (* "--- Write %08x to 1f8%05x: peripheral register not supported\n" *)
  | Write_readonly (data : Z) (name : label)
    (* "--- Write %08x to %s: readonly register\n" *)
  | Priority_level (cause_ripl : Z)
    (* "--- Priority level Cause.RIPL = %u\n" *)
  | IO_read (bytes data : Z) (name : label)
    (* "--- I/O Read  %02x from %s\n", also %04x and %08x *)
  | IO_write (data : Z) (name : label).
    (* "--- I/O Write %08x to %s\n" *)

(** What the simulator does to its surroundings. *)
Inductive event : Type :=
  | printf (m : message)                 (* on standard output *)
  | fprintf_logfile (m : message)        (* on qemu_logfile *)
  | cpu_interrupt_hard                   (* cpu_interrupt(CPU(s->cpu), CPU_INTERRUPT_HARD) *)
  | qemu_system_reset_request.

(** [pic32_t], with what the functions reach through it or around
    it: the Cause register of the CPU, the log mask, the host clock,
    the [struct tm] that [gmtime] fills in, and the trace of events
    so far (latest first).  The host clock is the sequence of its
    readings to come: [host_clock s n] is what [time] and [gmtime]
    give at the call after [n] others. *)
Record pic32_t : Type := {
  iomem : Z -> Z;               (* 32-bit cells, by offset *)
  syskey_unlock : Z;            (* syskey state *)
  board_type : board;
  stop_on_reset : Z;
  spi : list (Z * Z);           (* rfifo and wfifo index of each SPI port *)
  CP0_Cause : Z;                (* s->cpu->env.CP0_Cause, an int32_t *)
  log_instr : bool;             (* qemu_loglevel_mask(CPU_LOG_INSTR) *)
  host_clock : nat -> tm;       (* the readings of time() to come *)
  gmtime_now : tm;              (* *gmtime(&now), as the last call left it *)
  trace : list event
}.

Definition set_iomem (f : Z -> Z) (s : pic32_t) : pic32_t :=
  {| iomem := f; syskey_unlock := syskey_unlock s; board_type := board_type s;
     stop_on_reset := stop_on_reset s; spi := spi s; CP0_Cause := CP0_Cause s;
     log_instr := log_instr s; host_clock := host_clock s;
     gmtime_now := gmtime_now s; trace := trace s |}.

Definition set_syskey_unlock (u : Z) (s : pic32_t) : pic32_t :=
  {| iomem := iomem s; syskey_unlock := u; board_type := board_type s;
     stop_on_reset := stop_on_reset s; spi := spi s; CP0_Cause := CP0_Cause s;
     log_instr := log_instr s; host_clock := host_clock s;
     gmtime_now := gmtime_now s; trace := trace s |}.

Definition set_spi (l : list (Z * Z)) (s : pic32_t) : pic32_t :=
  {| iomem := iomem s; syskey_unlock := syskey_unlock s; board_type := board_type s;
     stop_on_reset := stop_on_reset s; spi := l; CP0_Cause := CP0_Cause s;
     log_instr := log_instr s; host_clock := host_clock s;
     gmtime_now := gmtime_now s; trace := trace s |}.

Definition set_CP0_Cause (c : Z) (s : pic32_t) : pic32_t :=
  {| iomem := iomem s; syskey_unlock := syskey_unlock s; board_type := board_type s;
     stop_on_reset := stop_on_reset s; spi := spi s; CP0_Cause := c;
     log_instr := log_instr s; host_clock := host_clock s;
     gmtime_now := gmtime_now s; trace := trace s |}.

Definition emit (e : event) (s : pic32_t) : pic32_t :=
  {| iomem := iomem s; syskey_unlock := syskey_unlock s; board_type := board_type s;
     stop_on_reset := stop_on_reset s; spi := spi s; CP0_Cause := CP0_Cause s;
     log_instr := log_instr s; host_clock := host_clock s;
     gmtime_now := gmtime_now s; trace := e :: trace s |}.

(** [if (qemu_loglevel_mask(CPU_LOG_INSTR)) fprintf(qemu_logfile, ...)] *)
Definition log (m : message) (s : pic32_t) : pic32_t :=
  if log_instr s then emit (fprintf_logfile m) s else s.

(** [*bufp = v] where [bufp = &VALUE(offset)]; the cell is an
    [unsigned], so the value is converted. *)
Definition store (offset v : Z) (s : pic32_t) : pic32_t :=
  set_iomem (fun a => if a =? offset then u32 v else iomem s a) s.

(** Modelled from the spec: the macro [VALUE] of the missing header.
    Register Storage is "a flat array of named 32-bit cells addressed
    by offset" (spec, section 2): [VALUE(name)] is the cell at the
    offset of [name]. *)
Definition VALUE {H : pic32mz_h} (s : pic32_t) (name : label) : Z :=
  iomem s (offset_of name).

(** [VALUE(name) = v] *)
Definition assign {H : pic32mz_h} (name : label) (v : Z) (s : pic32_t) : pic32_t :=
  store (offset_of name) v s.

(** A call either returns or ends the simulation with [exit]. *)
Inductive outcome (A : Type) : Type :=
  | Return (a : A) (s : pic32_t)
  | Exit (status : Z) (s : pic32_t).
Arguments Return {A} a s.
Arguments Exit {A} status s.

(** ** Peripheral entry points

    The functions of the other source files that the switches call;
    each may change the state it is handed. *)
Class peripherals : Type := {
  pic32_uart_get_char : pic32_t -> Z -> Z * pic32_t;
  pic32_uart_poll_status : pic32_t -> Z -> pic32_t;
  pic32_uart_put_char : pic32_t -> Z -> Z -> pic32_t;
  pic32_uart_update_mode : pic32_t -> Z -> pic32_t;
  pic32_uart_update_status : pic32_t -> Z -> pic32_t;
  pic32_spi_control : pic32_t -> Z -> pic32_t;
  pic32_spi_readbuf : pic32_t -> Z -> Z * pic32_t;
  pic32_spi_writebuf : pic32_t -> Z -> Z -> pic32_t;
  pic32_gpio_write : pic32_t -> Z -> Z -> pic32_t;
  pic32_eth_control : pic32_t -> pic32_t;
  pic32_mii_command : pic32_t -> pic32_t;
  pic32_mii_write : pic32_t -> pic32_t;
  pic32_sdcard_reset : pic32_t -> pic32_t
}.

(** ** The register switches as tables

    The macros [STORAGE], [READONLY], [WRITEOP], [WRITEOPX] and
    [WRITEOPR] come from the missing header.  Each opens one case of
    a switch over the offset and stores the name of the case in
    [*namep]; the statements that follow it in the source are the
    body of the case.  The tables list the cases of each switch in
    source order. *)

(** The switch of [io_read32]. *)
Module Rd.

Inductive body : Type :=
  | break_                      (* break; *)
  | zero                        (* *bufp = 0; break; *)
  | RSWRST_stop                 (* if ((VALUE(RSWRST) & 1) && s->stop_on_reset) exit(0); break; *)
  | uart_get_char (unit : Z)    (* *bufp = pic32_uart_get_char(s, unit); break; *)
  | uart_poll_status (unit : Z) (* pic32_uart_poll_status(s, unit); break; *)
  | spi_readbuf (unit : Z).     (* *bufp = pic32_spi_readbuf(s, unit); break; *)

(** Modelled from the spec: the macro [STORAGE] of the missing
    header, a plain-storage case (spec, section 4.3) with the one
    label [name]. *)
Inductive case : Type :=
  | STORAGE (name : label) (b : body).

Definition cases : list case :=
  [ STORAGE INTCON break_; STORAGE INTSTAT break_; STORAGE IFS0 break_; STORAGE IFS1 break_;
    STORAGE IFS2 break_; STORAGE IFS3 break_; STORAGE IFS4 break_; STORAGE IFS5 break_;
    STORAGE IEC0 break_; STORAGE IEC1 break_; STORAGE IEC2 break_; STORAGE IEC3 break_;
    STORAGE IEC4 break_; STORAGE IEC5 break_; STORAGE IPC0 break_; STORAGE IPC1 break_;
    STORAGE IPC2 break_; STORAGE IPC3 break_; STORAGE IPC4 break_; STORAGE IPC5 break_;
    STORAGE IPC6 break_; STORAGE IPC7 break_; STORAGE IPC8 break_; STORAGE IPC9 break_;
    STORAGE IPC10 break_; STORAGE IPC11 break_; STORAGE IPC12 break_; STORAGE IPC13 break_;
    STORAGE IPC14 break_; STORAGE IPC15 break_; STORAGE IPC16 break_; STORAGE IPC17 break_;
    STORAGE IPC18 break_; STORAGE IPC19 break_; STORAGE IPC20 break_; STORAGE IPC21 break_;
    STORAGE IPC22 break_; STORAGE IPC23 break_; STORAGE IPC24 break_; STORAGE IPC25 break_;
    STORAGE IPC26 break_; STORAGE IPC27 break_; STORAGE IPC28 break_; STORAGE IPC29 break_;
    STORAGE IPC30 break_; STORAGE IPC31 break_; STORAGE IPC32 break_; STORAGE IPC33 break_;
    STORAGE IPC34 break_; STORAGE IPC35 break_; STORAGE IPC36 break_; STORAGE IPC37 break_;
    STORAGE IPC38 break_; STORAGE IPC39 break_; STORAGE IPC40 break_; STORAGE IPC41 break_;
    STORAGE IPC42 break_; STORAGE IPC43 break_; STORAGE IPC44 break_; STORAGE IPC45 break_;
    STORAGE IPC46 break_; STORAGE IPC47 break_; STORAGE (OFF 0) break_; STORAGE (OFF 1) break_;
    STORAGE (OFF 2) break_; STORAGE (OFF 3) break_; STORAGE (OFF 4) break_; STORAGE (OFF 5) break_;
    STORAGE (OFF 6) break_; STORAGE (OFF 7) break_; STORAGE (OFF 8) break_; STORAGE (OFF 9) break_;
    STORAGE (OFF 10) break_; STORAGE (OFF 11) break_; STORAGE (OFF 12) break_; STORAGE (OFF 13) break_;
    STORAGE (OFF 14) break_; STORAGE (OFF 15) break_; STORAGE (OFF 16) break_; STORAGE (OFF 17) break_;
    STORAGE (OFF 18) break_; STORAGE (OFF 19) break_; STORAGE (OFF 20) break_; STORAGE (OFF 21) break_;
    STORAGE (OFF 22) break_; STORAGE (OFF 23) break_; STORAGE (OFF 24) break_; STORAGE (OFF 25) break_;
    STORAGE (OFF 26) break_; STORAGE (OFF 27) break_; STORAGE (OFF 28) break_; STORAGE (OFF 29) break_;
    STORAGE (OFF 30) break_; STORAGE (OFF 31) break_; STORAGE (OFF 32) break_; STORAGE (OFF 33) break_;
    STORAGE (OFF 34) break_; STORAGE (OFF 35) break_; STORAGE (OFF 36) break_; STORAGE (OFF 37) break_;
    STORAGE (OFF 38) break_; STORAGE (OFF 39) break_; STORAGE (OFF 40) break_; STORAGE (OFF 41) break_;
    STORAGE (OFF 42) break_; STORAGE (OFF 43) break_; STORAGE (OFF 44) break_; STORAGE (OFF 45) break_;
    STORAGE (OFF 46) break_; STORAGE (OFF 47) break_; STORAGE (OFF 48) break_; STORAGE (OFF 49) break_;
    STORAGE (OFF 50) break_; STORAGE (OFF 51) break_; STORAGE (OFF 52) break_; STORAGE (OFF 53) break_;
    STORAGE (OFF 54) break_; STORAGE (OFF 55) break_; STORAGE (OFF 56) break_; STORAGE (OFF 57) break_;
    STORAGE (OFF 58) break_; STORAGE (OFF 59) break_; STORAGE (OFF 60) break_; STORAGE (OFF 61) break_;
    STORAGE (OFF 62) break_; STORAGE (OFF 63) break_; STORAGE (OFF 64) break_; STORAGE (OFF 65) break_;
    STORAGE (OFF 66) break_; STORAGE (OFF 67) break_; STORAGE (OFF 68) break_; STORAGE (OFF 69) break_;
    STORAGE (OFF 70) break_; STORAGE (OFF 71) break_; STORAGE (OFF 72) break_; STORAGE (OFF 73) break_;
    STORAGE (OFF 74) break_; STORAGE (OFF 75) break_; STORAGE (OFF 76) break_; STORAGE (OFF 77) break_;
    STORAGE (OFF 78) break_; STORAGE (OFF 79) break_; STORAGE (OFF 80) break_; STORAGE (OFF 81) break_;
    STORAGE (OFF 82) break_; STORAGE (OFF 83) break_; STORAGE (OFF 84) break_; STORAGE (OFF 85) break_;
    STORAGE (OFF 86) break_; STORAGE (OFF 87) break_; STORAGE (OFF 88) break_; STORAGE (OFF 89) break_;
    STORAGE (OFF 90) break_; STORAGE (OFF 91) break_; STORAGE (OFF 92) break_; STORAGE (OFF 93) break_;
    STORAGE (OFF 94) break_; STORAGE (OFF 95) break_; STORAGE (OFF 96) break_; STORAGE (OFF 97) break_;
    STORAGE (OFF 98) break_; STORAGE (OFF 99) break_; STORAGE (OFF 100) break_;
    STORAGE (OFF 101) break_; STORAGE (OFF 102) break_; STORAGE (OFF 103) break_;
    STORAGE (OFF 104) break_; STORAGE (OFF 105) break_; STORAGE (OFF 106) break_;
    STORAGE (OFF 107) break_; STORAGE (OFF 108) break_; STORAGE (OFF 109) break_;
    STORAGE (OFF 110) break_; STORAGE (OFF 111) break_; STORAGE (OFF 112) break_;
    STORAGE (OFF 113) break_; STORAGE (OFF 114) break_; STORAGE (OFF 115) break_;
    STORAGE (OFF 116) break_; STORAGE (OFF 117) break_; STORAGE (OFF 118) break_;
    STORAGE (OFF 119) break_; STORAGE (OFF 120) break_; STORAGE (OFF 121) break_;
    STORAGE (OFF 122) break_; STORAGE (OFF 123) break_; STORAGE (OFF 124) break_;
    STORAGE (OFF 125) break_; STORAGE (OFF 126) break_; STORAGE (OFF 127) break_;
    STORAGE (OFF 128) break_; STORAGE (OFF 129) break_; STORAGE (OFF 130) break_;
    STORAGE (OFF 131) break_; STORAGE (OFF 132) break_; STORAGE (OFF 133) break_;
    STORAGE (OFF 134) break_; STORAGE (OFF 135) break_; STORAGE (OFF 136) break_;
    STORAGE (OFF 137) break_; STORAGE (OFF 138) break_; STORAGE (OFF 139) break_;
    STORAGE (OFF 140) break_; STORAGE (OFF 141) break_; STORAGE (OFF 142) break_;
    STORAGE (OFF 143) break_; STORAGE (OFF 144) break_; STORAGE (OFF 145) break_;
    STORAGE (OFF 146) break_; STORAGE (OFF 147) break_; STORAGE (OFF 148) break_;
    STORAGE (OFF 149) break_; STORAGE (OFF 150) break_; STORAGE (OFF 151) break_;
    STORAGE (OFF 152) break_; STORAGE (OFF 153) break_; STORAGE (OFF 154) break_;
    STORAGE (OFF 155) break_; STORAGE (OFF 156) break_; STORAGE (OFF 157) break_;
    STORAGE (OFF 158) break_; STORAGE (OFF 159) break_; STORAGE (OFF 160) break_;
    STORAGE (OFF 161) break_; STORAGE (OFF 162) break_; STORAGE (OFF 163) break_;
    STORAGE (OFF 164) break_; STORAGE (OFF 165) break_; STORAGE (OFF 166) break_;
    STORAGE (OFF 167) break_; STORAGE (OFF 168) break_; STORAGE (OFF 169) break_;
    STORAGE (OFF 170) break_; STORAGE (OFF 171) break_; STORAGE (OFF 172) break_;
    STORAGE (OFF 173) break_; STORAGE (OFF 174) break_; STORAGE (OFF 175) break_;
    STORAGE (OFF 176) break_; STORAGE (OFF 177) break_; STORAGE (OFF 178) break_;
    STORAGE (OFF 179) break_; STORAGE (OFF 180) break_; STORAGE (OFF 181) break_;
    STORAGE (OFF 182) break_; STORAGE (OFF 183) break_; STORAGE (OFF 184) break_;
    STORAGE (OFF 185) break_; STORAGE (OFF 186) break_; STORAGE (OFF 187) break_;
    STORAGE (OFF 188) break_; STORAGE (OFF 189) break_; STORAGE (OFF 190) break_;
    STORAGE PRECON break_; STORAGE PRESTAT break_; STORAGE CFGCON break_; STORAGE DEVID break_;
    STORAGE SYSKEY break_; STORAGE RCON break_; STORAGE RSWRST RSWRST_stop; STORAGE OSCCON break_;
    STORAGE OSCTUN break_; STORAGE SPLLCON break_; STORAGE REFO1CON break_; STORAGE REFO1CONCLR zero;
    STORAGE REFO1CONSET zero; STORAGE REFO1CONINV zero; STORAGE REFO2CON break_;
    STORAGE REFO2CONCLR zero; STORAGE REFO2CONSET zero; STORAGE REFO2CONINV zero;
    STORAGE REFO3CON break_; STORAGE REFO3CONCLR zero; STORAGE REFO3CONSET zero;
    STORAGE REFO3CONINV zero; STORAGE REFO4CON break_; STORAGE REFO4CONCLR zero;
    STORAGE REFO4CONSET zero; STORAGE REFO4CONINV zero; STORAGE PB1DIV break_; STORAGE PB1DIVCLR zero;
    STORAGE PB1DIVSET zero; STORAGE PB1DIVINV zero; STORAGE PB2DIV break_; STORAGE PB2DIVCLR zero;
    STORAGE PB2DIVSET zero; STORAGE PB2DIVINV zero; STORAGE PB3DIV break_; STORAGE PB3DIVCLR zero;
    STORAGE PB3DIVSET zero; STORAGE PB3DIVINV zero; STORAGE PB4DIV break_; STORAGE PB4DIVCLR zero;
    STORAGE PB4DIVSET zero; STORAGE PB4DIVINV zero; STORAGE PB5DIV break_; STORAGE PB5DIVCLR zero;
    STORAGE PB5DIVSET zero; STORAGE PB5DIVINV zero; STORAGE PB7DIV break_; STORAGE PB7DIVCLR zero;
    STORAGE PB7DIVSET zero; STORAGE PB7DIVINV zero; STORAGE PB8DIV break_; STORAGE PB8DIVCLR zero;
    STORAGE PB8DIVSET zero; STORAGE PB8DIVINV zero; STORAGE INT1R break_; STORAGE INT2R break_;
    STORAGE INT3R break_; STORAGE INT4R break_; STORAGE T2CKR break_; STORAGE T3CKR break_;
    STORAGE T4CKR break_; STORAGE T5CKR break_; STORAGE T6CKR break_; STORAGE T7CKR break_;
    STORAGE T8CKR break_; STORAGE T9CKR break_; STORAGE IC1R break_; STORAGE IC2R break_;
    STORAGE IC3R break_; STORAGE IC4R break_; STORAGE IC5R break_; STORAGE IC6R break_;
    STORAGE IC7R break_; STORAGE IC8R break_; STORAGE IC9R break_; STORAGE OCFAR break_;
    STORAGE U1RXR break_; STORAGE U1CTSR break_; STORAGE U2RXR break_; STORAGE U2CTSR break_;
    STORAGE U3RXR break_; STORAGE U3CTSR break_; STORAGE U4RXR break_; STORAGE U4CTSR break_;
    STORAGE U5RXR break_; STORAGE U5CTSR break_; STORAGE U6RXR break_; STORAGE U6CTSR break_;
    STORAGE SDI1R break_; STORAGE SS1R break_; STORAGE SDI2R break_; STORAGE SS2R break_;
    STORAGE SDI3R break_; STORAGE SS3R break_; STORAGE SDI4R break_; STORAGE SS4R break_;
    STORAGE SDI5R break_; STORAGE SS5R break_; STORAGE SDI6R break_; STORAGE SS6R break_;
    STORAGE C1RXR break_; STORAGE C2RXR break_; STORAGE REFCLKI1R break_; STORAGE REFCLKI3R break_;
    STORAGE REFCLKI4R break_; STORAGE RPA14R break_; STORAGE RPA15R break_; STORAGE RPB0R break_;
    STORAGE RPB1R break_; STORAGE RPB2R break_; STORAGE RPB3R break_; STORAGE RPB5R break_;
    STORAGE RPB6R break_; STORAGE RPB7R break_; STORAGE RPB8R break_; STORAGE RPB9R break_;
    STORAGE RPB10R break_; STORAGE RPB14R break_; STORAGE RPB15R break_; STORAGE RPC1R break_;
    STORAGE RPC2R break_; STORAGE RPC3R break_; STORAGE RPC4R break_; STORAGE RPC13R break_;
    STORAGE RPC14R break_; STORAGE RPD0R break_; STORAGE RPD1R break_; STORAGE RPD2R break_;
    STORAGE RPD3R break_; STORAGE RPD4R break_; STORAGE RPD5R break_; STORAGE RPD6R break_;
    STORAGE RPD7R break_; STORAGE RPD9R break_; STORAGE RPD10R break_; STORAGE RPD11R break_;
    STORAGE RPD12R break_; STORAGE RPD14R break_; STORAGE RPD15R break_; STORAGE RPE3R break_;
    STORAGE RPE5R break_; STORAGE RPE8R break_; STORAGE RPE9R break_; STORAGE RPF0R break_;
    STORAGE RPF1R break_; STORAGE RPF2R break_; STORAGE RPF3R break_; STORAGE RPF4R break_;
    STORAGE RPF5R break_; STORAGE RPF8R break_; STORAGE RPF12R break_; STORAGE RPF13R break_;
    STORAGE RPG0R break_; STORAGE RPG1R break_; STORAGE RPG6R break_; STORAGE RPG7R break_;
    STORAGE RPG8R break_; STORAGE RPG9R break_; STORAGE RTCCON break_; STORAGE RTCTIME break_;
    STORAGE RTCDATE break_; STORAGE ANSELA break_; STORAGE TRISA break_; STORAGE PORTA break_;
    STORAGE LATA break_; STORAGE ODCA break_; STORAGE CNPUA break_; STORAGE CNPDA break_;
    STORAGE CNCONA break_; STORAGE CNENA break_; STORAGE CNSTATA break_; STORAGE ANSELB break_;
    STORAGE TRISB break_; STORAGE PORTB break_; STORAGE LATB break_; STORAGE ODCB break_;
    STORAGE CNPUB break_; STORAGE CNPDB break_; STORAGE CNCONB break_; STORAGE CNENB break_;
    STORAGE CNSTATB break_; STORAGE ANSELC break_; STORAGE TRISC break_; STORAGE PORTC break_;
    STORAGE LATC break_; STORAGE ODCC break_; STORAGE CNPUC break_; STORAGE CNPDC break_;
    STORAGE CNCONC break_; STORAGE CNENC break_; STORAGE CNSTATC break_; STORAGE ANSELD break_;
    STORAGE TRISD break_; STORAGE PORTD break_; STORAGE LATD break_; STORAGE ODCD break_;
    STORAGE CNPUD break_; STORAGE CNPDD break_; STORAGE CNCOND break_; STORAGE CNEND break_;
    STORAGE CNSTATD break_; STORAGE ANSELE break_; STORAGE TRISE break_; STORAGE PORTE break_;
    STORAGE LATE break_; STORAGE ODCE break_; STORAGE CNPUE break_; STORAGE CNPDE break_;
    STORAGE CNCONE break_; STORAGE CNENE break_; STORAGE CNSTATE break_; STORAGE ANSELF break_;
    STORAGE TRISF break_; STORAGE PORTF break_; STORAGE LATF break_; STORAGE ODCF break_;
    STORAGE CNPUF break_; STORAGE CNPDF break_; STORAGE CNCONF break_; STORAGE CNENF break_;
    STORAGE CNSTATF break_; STORAGE ANSELG break_; STORAGE TRISG break_; STORAGE PORTG break_;
    STORAGE LATG break_; STORAGE ODCG break_; STORAGE CNPUG break_; STORAGE CNPDG break_;
    STORAGE CNCONG break_; STORAGE CNENG break_; STORAGE CNSTATG break_; STORAGE ANSELH break_;
    STORAGE TRISH break_; STORAGE PORTH break_; STORAGE LATH break_; STORAGE ODCH break_;
    STORAGE CNPUH break_; STORAGE CNPDH break_; STORAGE CNCONH break_; STORAGE CNENH break_;
    STORAGE CNSTATH break_; STORAGE ANSELJ break_; STORAGE TRISJ break_; STORAGE PORTJ break_;
    STORAGE LATJ break_; STORAGE ODCJ break_; STORAGE CNPUJ break_; STORAGE CNPDJ break_;
    STORAGE CNCONJ break_; STORAGE CNENJ break_; STORAGE CNSTATJ break_; STORAGE TRISK break_;
    STORAGE PORTK break_; STORAGE LATK break_; STORAGE ODCK break_; STORAGE CNPUK break_;
    STORAGE CNPDK break_; STORAGE CNCONK break_; STORAGE CNENK break_; STORAGE CNSTATK break_;
    STORAGE U1RXREG (uart_get_char 0); STORAGE U1BRG break_; STORAGE U1MODE break_;
    STORAGE U1STA (uart_poll_status 0); STORAGE U1TXREG zero; STORAGE U1MODECLR zero;
    STORAGE U1MODESET zero; STORAGE U1MODEINV zero; STORAGE U1STACLR zero; STORAGE U1STASET zero;
    STORAGE U1STAINV zero; STORAGE U1BRGCLR zero; STORAGE U1BRGSET zero; STORAGE U1BRGINV zero;
    STORAGE U2RXREG (uart_get_char 1); STORAGE U2BRG break_; STORAGE U2MODE break_;
    STORAGE U2STA (uart_poll_status 1); STORAGE U2TXREG zero; STORAGE U2MODECLR zero;
    STORAGE U2MODESET zero; STORAGE U2MODEINV zero; STORAGE U2STACLR zero; STORAGE U2STASET zero;
    STORAGE U2STAINV zero; STORAGE U2BRGCLR zero; STORAGE U2BRGSET zero; STORAGE U2BRGINV zero;
    STORAGE U3RXREG (uart_get_char 2); STORAGE U3BRG break_; STORAGE U3MODE break_;
    STORAGE U3STA (uart_poll_status 2); STORAGE U3TXREG zero; STORAGE U3MODECLR zero;
    STORAGE U3MODESET zero; STORAGE U3MODEINV zero; STORAGE U3STACLR zero; STORAGE U3STASET zero;
    STORAGE U3STAINV zero; STORAGE U3BRGCLR zero; STORAGE U3BRGSET zero; STORAGE U3BRGINV zero;
    STORAGE U4RXREG (uart_get_char 3); STORAGE U4BRG break_; STORAGE U4MODE break_;
    STORAGE U4STA (uart_poll_status 3); STORAGE U4TXREG zero; STORAGE U4MODECLR zero;
    STORAGE U4MODESET zero; STORAGE U4MODEINV zero; STORAGE U4STACLR zero; STORAGE U4STASET zero;
    STORAGE U4STAINV zero; STORAGE U4BRGCLR zero; STORAGE U4BRGSET zero; STORAGE U4BRGINV zero;
    STORAGE U5RXREG (uart_get_char 4); STORAGE U5BRG break_; STORAGE U5MODE break_;
    STORAGE U5STA (uart_poll_status 4); STORAGE U5TXREG zero; STORAGE U5MODECLR zero;
    STORAGE U5MODESET zero; STORAGE U5MODEINV zero; STORAGE U5STACLR zero; STORAGE U5STASET zero;
    STORAGE U5STAINV zero; STORAGE U5BRGCLR zero; STORAGE U5BRGSET zero; STORAGE U5BRGINV zero;
    STORAGE U6RXREG (uart_get_char 5); STORAGE U6BRG break_; STORAGE U6MODE break_;
    STORAGE U6STA (uart_poll_status 5); STORAGE U6TXREG zero; STORAGE U6MODECLR zero;
    STORAGE U6MODESET zero; STORAGE U6MODEINV zero; STORAGE U6STACLR zero; STORAGE U6STASET zero;
    STORAGE U6STAINV zero; STORAGE U6BRGCLR zero; STORAGE U6BRGSET zero; STORAGE U6BRGINV zero;
    STORAGE SPI1CON break_; STORAGE SPI1CONCLR zero; STORAGE SPI1CONSET zero; STORAGE SPI1CONINV zero;
    STORAGE SPI1STAT break_; STORAGE SPI1STATCLR zero; STORAGE SPI1STATSET zero;
    STORAGE SPI1STATINV zero; STORAGE SPI1BUF (spi_readbuf 0); STORAGE SPI1BRG break_;
    STORAGE SPI1BRGCLR zero; STORAGE SPI1BRGSET zero; STORAGE SPI1BRGINV zero; STORAGE SPI1CON2 break_;
    STORAGE SPI1CON2CLR zero; STORAGE SPI1CON2SET zero; STORAGE SPI1CON2INV zero;
    STORAGE SPI2CON break_; STORAGE SPI2CONCLR zero; STORAGE SPI2CONSET zero; STORAGE SPI2CONINV zero;
    STORAGE SPI2STAT break_; STORAGE SPI2STATCLR zero; STORAGE SPI2STATSET zero;
    STORAGE SPI2STATINV zero; STORAGE SPI2BUF (spi_readbuf 1); STORAGE SPI2BRG break_;
    STORAGE SPI2BRGCLR zero; STORAGE SPI2BRGSET zero; STORAGE SPI2BRGINV zero; STORAGE SPI2CON2 break_;
    STORAGE SPI2CON2CLR zero; STORAGE SPI2CON2SET zero; STORAGE SPI2CON2INV zero;
    STORAGE SPI3CON break_; STORAGE SPI3CONCLR zero; STORAGE SPI3CONSET zero; STORAGE SPI3CONINV zero;
    STORAGE SPI3STAT break_; STORAGE SPI3STATCLR zero; STORAGE SPI3STATSET zero;
    STORAGE SPI3STATINV zero; STORAGE SPI3BUF (spi_readbuf 2); STORAGE SPI3BRG break_;
    STORAGE SPI3BRGCLR zero; STORAGE SPI3BRGSET zero; STORAGE SPI3BRGINV zero; STORAGE SPI3CON2 break_;
    STORAGE SPI3CON2CLR zero; STORAGE SPI3CON2SET zero; STORAGE SPI3CON2INV zero;
    STORAGE SPI4CON break_; STORAGE SPI4CONCLR zero; STORAGE SPI4CONSET zero; STORAGE SPI4CONINV zero;
    STORAGE SPI4STAT break_; STORAGE SPI4STATCLR zero; STORAGE SPI4STATSET zero;
    STORAGE SPI4STATINV zero; STORAGE SPI4BUF (spi_readbuf 3); STORAGE SPI4BRG break_;
    STORAGE SPI4BRGCLR zero; STORAGE SPI4BRGSET zero; STORAGE SPI4BRGINV zero; STORAGE SPI4CON2 break_;
    STORAGE SPI4CON2CLR zero; STORAGE SPI4CON2SET zero; STORAGE SPI4CON2INV zero; STORAGE T1CON break_;
    STORAGE TMR1 break_; STORAGE PR1 break_; STORAGE T2CON break_; STORAGE TMR2 break_;
    STORAGE PR2 break_; STORAGE T3CON break_; STORAGE TMR3 break_; STORAGE PR3 break_;
    STORAGE T4CON break_; STORAGE TMR4 break_; STORAGE PR4 break_; STORAGE T5CON break_;
    STORAGE TMR5 break_; STORAGE PR5 break_; STORAGE T6CON break_; STORAGE TMR6 break_;
    STORAGE PR6 break_; STORAGE T7CON break_; STORAGE TMR7 break_; STORAGE PR7 break_;
    STORAGE T8CON break_; STORAGE TMR8 break_; STORAGE PR8 break_; STORAGE T9CON break_;
    STORAGE TMR9 break_; STORAGE PR9 break_; STORAGE ETHCON1 break_; STORAGE ETHCON2 break_;
    STORAGE ETHTXST break_; STORAGE ETHRXST break_; STORAGE ETHHT0 break_; STORAGE ETHHT1 break_;
    STORAGE ETHPMM0 break_; STORAGE ETHPMM1 break_; STORAGE ETHPMCS break_; STORAGE ETHPMO break_;
    STORAGE ETHRXFC break_; STORAGE ETHRXWM break_; STORAGE ETHIEN break_; STORAGE ETHIRQ break_;
    STORAGE ETHSTAT break_; STORAGE ETHRXOVFLOW break_; STORAGE ETHFRMTXOK break_;
    STORAGE ETHSCOLFRM break_; STORAGE ETHMCOLFRM break_; STORAGE ETHFRMRXOK break_;
    STORAGE ETHFCSERR break_; STORAGE ETHALGNERR break_; STORAGE EMAC1CFG1 break_;
    STORAGE EMAC1CFG2 break_; STORAGE EMAC1IPGT break_; STORAGE EMAC1IPGR break_;
    STORAGE EMAC1CLRT break_; STORAGE EMAC1MAXF break_; STORAGE EMAC1SUPP break_;
    STORAGE EMAC1TEST break_; STORAGE EMAC1MCFG break_; STORAGE EMAC1MCMD break_;
    STORAGE EMAC1MADR break_; STORAGE EMAC1MWTD break_; STORAGE EMAC1MRDD break_;
    STORAGE EMAC1MIND break_; STORAGE EMAC1SA0 break_; STORAGE EMAC1SA1 break_;
    STORAGE EMAC1SA2 break_; STORAGE USBCSR0 break_; STORAGE USBCSR1 break_; STORAGE USBCSR2 break_;
    STORAGE USBCSR3 break_; STORAGE USBIENCSR0 break_; STORAGE USBIENCSR1 break_;
    STORAGE USBIENCSR2 break_; STORAGE USBIENCSR3 break_; STORAGE USBFIFO0 break_;
    STORAGE USBFIFO1 break_; STORAGE USBFIFO2 break_; STORAGE USBFIFO3 break_; STORAGE USBFIFO4 break_;
    STORAGE USBFIFO5 break_; STORAGE USBFIFO6 break_; STORAGE USBFIFO7 break_; STORAGE USBOTG break_;
    STORAGE USBFIFOA break_; STORAGE USBHWVER break_; STORAGE USBINFO break_; STORAGE USBEOFRST break_;
    STORAGE USBE0TXA break_; STORAGE USBE0RXA break_; STORAGE USBE1TXA break_; STORAGE USBE1RXA break_;
    STORAGE USBE2TXA break_; STORAGE USBE2RXA break_; STORAGE USBE3TXA break_; STORAGE USBE3RXA break_;
    STORAGE USBE4TXA break_; STORAGE USBE4RXA break_; STORAGE USBE5TXA break_; STORAGE USBE5RXA break_;
    STORAGE USBE6TXA break_; STORAGE USBE6RXA break_; STORAGE USBE7TXA break_; STORAGE USBE7RXA break_;
    STORAGE USBE0CSR0 break_; STORAGE USBE0CSR2 break_; STORAGE USBE0CSR3 break_;
    STORAGE USBE1CSR0 break_; STORAGE USBE1CSR1 break_; STORAGE USBE1CSR2 break_;
    STORAGE USBE1CSR3 break_; STORAGE USBE2CSR0 break_; STORAGE USBE2CSR1 break_;
    STORAGE USBE2CSR2 break_; STORAGE USBE2CSR3 break_; STORAGE USBE3CSR0 break_;
    STORAGE USBE3CSR1 break_; STORAGE USBE3CSR2 break_; STORAGE USBE3CSR3 break_;
    STORAGE USBE4CSR0 break_; STORAGE USBE4CSR1 break_; STORAGE USBE4CSR2 break_;
    STORAGE USBE4CSR3 break_; STORAGE USBE5CSR0 break_; STORAGE USBE5CSR1 break_;
    STORAGE USBE5CSR2 break_; STORAGE USBE5CSR3 break_; STORAGE USBE6CSR0 break_;
    STORAGE USBE6CSR1 break_; STORAGE USBE6CSR2 break_; STORAGE USBE6CSR3 break_;
    STORAGE USBE7CSR0 break_; STORAGE USBE7CSR1 break_; STORAGE USBE7CSR2 break_;
    STORAGE USBE7CSR3 break_; STORAGE USBDMAINT break_; STORAGE USBDMA1C break_;
    STORAGE USBDMA1A break_; STORAGE USBDMA1N break_; STORAGE USBDMA2C break_; STORAGE USBDMA2A break_;
    STORAGE USBDMA2N break_; STORAGE USBDMA3C break_; STORAGE USBDMA3A break_; STORAGE USBDMA3N break_;
    STORAGE USBDMA4C break_; STORAGE USBDMA4A break_; STORAGE USBDMA4N break_; STORAGE USBDMA5C break_;
    STORAGE USBDMA5A break_; STORAGE USBDMA5N break_; STORAGE USBDMA6C break_; STORAGE USBDMA6A break_;
    STORAGE USBDMA6N break_; STORAGE USBDMA7C break_; STORAGE USBDMA7A break_; STORAGE USBDMA7N break_;
    STORAGE USBDMA8C break_; STORAGE USBDMA8A break_; STORAGE USBDMA8N break_; STORAGE USBE1RPC break_;
    STORAGE USBE2RPC break_; STORAGE USBE3RPC break_; STORAGE USBE4RPC break_; STORAGE USBE5RPC break_;
    STORAGE USBE6RPC break_; STORAGE USBE7RPC break_; STORAGE USBDPBFD break_;
    STORAGE USBTMCON1 break_; STORAGE USBTMCON2 break_; STORAGE USBLPMR1 break_;
    STORAGE USBLMPR2 break_ ].

Definition labels (c : case) : list label :=
  match c with STORAGE name _ => [name] end.

End Rd.

(** The switch of [io_write32]. *)
Module Wr.

Inductive body : Type :=
  | break_                        (* break; *)
  | return_                       (* return; *)
  | goto_irq                      (* goto irq;  where  irq: update_irq_status(s); return; *)
  | pps_input_group (g : Z)       (* pps_input_group<g>(offset, data); break; *)
  | pps_output_group (g : Z)      (* pps_output_group<g>(offset, data); break; *)
  | CFGCON_mask                   (* mask = ...; data = (data & mask) | ( *bufp & ~mask); break; *)
  | SYSKEY_unlock                 (* the unlock state machine; break; *)
  | RSWRST_reset                  (* the software reset; break; *)
  | RTCCON_clkon                  (* CLKON follows ON; return; *)
  | uart_put_char (unit : Z)      (* pic32_uart_put_char(s, unit, data); break; *)
  | uart_update_mode (unit : Z)   (* pic32_uart_update_mode(s, unit); return; *)
  | uart_update_status (unit : Z) (* pic32_uart_update_status(s, unit); return; *)
  | spi_control (unit : Z)        (* pic32_spi_control(s, unit); return; *)
  | spi_writebuf (unit : Z)       (* pic32_spi_writebuf(s, unit, data); return; *)
  | gpio_write (port : Z) (lat : reg) (* pic32_gpio_write(s, port, VALUE(lat)); return; *)
  | eth_control                   (* pic32_eth_control(s); return; *)
  | mii_command                   (* pic32_mii_command(s); return; *)
  | mii_write.                    (* pic32_mii_write(s); return; *)

(** The bodies that only let the switch store the data: [break;],
    also after a call of one of the [pps_] functions, whose bodies
    are empty. *)
Definition stores_only (b : body) : bool :=
  match b with
  | break_ | pps_input_group _ | pps_output_group _ => true
  | _ => false
  end.

(** The read-only masks given to [WRITEOPR]. *)
Inductive romask : Type :=
  | RTCC_readonly     (* PIC32_RTCC_HALFSEC | PIC32_RTCC_SYNC | PIC32_RTCC_CLKON *)
  | USTA_readonly     (* PIC32_USTA_URXDA | PIC32_USTA_FERR | PIC32_USTA_PERR |
                         PIC32_USTA_RIDLE | PIC32_USTA_TRMT | PIC32_USTA_UTXBF *)
  | SPISTAT_readonly. (* ~PIC32_SPISTAT_SPIROV *)

(** Modelled from the spec: the macros [STORAGE], [READONLY],
    [WRITEOP], [WRITEOPX] and [WRITEOPR] of the missing header.  Per
    the spec (sections 3, 4.2, 4.3 and 7): [STORAGE] opens a
    plain-storage case with the one label [name]; [READONLY] a case
    whose writes are reported and discarded; [WRITEOP] an alias
    group, with the labels [name], [name+4], [name+8], [name+12],
    which stores [write_op(VALUE(name), data, offset)] into the
    canonical cell before its body runs; [WRITEOPX(name, target)]
    has the four labels of [name] and continues as [WRITEOP(target)]
    does: in [WRITEOPX name target b], [b] is the body of the case
    [WRITEOP(target)]; [WRITEOPR(name, romask)] is an alias group
    whose bits in [romask] keep their value. *)
Inductive case : Type :=
  | STORAGE (name : reg) (b : body)
  | READONLY (name : reg)
  | WRITEOP (name : reg) (b : body)
  | WRITEOPX (name target : reg) (b : body)
  | WRITEOPR (name : reg) (m : romask) (b : body).

Definition cases : list case :=
  [ WRITEOP INTCON return_; READONLY INTSTAT; WRITEOP IPTMR return_; WRITEOP IFS0 goto_irq;
    WRITEOP IFS1 goto_irq; WRITEOP IFS2 goto_irq; WRITEOP IFS3 goto_irq; WRITEOP IFS4 goto_irq;
    WRITEOP IFS5 goto_irq; WRITEOP IEC0 goto_irq; WRITEOP IEC1 goto_irq; WRITEOP IEC2 goto_irq;
    WRITEOP IEC3 goto_irq; WRITEOP IEC4 goto_irq; WRITEOP IEC5 goto_irq; WRITEOP IPC0 goto_irq;
    WRITEOP IPC1 goto_irq; WRITEOP IPC2 goto_irq; WRITEOP IPC3 goto_irq; WRITEOP IPC4 goto_irq;
    WRITEOP IPC5 goto_irq; WRITEOP IPC6 goto_irq; WRITEOP IPC7 goto_irq; WRITEOP IPC8 goto_irq;
    WRITEOP IPC9 goto_irq; WRITEOP IPC10 goto_irq; WRITEOP IPC11 goto_irq; WRITEOP IPC12 goto_irq;
    WRITEOP IPC13 goto_irq; WRITEOP IPC14 goto_irq; WRITEOP IPC15 goto_irq; WRITEOP IPC16 goto_irq;
    WRITEOP IPC17 goto_irq; WRITEOP IPC18 goto_irq; WRITEOP IPC19 goto_irq; WRITEOP IPC20 goto_irq;
    WRITEOP IPC21 goto_irq; WRITEOP IPC22 goto_irq; WRITEOP IPC23 goto_irq; WRITEOP IPC24 goto_irq;
    WRITEOP IPC25 goto_irq; WRITEOP IPC26 goto_irq; WRITEOP IPC27 goto_irq; WRITEOP IPC28 goto_irq;
    WRITEOP IPC29 goto_irq; WRITEOP IPC30 goto_irq; WRITEOP IPC31 goto_irq; WRITEOP IPC32 goto_irq;
    WRITEOP IPC33 goto_irq; WRITEOP IPC34 goto_irq; WRITEOP IPC35 goto_irq; WRITEOP IPC36 goto_irq;
    WRITEOP IPC37 goto_irq; WRITEOP IPC38 goto_irq; WRITEOP IPC39 goto_irq; WRITEOP IPC40 goto_irq;
    WRITEOP IPC41 goto_irq; WRITEOP IPC42 goto_irq; WRITEOP IPC43 goto_irq; WRITEOP IPC44 goto_irq;
    WRITEOP IPC45 goto_irq; WRITEOP IPC46 goto_irq; WRITEOP IPC47 goto_irq; STORAGE (OFF 0) break_;
    STORAGE (OFF 1) break_; STORAGE (OFF 2) break_; STORAGE (OFF 3) break_; STORAGE (OFF 4) break_;
    STORAGE (OFF 5) break_; STORAGE (OFF 6) break_; STORAGE (OFF 7) break_; STORAGE (OFF 8) break_;
    STORAGE (OFF 9) break_; STORAGE (OFF 10) break_; STORAGE (OFF 11) break_; STORAGE (OFF 12) break_;
    STORAGE (OFF 13) break_; STORAGE (OFF 14) break_; STORAGE (OFF 15) break_; STORAGE (OFF 16) break_;
    STORAGE (OFF 17) break_; STORAGE (OFF 18) break_; STORAGE (OFF 19) break_; STORAGE (OFF 20) break_;
    STORAGE (OFF 21) break_; STORAGE (OFF 22) break_; STORAGE (OFF 23) break_; STORAGE (OFF 24) break_;
    STORAGE (OFF 25) break_; STORAGE (OFF 26) break_; STORAGE (OFF 27) break_; STORAGE (OFF 28) break_;
    STORAGE (OFF 29) break_; STORAGE (OFF 30) break_; STORAGE (OFF 31) break_; STORAGE (OFF 32) break_;
    STORAGE (OFF 33) break_; STORAGE (OFF 34) break_; STORAGE (OFF 35) break_; STORAGE (OFF 36) break_;
    STORAGE (OFF 37) break_; STORAGE (OFF 38) break_; STORAGE (OFF 39) break_; STORAGE (OFF 40) break_;
    STORAGE (OFF 41) break_; STORAGE (OFF 42) break_; STORAGE (OFF 43) break_; STORAGE (OFF 44) break_;
    STORAGE (OFF 45) break_; STORAGE (OFF 46) break_; STORAGE (OFF 47) break_; STORAGE (OFF 48) break_;
    STORAGE (OFF 49) break_; STORAGE (OFF 50) break_; STORAGE (OFF 51) break_; STORAGE (OFF 52) break_;
    STORAGE (OFF 53) break_; STORAGE (OFF 54) break_; STORAGE (OFF 55) break_; STORAGE (OFF 56) break_;
    STORAGE (OFF 57) break_; STORAGE (OFF 58) break_; STORAGE (OFF 59) break_; STORAGE (OFF 60) break_;
    STORAGE (OFF 61) break_; STORAGE (OFF 62) break_; STORAGE (OFF 63) break_; STORAGE (OFF 64) break_;
    STORAGE (OFF 65) break_; STORAGE (OFF 66) break_; STORAGE (OFF 67) break_; STORAGE (OFF 68) break_;
    STORAGE (OFF 69) break_; STORAGE (OFF 70) break_; STORAGE (OFF 71) break_; STORAGE (OFF 72) break_;
    STORAGE (OFF 73) break_; STORAGE (OFF 74) break_; STORAGE (OFF 75) break_; STORAGE (OFF 76) break_;
    STORAGE (OFF 77) break_; STORAGE (OFF 78) break_; STORAGE (OFF 79) break_; STORAGE (OFF 80) break_;
    STORAGE (OFF 81) break_; STORAGE (OFF 82) break_; STORAGE (OFF 83) break_; STORAGE (OFF 84) break_;
    STORAGE (OFF 85) break_; STORAGE (OFF 86) break_; STORAGE (OFF 87) break_; STORAGE (OFF 88) break_;
    STORAGE (OFF 89) break_; STORAGE (OFF 90) break_; STORAGE (OFF 91) break_; STORAGE (OFF 92) break_;
    STORAGE (OFF 93) break_; STORAGE (OFF 94) break_; STORAGE (OFF 95) break_; STORAGE (OFF 96) break_;
    STORAGE (OFF 97) break_; STORAGE (OFF 98) break_; STORAGE (OFF 99) break_;
    STORAGE (OFF 100) break_; STORAGE (OFF 101) break_; STORAGE (OFF 102) break_;
    STORAGE (OFF 103) break_; STORAGE (OFF 104) break_; STORAGE (OFF 105) break_;
    STORAGE (OFF 106) break_; STORAGE (OFF 107) break_; STORAGE (OFF 108) break_;
    STORAGE (OFF 109) break_; STORAGE (OFF 110) break_; STORAGE (OFF 111) break_;
    STORAGE (OFF 112) break_; STORAGE (OFF 113) break_; STORAGE (OFF 114) break_;
    STORAGE (OFF 115) break_; STORAGE (OFF 116) break_; STORAGE (OFF 117) break_;
    STORAGE (OFF 118) break_; STORAGE (OFF 119) break_; STORAGE (OFF 120) break_;
    STORAGE (OFF 121) break_; STORAGE (OFF 122) break_; STORAGE (OFF 123) break_;
    STORAGE (OFF 124) break_; STORAGE (OFF 125) break_; STORAGE (OFF 126) break_;
    STORAGE (OFF 127) break_; STORAGE (OFF 128) break_; STORAGE (OFF 129) break_;
    STORAGE (OFF 130) break_; STORAGE (OFF 131) break_; STORAGE (OFF 132) break_;
    STORAGE (OFF 133) break_; STORAGE (OFF 134) break_; STORAGE (OFF 135) break_;
    STORAGE (OFF 136) break_; STORAGE (OFF 137) break_; STORAGE (OFF 138) break_;
    STORAGE (OFF 139) break_; STORAGE (OFF 140) break_; STORAGE (OFF 141) break_;
    STORAGE (OFF 142) break_; STORAGE (OFF 143) break_; STORAGE (OFF 144) break_;
    STORAGE (OFF 145) break_; STORAGE (OFF 146) break_; STORAGE (OFF 147) break_;
    STORAGE (OFF 148) break_; STORAGE (OFF 149) break_; STORAGE (OFF 150) break_;
    STORAGE (OFF 151) break_; STORAGE (OFF 152) break_; STORAGE (OFF 153) break_;
    STORAGE (OFF 154) break_; STORAGE (OFF 155) break_; STORAGE (OFF 156) break_;
    STORAGE (OFF 157) break_; STORAGE (OFF 158) break_; STORAGE (OFF 159) break_;
    STORAGE (OFF 160) break_; STORAGE (OFF 161) break_; STORAGE (OFF 162) break_;
    STORAGE (OFF 163) break_; STORAGE (OFF 164) break_; STORAGE (OFF 165) break_;
    STORAGE (OFF 166) break_; STORAGE (OFF 167) break_; STORAGE (OFF 168) break_;
    STORAGE (OFF 169) break_; STORAGE (OFF 170) break_; STORAGE (OFF 171) break_;
    STORAGE (OFF 172) break_; STORAGE (OFF 173) break_; STORAGE (OFF 174) break_;
    STORAGE (OFF 175) break_; STORAGE (OFF 176) break_; STORAGE (OFF 177) break_;
    STORAGE (OFF 178) break_; STORAGE (OFF 179) break_; STORAGE (OFF 180) break_;
    STORAGE (OFF 181) break_; STORAGE (OFF 182) break_; STORAGE (OFF 183) break_;
    STORAGE (OFF 184) break_; STORAGE (OFF 185) break_; STORAGE (OFF 186) break_;
    STORAGE (OFF 187) break_; STORAGE (OFF 188) break_; STORAGE (OFF 189) break_;
    STORAGE (OFF 190) break_; WRITEOP PRECON return_; WRITEOP PRESTAT return_;
    STORAGE CFGCON CFGCON_mask; READONLY DEVID; STORAGE SYSKEY SYSKEY_unlock; STORAGE RCON break_;
    WRITEOP RSWRST RSWRST_reset; STORAGE OSCCON break_; STORAGE OSCTUN break_; STORAGE SPLLCON break_;
    WRITEOP REFO1CON return_; WRITEOP REFO2CON return_; WRITEOP REFO3CON return_;
    WRITEOP REFO4CON return_; WRITEOP PB1DIV return_; WRITEOP PB2DIV return_; WRITEOP PB3DIV return_;
    WRITEOP PB4DIV return_; WRITEOP PB5DIV return_; WRITEOP PB7DIV return_; WRITEOP PB8DIV return_;
    STORAGE INT1R (pps_input_group 1); STORAGE T4CKR (pps_input_group 1);
    STORAGE T9CKR (pps_input_group 1); STORAGE IC1R (pps_input_group 1);
    STORAGE IC6R (pps_input_group 1); STORAGE U3CTSR (pps_input_group 1);
    STORAGE U4RXR (pps_input_group 1); STORAGE U6RXR (pps_input_group 1);
    STORAGE SS2R (pps_input_group 1); STORAGE SDI6R (pps_input_group 1);
    STORAGE OCFAR (pps_input_group 1); STORAGE REFCLKI3R (pps_input_group 1);
    STORAGE INT2R (pps_input_group 2); STORAGE T3CKR (pps_input_group 2);
    STORAGE T8CKR (pps_input_group 2); STORAGE IC2R (pps_input_group 2);
    STORAGE IC5R (pps_input_group 2); STORAGE IC9R (pps_input_group 2);
    STORAGE U1CTSR (pps_input_group 2); STORAGE U2RXR (pps_input_group 2);
    STORAGE U5CTSR (pps_input_group 2); STORAGE SS1R (pps_input_group 2);
    STORAGE SS3R (pps_input_group 2); STORAGE SS4R (pps_input_group 2);
    STORAGE SS5R (pps_input_group 2); STORAGE C2RXR (pps_input_group 2);
    STORAGE INT3R (pps_input_group 3); STORAGE T2CKR (pps_input_group 3);
    STORAGE T6CKR (pps_input_group 3); STORAGE IC3R (pps_input_group 3);
    STORAGE IC7R (pps_input_group 3); STORAGE U1RXR (pps_input_group 3);
    STORAGE U2CTSR (pps_input_group 3); STORAGE U5RXR (pps_input_group 3);
    STORAGE U6CTSR (pps_input_group 3); STORAGE SDI1R (pps_input_group 3);
    STORAGE SDI3R (pps_input_group 3); STORAGE SDI5R (pps_input_group 3);
    STORAGE SS6R (pps_input_group 3); STORAGE REFCLKI1R (pps_input_group 3);
    STORAGE INT4R (pps_input_group 4); STORAGE T5CKR (pps_input_group 4);
    STORAGE T7CKR (pps_input_group 4); STORAGE IC4R (pps_input_group 4);
    STORAGE IC8R (pps_input_group 4); STORAGE U3RXR (pps_input_group 4);
    STORAGE U4CTSR (pps_input_group 4); STORAGE SDI2R (pps_input_group 4);
    STORAGE SDI4R (pps_input_group 4); STORAGE C1RXR (pps_input_group 4);
    STORAGE REFCLKI4R (pps_input_group 4); STORAGE RPA15R (pps_output_group 1);
    STORAGE RPB1R (pps_output_group 1); STORAGE RPB3R (pps_output_group 1);
    STORAGE RPC4R (pps_output_group 1); STORAGE RPC13R (pps_output_group 1);
    STORAGE RPD3R (pps_output_group 1); STORAGE RPD7R (pps_output_group 1);
    STORAGE RPD11R (pps_output_group 1); STORAGE RPD15R (pps_output_group 1);
    STORAGE RPE5R (pps_output_group 1); STORAGE RPF0R (pps_output_group 1);
    STORAGE RPF5R (pps_output_group 1); STORAGE RPG0R (pps_output_group 1);
    STORAGE RPG7R (pps_output_group 1); STORAGE RPB2R (pps_output_group 2);
    STORAGE RPB6R (pps_output_group 2); STORAGE RPB14R (pps_output_group 2);
    STORAGE RPC2R (pps_output_group 2); STORAGE RPD0R (pps_output_group 2);
    STORAGE RPD1R (pps_output_group 2); STORAGE RPD5R (pps_output_group 2);
    STORAGE RPE8R (pps_output_group 2); STORAGE RPF2R (pps_output_group 2);
    STORAGE RPF3R (pps_output_group 2); STORAGE RPF13R (pps_output_group 2);
    STORAGE RPG9R (pps_output_group 2); STORAGE RPA14R (pps_output_group 3);
    STORAGE RPB5R (pps_output_group 3); STORAGE RPB9R (pps_output_group 3);
    STORAGE RPB10R (pps_output_group 3); STORAGE RPC1R (pps_output_group 3);
    STORAGE RPC14R (pps_output_group 3); STORAGE RPD2R (pps_output_group 3);
    STORAGE RPD6R (pps_output_group 3); STORAGE RPD10R (pps_output_group 3);
    STORAGE RPD14R (pps_output_group 3); STORAGE RPF1R (pps_output_group 3);
    STORAGE RPF4R (pps_output_group 3); STORAGE RPG1R (pps_output_group 3);
    STORAGE RPG8R (pps_output_group 3); STORAGE RPB0R (pps_output_group 4);
    STORAGE RPB7R (pps_output_group 4); STORAGE RPB8R (pps_output_group 4);
    STORAGE RPB15R (pps_output_group 4); STORAGE RPC3R (pps_output_group 4);
    STORAGE RPD4R (pps_output_group 4); STORAGE RPD9R (pps_output_group 4);
    STORAGE RPD12R (pps_output_group 4); STORAGE RPE3R (pps_output_group 4);
    STORAGE RPE9R (pps_output_group 4); STORAGE RPF8R (pps_output_group 4);
    STORAGE RPF12R (pps_output_group 4); STORAGE RPG6R (pps_output_group 4);
    WRITEOPR RTCCON RTCC_readonly RTCCON_clkon; WRITEOP RTCTIME return_; WRITEOP RTCDATE return_;
    WRITEOP ANSELA return_; WRITEOP TRISA return_; WRITEOPX PORTA LATA (gpio_write 0 LATA);
    WRITEOP LATA (gpio_write 0 LATA); WRITEOP ODCA return_; WRITEOP CNPUA return_;
    WRITEOP CNPDA return_; WRITEOP CNCONA return_; WRITEOP CNENA return_; WRITEOP CNSTATA return_;
    WRITEOP ANSELB return_; WRITEOP TRISB return_; WRITEOPX PORTB LATB (gpio_write 1 LATB);
    WRITEOP LATB (gpio_write 1 LATB); WRITEOP ODCB return_; WRITEOP CNPUB return_;
    WRITEOP CNPDB return_; WRITEOP CNCONB return_; WRITEOP CNENB return_; WRITEOP CNSTATB return_;
    WRITEOP ANSELC return_; WRITEOP TRISC return_; WRITEOPX PORTC LATC (gpio_write 2 LATC);
    WRITEOP LATC (gpio_write 2 LATC); WRITEOP ODCC return_; WRITEOP CNPUC return_;
    WRITEOP CNPDC return_; WRITEOP CNCONC return_; WRITEOP CNENC return_; WRITEOP CNSTATC return_;
    WRITEOP ANSELD return_; WRITEOP TRISD return_; WRITEOPX PORTD LATD (gpio_write 3 LATD);
    WRITEOP LATD (gpio_write 3 LATD); WRITEOP ODCD return_; WRITEOP CNPUD return_;
    WRITEOP CNPDD return_; WRITEOP CNCOND return_; WRITEOP CNEND return_; WRITEOP CNSTATD return_;
    WRITEOP ANSELE return_; WRITEOP TRISE return_; WRITEOPX PORTE LATE (gpio_write 4 LATE);
    WRITEOP LATE (gpio_write 4 LATE); WRITEOP ODCE return_; WRITEOP CNPUE return_;
    WRITEOP CNPDE return_; WRITEOP CNCONE return_; WRITEOP CNENE return_; WRITEOP CNSTATE return_;
    WRITEOP ANSELF return_; WRITEOP TRISF return_; WRITEOPX PORTF LATF (gpio_write 5 LATF);
    WRITEOP LATF (gpio_write 5 LATF); WRITEOP ODCF return_; WRITEOP CNPUF return_;
    WRITEOP CNPDF return_; WRITEOP CNCONF return_; WRITEOP CNENF return_; WRITEOP CNSTATF return_;
    WRITEOP ANSELG return_; WRITEOP TRISG return_; WRITEOPX PORTG LATG (gpio_write 6 LATG);
    WRITEOP LATG (gpio_write 6 LATG); WRITEOP ODCG return_; WRITEOP CNPUG return_;
    WRITEOP CNPDG return_; WRITEOP CNCONG return_; WRITEOP CNENG return_; WRITEOP CNSTATG return_;
    WRITEOP ANSELH return_; WRITEOP TRISH return_; WRITEOPX PORTH LATH (gpio_write 7 LATH);
    WRITEOP LATH (gpio_write 7 LATH); WRITEOP ODCH return_; WRITEOP CNPUH return_;
    WRITEOP CNPDH return_; WRITEOP CNCONH return_; WRITEOP CNENH return_; WRITEOP CNSTATH return_;
    WRITEOP ANSELJ return_; WRITEOP TRISJ return_; WRITEOPX PORTJ LATJ (gpio_write 8 LATJ);
    WRITEOP LATJ (gpio_write 8 LATJ); WRITEOP ODCJ return_; WRITEOP CNPUJ return_;
    WRITEOP CNPDJ return_; WRITEOP CNCONJ return_; WRITEOP CNENJ return_; WRITEOP CNSTATJ return_;
    WRITEOP TRISK return_; WRITEOPX PORTK LATK (gpio_write 9 LATK); WRITEOP LATK (gpio_write 9 LATK);
    WRITEOP ODCK return_; WRITEOP CNPUK return_; WRITEOP CNPDK return_; WRITEOP CNCONK return_;
    WRITEOP CNENK return_; WRITEOP CNSTATK return_; STORAGE U1TXREG (uart_put_char 0);
    WRITEOP U1MODE (uart_update_mode 0); WRITEOPR U1STA USTA_readonly (uart_update_status 0);
    WRITEOP U1BRG return_; READONLY U1RXREG; STORAGE U2TXREG (uart_put_char 1);
    WRITEOP U2MODE (uart_update_mode 1); WRITEOPR U2STA USTA_readonly (uart_update_status 1);
    WRITEOP U2BRG return_; READONLY U2RXREG; STORAGE U3TXREG (uart_put_char 2);
    WRITEOP U3MODE (uart_update_mode 2); WRITEOPR U3STA USTA_readonly (uart_update_status 2);
    WRITEOP U3BRG return_; READONLY U3RXREG; STORAGE U4TXREG (uart_put_char 3);
    WRITEOP U4MODE (uart_update_mode 3); WRITEOPR U4STA USTA_readonly (uart_update_status 3);
    WRITEOP U4BRG return_; READONLY U4RXREG; STORAGE U5TXREG (uart_put_char 4);
    WRITEOP U5MODE (uart_update_mode 4); WRITEOPR U5STA USTA_readonly (uart_update_status 4);
    WRITEOP U5BRG return_; READONLY U5RXREG; STORAGE U6TXREG (uart_put_char 5);
    WRITEOP U6MODE (uart_update_mode 5); WRITEOPR U6STA USTA_readonly (uart_update_status 5);
    WRITEOP U6BRG return_; READONLY U6RXREG; WRITEOP SPI1CON (spi_control 0);
    WRITEOPR SPI1STAT SPISTAT_readonly return_; STORAGE SPI1BUF (spi_writebuf 0);
    WRITEOP SPI1BRG return_; WRITEOP SPI1CON2 return_; WRITEOP SPI2CON (spi_control 1);
    WRITEOPR SPI2STAT SPISTAT_readonly return_; STORAGE SPI2BUF (spi_writebuf 1);
    WRITEOP SPI2BRG return_; WRITEOP SPI2CON2 return_; WRITEOP SPI3CON (spi_control 2);
    WRITEOPR SPI3STAT SPISTAT_readonly return_; STORAGE SPI3BUF (spi_writebuf 2);
    WRITEOP SPI3BRG return_; WRITEOP SPI3CON2 return_; WRITEOP SPI4CON (spi_control 3);
    WRITEOPR SPI4STAT SPISTAT_readonly return_; STORAGE SPI4BUF (spi_writebuf 3);
    WRITEOP SPI4BRG return_; WRITEOP SPI4CON2 return_; WRITEOP T1CON return_; WRITEOP TMR1 return_;
    WRITEOP PR1 return_; WRITEOP T2CON return_; WRITEOP TMR2 return_; WRITEOP PR2 return_;
    WRITEOP T3CON return_; WRITEOP TMR3 return_; WRITEOP PR3 return_; WRITEOP T4CON return_;
    WRITEOP TMR4 return_; WRITEOP PR4 return_; WRITEOP T5CON return_; WRITEOP TMR5 return_;
    WRITEOP PR5 return_; WRITEOP T6CON return_; WRITEOP TMR6 return_; WRITEOP PR6 return_;
    WRITEOP T7CON return_; WRITEOP TMR7 return_; WRITEOP PR7 return_; WRITEOP T8CON return_;
    WRITEOP TMR8 return_; WRITEOP PR8 return_; WRITEOP T9CON return_; WRITEOP TMR9 return_;
    WRITEOP PR9 return_; WRITEOP ETHCON1 eth_control; WRITEOP ETHCON2 return_; WRITEOP ETHTXST return_;
    WRITEOP ETHRXST return_; WRITEOP ETHHT0 return_; WRITEOP ETHHT1 return_; WRITEOP ETHPMM0 return_;
    WRITEOP ETHPMM1 return_; WRITEOP ETHPMCS return_; WRITEOP ETHPMO return_; WRITEOP ETHRXFC return_;
    WRITEOP ETHRXWM return_; WRITEOP ETHIEN return_; WRITEOP ETHIRQ return_; STORAGE ETHSTAT break_;
    WRITEOP ETHRXOVFLOW return_; WRITEOP ETHFRMTXOK return_; WRITEOP ETHSCOLFRM return_;
    WRITEOP ETHMCOLFRM return_; WRITEOP ETHFRMRXOK return_; WRITEOP ETHFCSERR return_;
    WRITEOP ETHALGNERR return_; WRITEOP EMAC1CFG1 return_; WRITEOP EMAC1CFG2 return_;
    WRITEOP EMAC1IPGT return_; WRITEOP EMAC1IPGR return_; WRITEOP EMAC1CLRT return_;
    WRITEOP EMAC1MAXF return_; WRITEOP EMAC1SUPP return_; WRITEOP EMAC1TEST return_;
    WRITEOP EMAC1MCFG return_; WRITEOP EMAC1MCMD mii_command; WRITEOP EMAC1MADR return_;
    WRITEOP EMAC1MWTD mii_write; WRITEOP EMAC1MRDD return_; WRITEOP EMAC1MIND return_;
    WRITEOP EMAC1SA0 return_; WRITEOP EMAC1SA1 return_; WRITEOP EMAC1SA2 return_;
    STORAGE USBCSR0 break_; STORAGE USBCSR1 break_; STORAGE USBCSR2 break_; STORAGE USBCSR3 break_;
    STORAGE USBIENCSR0 break_; STORAGE USBIENCSR1 break_; STORAGE USBIENCSR2 break_;
    STORAGE USBIENCSR3 break_; STORAGE USBFIFO0 break_; STORAGE USBFIFO1 break_;
    STORAGE USBFIFO2 break_; STORAGE USBFIFO3 break_; STORAGE USBFIFO4 break_; STORAGE USBFIFO5 break_;
    STORAGE USBFIFO6 break_; STORAGE USBFIFO7 break_; STORAGE USBOTG break_; STORAGE USBFIFOA break_;
    STORAGE USBHWVER break_; STORAGE USBINFO break_; STORAGE USBEOFRST break_; STORAGE USBE0TXA break_;
    STORAGE USBE0RXA break_; STORAGE USBE1TXA break_; STORAGE USBE1RXA break_; STORAGE USBE2TXA break_;
    STORAGE USBE2RXA break_; STORAGE USBE3TXA break_; STORAGE USBE3RXA break_; STORAGE USBE4TXA break_;
    STORAGE USBE4RXA break_; STORAGE USBE5TXA break_; STORAGE USBE5RXA break_; STORAGE USBE6TXA break_;
    STORAGE USBE6RXA break_; STORAGE USBE7TXA break_; STORAGE USBE7RXA break_;
    STORAGE USBE0CSR0 break_; STORAGE USBE0CSR2 break_; STORAGE USBE0CSR3 break_;
    STORAGE USBE1CSR0 break_; STORAGE USBE1CSR1 break_; STORAGE USBE1CSR2 break_;
    STORAGE USBE1CSR3 break_; STORAGE USBE2CSR0 break_; STORAGE USBE2CSR1 break_;
    STORAGE USBE2CSR2 break_; STORAGE USBE2CSR3 break_; STORAGE USBE3CSR0 break_;
    STORAGE USBE3CSR1 break_; STORAGE USBE3CSR2 break_; STORAGE USBE3CSR3 break_;
    STORAGE USBE4CSR0 break_; STORAGE USBE4CSR1 break_; STORAGE USBE4CSR2 break_;
    STORAGE USBE4CSR3 break_; STORAGE USBE5CSR0 break_; STORAGE USBE5CSR1 break_;
    STORAGE USBE5CSR2 break_; STORAGE USBE5CSR3 break_; STORAGE USBE6CSR0 break_;
    STORAGE USBE6CSR1 break_; STORAGE USBE6CSR2 break_; STORAGE USBE6CSR3 break_;
    STORAGE USBE7CSR0 break_; STORAGE USBE7CSR1 break_; STORAGE USBE7CSR2 break_;
    STORAGE USBE7CSR3 break_; STORAGE USBDMAINT break_; STORAGE USBDMA1C break_;
    STORAGE USBDMA1A break_; STORAGE USBDMA1N break_; STORAGE USBDMA2C break_; STORAGE USBDMA2A break_;
    STORAGE USBDMA2N break_; STORAGE USBDMA3C break_; STORAGE USBDMA3A break_; STORAGE USBDMA3N break_;
    STORAGE USBDMA4C break_; STORAGE USBDMA4A break_; STORAGE USBDMA4N break_; STORAGE USBDMA5C break_;
    STORAGE USBDMA5A break_; STORAGE USBDMA5N break_; STORAGE USBDMA6C break_; STORAGE USBDMA6A break_;
    STORAGE USBDMA6N break_; STORAGE USBDMA7C break_; STORAGE USBDMA7A break_; STORAGE USBDMA7N break_;
    STORAGE USBDMA8C break_; STORAGE USBDMA8A break_; STORAGE USBDMA8N break_; STORAGE USBE1RPC break_;
    STORAGE USBE2RPC break_; STORAGE USBE3RPC break_; STORAGE USBE4RPC break_; STORAGE USBE5RPC break_;
    STORAGE USBE6RPC break_; STORAGE USBE7RPC break_; STORAGE USBDPBFD break_;
    STORAGE USBTMCON1 break_; STORAGE USBTMCON2 break_; STORAGE USBLPMR1 break_;
    STORAGE USBLMPR2 break_ ].

Definition group (r : reg) : list label := [Name r PLAIN; Name r CLR; Name r SET; Name r INV].

Definition labels (c : case) : list label :=
  match c with
  | STORAGE name _ | READONLY name => [canonical name]
  | WRITEOP name _ | WRITEOPX name _ _ | WRITEOPR name _ _ => group name
  end.

End Wr.

(** The registers of the [READONLY] cases. *)
Definition readonly_registers : list reg :=
  flat_map (fun c => match c with Wr.READONLY r => [r] | _ => [] end) Wr.cases.

(** A switch in flat form: every label with its case. *)
Definition io_read32_table : list (label * Rd.case) :=
  flat_map (fun c => map (fun l => (l, c)) (Rd.labels c)) Rd.cases.

Definition io_write32_table : list (label * Wr.case) :=
  flat_map (fun c => map (fun l => (l, c)) (Wr.labels c)) Wr.cases.

(** ** The model *)

Section Model.

Context {H : pic32mz_h} {P : peripherals}.

(** *** Interrupt arbiter *)

(** The test that guards the scan:
    [(VALUE(IFS0) & VALUE(IEC0)) || ... || (VALUE(IFS5) & VALUE(IEC5))]. *)
Definition any_pending (s : pic32_t) : bool :=
  truth (VALUE s IFS0 .& VALUE s IEC0) ||
  truth (VALUE s IFS1 .& VALUE s IEC1) ||
  truth (VALUE s IFS2 .& VALUE s IEC2) ||
  truth (VALUE s IFS3 .& VALUE s IEC3) ||
  truth (VALUE s IFS4 .& VALUE s IEC4) ||
  truth (VALUE s IFS5 .& VALUE s IEC5).

(** [((VALUE(IFS(n)) & VALUE(IEC(n))) >> (irq & 31)) & 1] with [n = irq >> 5]. *)
Definition is_pending (s : pic32_t) (irq : Z) : bool :=
  let n := irq >> 5 in
  truth (((VALUE s (IFS n) .& VALUE s (IEC n)) >> (irq .& 31)) .& 1).

(** The priority level of a source: the [int level] of the loop. *)
Definition priority (s : pic32_t) (irq : Z) : Z :=
  let level := s32 (VALUE s (IPC (irq >> 2))) in
  let level := level >> (2 + (irq .& 3) * 8) in
  level .& 7.

(** The body of the scan loop on the pair [(vector, cause_ripl)]. *)
Definition scan (s : pic32_t) (best : Z * Z) (irq : Z) : Z * Z :=
  if is_pending s irq then
    let level := priority s irq in
    if level >? snd best then (irq, level) else best
  else best.

(** The values of [irq] in [for (irq=0; irq<=PIC32_IRQ_LAST; irq++)]. *)
Definition irqs : list Z := map Z.of_nat (seq 0 (Z.to_nat (PIC32_IRQ_LAST + 1))).

(** The pair [(vector, cause_ripl)] at the end of the first half of
    [update_irq_status]. *)
Definition arbitrate (s : pic32_t) : Z * Z :=
  if any_pending s then fold_left (scan s) irqs (0, 0) else (0, 0).

(** The RIPL field of a Cause value:
    [(env->CP0_Cause >> (CP0Ca_IP + 2)) & 0x3f]. *)
Definition ripl_of (cause : Z) : Z := (cause >> (CP0Ca_IP + 2)) .& 0x3f.

Definition update_irq_status (s : pic32_t) : pic32_t :=
  let current_ripl := ripl_of (CP0_Cause s) in
  let s := assign INTSTAT 0 s in
  let found := arbitrate s in
  let vector := fst found in
  let cause_ripl := snd found in
  let s := if any_pending s then assign INTSTAT (vector .| (cause_ripl << 8)) s else s in
  if cause_ripl =? current_ripl then s
  else
    let s := log (Priority_level cause_ripl) s in
    (* Modify Cause.RIPL field and take EIC interrupt. *)
    let s := set_CP0_Cause (CP0_Cause s .& ~~ (0x3f << (CP0Ca_IP + 2))) s in
    let s := set_CP0_Cause (CP0_Cause s .| (cause_ripl << (CP0Ca_IP + 2))) s in
    emit cpu_interrupt_hard s.

(** Set interrupt flag status. *)
Definition irq_raise (s : pic32_t) (irq : Z) : pic32_t :=
  if truth (VALUE s (IFS (irq >> 5)) .& u32 (1 << (irq .& 31))) then s
  else
    let s := assign (IFS (irq >> 5)) (VALUE s (IFS (irq >> 5)) .| u32 (1 << (irq .& 31))) s in
    update_irq_status s.

(** Clear interrupt flag status. *)
Definition irq_clear (s : pic32_t) (irq : Z) : pic32_t :=
  if negb (truth (VALUE s (IFS (irq >> 5)) .& u32 (1 << (irq .& 31)))) then s
  else
    let s := assign (IFS (irq >> 5)) (VALUE s (IFS (irq >> 5)) .& u32 (~~ (1 << (irq .& 31)))) s in
    update_irq_status s.

(** The arbiter in the words of the spec (sections 3 and 4.4): the
    sources are the indices 0 to [PIC32_IRQ_LAST]; a source has its
    flag bit and its enable bit in bank [index / 32] at bit
    [index % 32]; the arbitration result depends on the flag, enable
    and priority banks. *)
Definition source (irq : Z) : Prop := 0 <= irq <= PIC32_IRQ_LAST.

Definition flag (s : pic32_t) (irq : Z) : bool :=
  Z.testbit (VALUE s (IFS (irq / 32))) (irq mod 32).

Definition enable (s : pic32_t) (irq : Z) : bool :=
  Z.testbit (VALUE s (IEC (irq / 32))) (irq mod 32).

Definition same_banks (s t : pic32_t) : Prop :=
  (forall n, 0 <= n < 6 ->
     VALUE s (IFS n) = VALUE t (IFS n) /\ VALUE s (IEC n) = VALUE t (IEC n)) /\
  (forall n, 0 <= n < 48 -> VALUE s (IPC n) = VALUE t (IPC n)).

(** [(vector, level)] is the choice among the sources below [n]:
    the lowest of the pending sources of the highest level when
    that level is not 0, and [(0, 0)] when it is. *)
Definition choice (s : pic32_t) (n : Z) (best : Z * Z) : Prop :=
  let (vector, level) := best in
  0 <= level /\
  (level = 0 -> vector = 0) /\
  (0 < level ->
     0 <= vector < n /\ is_pending s vector = true /\ priority s vector = level) /\
  (forall i, 0 <= i < n -> is_pending s i = true -> priority s i <= level) /\
  (forall i, 0 <= i < n -> is_pending s i = true -> priority s i = level ->
     0 < level -> vector <= i).

(** *** The assign/clear/set/invert operation

    [write_op(int a, int b, int op)] returns [unsigned]. *)
Definition write_op (a b op : Z) : Z :=
  u32 match op .& 0xc with
      | 0x0 => b                 (* Assign *)
      | 0x4 => a .& ~~ b         (* Clear *)
      | 0x8 => a .| b            (* Set *)
      | 0xc => a .^ b            (* Invert *)
      | _ => a
      end.

(** The write rule of the spec (section 4.2), given old value [a]
    and write data [b]: plain gives [b], clear [a & ~b], set
    [a | b], invert [a ^ b]. *)
Definition alias_rule (v : alias) (a b : Z) : Z :=
  match v with
  | PLAIN => b
  | CLR => a .& ~~ b
  | SET => a .| b
  | INV => a .^ b
  end.

(** *** Device reset *)

(** decimal to BCD *)
Definition TOBCD (x : Z) : Z := (x ÷ 10 * 16) + Z.rem x 10.

Local Notation "r <- v" := (assign r v) (at level 60).

Definition lock_syskey : pic32_t -> pic32_t := set_syskey_unlock 0.

Definition SPLLCON_of_board (s : pic32_t) : pic32_t :=
  match board_type s with
  | BOARD_HMZ144 => assign SPLLCON 0x01630201 s
  | _ => assign SPLLCON 0x01310201 s
  end.

(** [time(&now); cl = gmtime(&now);]: each call reads the host clock
    anew; the reading goes into the [struct tm] of [gmtime], and the
    clock has moved on for the next call. *)
Definition time_gmtime (s : pic32_t) : pic32_t :=
  {| iomem := iomem s; syskey_unlock := syskey_unlock s; board_type := board_type s;
     stop_on_reset := stop_on_reset s; spi := spi s; CP0_Cause := CP0_Cause s;
     log_instr := log_instr s; host_clock := fun n => host_clock s (S n);
     gmtime_now := host_clock s 0; trace := trace s |}.

(** [VALUE(RTCTIME) = TOBCD(cl->tm_sec) << ... | ...], where [cl]
    points to the reading the call before it has just taken. *)
Definition RTCTIME_of_clock (s : pic32_t) : pic32_t :=
  let cl := gmtime_now s in
  assign RTCTIME
    ((TOBCD (tm_sec cl) << PIC32_RTCTIME_SEC) .|
     (TOBCD (tm_min cl) << PIC32_RTCTIME_MIN) .|
     (TOBCD (tm_hour cl) << PIC32_RTCTIME_HOUR)) s.

(** [VALUE(RTCDATE) = TOBCD(cl->tm_wday) | ...], from the same reading. *)
Definition RTCDATE_of_clock (s : pic32_t) : pic32_t :=
  let cl := gmtime_now s in
  assign RTCDATE
    (TOBCD (tm_wday cl) .|
     (TOBCD (tm_mday cl) << PIC32_RTCDATE_DAY) .|
     (TOBCD (tm_mon cl + 1) << PIC32_RTCDATE_MONTH) .|
     (TOBCD (tm_year cl + 1900 - 2000) << PIC32_RTCDATE_YEAR)) s.

(** [if (s->board_type == BOARD_MEBII) VALUE(PORTB) ^= 1 << 12;] *)
Definition PORTB_of_board (s : pic32_t) : pic32_t :=
  match board_type s with
  | BOARD_MEBII => assign PORTB (VALUE s PORTB .^ (1 << 12)) s
  | _ => s
  end.

(** [if (s->board_type == BOARD_WIFIRE) VALUE(LATC) ^= 0x1000;] *)
Definition LATC_of_board (s : pic32_t) : pic32_t :=
  match board_type s with
  | BOARD_WIFIRE => assign LATC (VALUE s LATC .^ 0x1000) s
  | _ => s
  end.

(** [for (i=0; i<NUM_SPI; i++) { s->spi[i].rfifo = 0; s->spi[i].wfifo = 0; }] *)
Definition clear_spi_fifos (s : pic32_t) : pic32_t :=
  set_spi (map (fun _ => (0, 0)) (spi s)) s.

(** The statements of [io_reset], in source order. *)
Definition io_reset_body : list (pic32_t -> pic32_t) :=
  [ PRECON <- 0x00000007; lock_syskey; CFGCON <- (PIC32_CFGCON_ECC_DISWR .| PIC32_CFGCON_TDOEN);
    SYSKEY <- 0; RCON <- 0; RSWRST <- 0; OSCTUN <- 0; SPLLCON_of_board; PB1DIV <- 0x00008801;
    PB2DIV <- 0x00008801; PB3DIV <- 0x00008801; PB4DIV <- 0x00008801; PB5DIV <- 0x00008801;
    PB7DIV <- 0x00008800; PB8DIV <- 0x00008801; RTCCON <- 0; time_gmtime; RTCTIME_of_clock;
    RTCDATE_of_clock;
    ANSELA <- 0xFFFF; TRISA <- 0xFFFF; PORTA <- 0xFFCF; LATA <- 0xFFFF; ODCA <- 0; CNPUA <- 0;
    CNPDA <- 0; CNCONA <- 0; CNENA <- 0; CNSTATA <- 0; ANSELB <- 0xFFFF; TRISB <- 0xFFFF;
    PORTB <- 0xFFFF; PORTB_of_board; LATB <- 0xFFFF; ODCB <- 0; CNPUB <- 0; CNPDB <- 0; CNCONB <- 0;
    CNENB <- 0; CNSTATB <- 0; ANSELC <- 0xFFFF; TRISC <- 0xFFFF; PORTC <- 0xFFFF; LATC <- 0xFFFF;
    LATC_of_board; ODCC <- 0; CNPUC <- 0; CNPDC <- 0; CNCONC <- 0; CNENC <- 0; CNSTATC <- 0;
    ANSELD <- 0xFFFF; TRISD <- 0xFFFF; PORTD <- 0xFFFF; LATD <- 0xFFFF; ODCD <- 0; CNPUD <- 0;
    CNPDD <- 0; CNCOND <- 0; CNEND <- 0; CNSTATD <- 0; ANSELE <- 0xFFFF; TRISE <- 0xFFFF;
    PORTE <- 0xFFFF; LATE <- 0xFFFF; ODCE <- 0; CNPUE <- 0; CNPDE <- 0; CNCONE <- 0; CNENE <- 0;
    CNSTATE <- 0; ANSELF <- 0xFFFF; TRISF <- 0xFFFF; PORTF <- 0xFFFF; LATF <- 0xFFFF; ODCF <- 0;
    CNPUF <- 0; CNPDF <- 0; CNCONF <- 0; CNENF <- 0; CNSTATF <- 0; ANSELG <- 0xFFFF; TRISG <- 0xFFFF;
    PORTG <- 0xFFFF; LATG <- 0xFFFF; ODCG <- 0; CNPUG <- 0; CNPDG <- 0; CNCONG <- 0; CNENG <- 0;
    CNSTATG <- 0; ANSELH <- 0xFFFF; TRISH <- 0xFFFF; PORTH <- 0xFFFF; LATH <- 0xFFFF; ODCH <- 0;
    CNPUH <- 0; CNPDH <- 0; CNCONH <- 0; CNENH <- 0; CNSTATH <- 0; ANSELJ <- 0xFFFF; TRISJ <- 0xFFFF;
    PORTJ <- 0xFFFF; LATJ <- 0xFFFF; ODCJ <- 0; CNPUJ <- 0; CNPDJ <- 0; CNCONJ <- 0; CNENJ <- 0;
    CNSTATJ <- 0; TRISK <- 0xFFFF; PORTK <- 0xFFFF; LATK <- 0xFFFF; ODCK <- 0; CNPUK <- 0; CNPDK <- 0;
    CNCONK <- 0; CNENK <- 0; CNSTATK <- 0; U1MODE <- 0; U1STA <- (PIC32_USTA_RIDLE .| PIC32_USTA_TRMT);
    U1TXREG <- 0; U1RXREG <- 0; U1BRG <- 0; U2MODE <- 0;
    U2STA <- (PIC32_USTA_RIDLE .| PIC32_USTA_TRMT); U2TXREG <- 0; U2RXREG <- 0; U2BRG <- 0;
    U3MODE <- 0; U3STA <- (PIC32_USTA_RIDLE .| PIC32_USTA_TRMT); U3TXREG <- 0; U3RXREG <- 0;
    U3BRG <- 0; U4MODE <- 0; U4STA <- (PIC32_USTA_RIDLE .| PIC32_USTA_TRMT); U4TXREG <- 0;
    U4RXREG <- 0; U4BRG <- 0; U5MODE <- 0; U5STA <- (PIC32_USTA_RIDLE .| PIC32_USTA_TRMT);
    U5TXREG <- 0; U5RXREG <- 0; U5BRG <- 0; U6MODE <- 0;
    U6STA <- (PIC32_USTA_RIDLE .| PIC32_USTA_TRMT); U6TXREG <- 0; U6RXREG <- 0; U6BRG <- 0;
    SPI1CON <- 0; SPI1STAT <- PIC32_SPISTAT_SPITBE; SPI1BRG <- 0; SPI2CON <- 0;
    SPI2STAT <- PIC32_SPISTAT_SPITBE; SPI2BRG <- 0; SPI3CON <- 0; SPI3STAT <- PIC32_SPISTAT_SPITBE;
    SPI3BRG <- 0; SPI4CON <- 0; SPI4STAT <- PIC32_SPISTAT_SPITBE; SPI4BRG <- 0; SPI5CON <- 0;
    SPI5STAT <- PIC32_SPISTAT_SPITBE; SPI5BRG <- 0; SPI6CON <- 0; SPI6STAT <- PIC32_SPISTAT_SPITBE;
    SPI6BRG <- 0; SPI1CON2 <- 0; SPI2CON2 <- 0; SPI3CON2 <- 0; SPI4CON2 <- 0; SPI5CON2 <- 0;
    SPI6CON2 <- 0; clear_spi_fifos; T1CON <- 0; TMR1 <- 0; PR1 <- 0xffff; T2CON <- 0; TMR2 <- 0;
    PR2 <- 0xffff; T3CON <- 0; TMR3 <- 0; PR3 <- 0xffff; T4CON <- 0; TMR4 <- 0; PR4 <- 0xffff;
    T5CON <- 0; TMR5 <- 0; PR5 <- 0xffff; T6CON <- 0; TMR6 <- 0; PR6 <- 0xffff; T7CON <- 0; TMR7 <- 0;
    PR7 <- 0xffff; T8CON <- 0; TMR8 <- 0; PR8 <- 0xffff; T9CON <- 0; TMR9 <- 0; PR9 <- 0xffff;
    ETHCON1 <- 0; ETHCON2 <- 0; ETHTXST <- 0; ETHRXST <- 0; ETHHT0 <- 0; ETHHT1 <- 0; ETHPMM0 <- 0;
    ETHPMM1 <- 0; ETHPMCS <- 0; ETHPMO <- 0; ETHRXFC <- 0; ETHRXWM <- 0; ETHIEN <- 0; ETHIRQ <- 0;
    ETHSTAT <- 0; ETHRXOVFLOW <- 0; ETHFRMTXOK <- 0; ETHSCOLFRM <- 0; ETHMCOLFRM <- 0; ETHFRMRXOK <- 0;
    ETHFCSERR <- 0; ETHALGNERR <- 0; EMAC1CFG1 <- 0x800d; EMAC1CFG2 <- 0x4082; EMAC1IPGT <- 0x0012;
    EMAC1IPGR <- 0x0c12; EMAC1CLRT <- 0x370f; EMAC1MAXF <- 0x05ee; EMAC1SUPP <- 0x1000; EMAC1TEST <- 0;
    EMAC1MCFG <- 0x0020; EMAC1MCMD <- 0; EMAC1MADR <- 0x0100; EMAC1MWTD <- 0; EMAC1MRDD <- 0;
    EMAC1MIND <- 0; EMAC1SA0 <- 0x79c1; EMAC1SA1 <- 0xcbc0; EMAC1SA2 <- 0x1e00; USBCSR0 <- 0x2000;
    USBCSR1 <- 0x00ff0000; USBCSR2 <- 0x060000fe; USBCSR3 <- 0; USBIENCSR0 <- 0; USBIENCSR1 <- 0;
    USBIENCSR2 <- 0; USBIENCSR3 <- 0; USBFIFO0 <- 0; USBFIFO1 <- 0; USBFIFO2 <- 0; USBFIFO3 <- 0;
    USBFIFO4 <- 0; USBFIFO5 <- 0; USBFIFO6 <- 0; USBFIFO7 <- 0; USBOTG <- 0x0080; USBFIFOA <- 0;
    USBHWVER <- 0x0800; USBINFO <- 0x3C5C8C77; USBEOFRST <- 0x00727780; USBE0TXA <- 0; USBE0RXA <- 0;
    USBE1TXA <- 0; USBE1RXA <- 0; USBE2TXA <- 0; USBE2RXA <- 0; USBE3TXA <- 0; USBE3RXA <- 0;
    USBE4TXA <- 0; USBE4RXA <- 0; USBE5TXA <- 0; USBE5RXA <- 0; USBE6TXA <- 0; USBE6RXA <- 0;
    USBE7TXA <- 0; USBE7RXA <- 0; USBE0CSR0 <- 0; USBE0CSR2 <- 0; USBE0CSR3 <- 0; USBE1CSR0 <- 0;
    USBE1CSR1 <- 0; USBE1CSR2 <- 0; USBE1CSR3 <- 0; USBE2CSR0 <- 0; USBE2CSR1 <- 0; USBE2CSR2 <- 0;
    USBE2CSR3 <- 0; USBE3CSR0 <- 0; USBE3CSR1 <- 0; USBE3CSR2 <- 0; USBE3CSR3 <- 0; USBE4CSR0 <- 0;
    USBE4CSR1 <- 0; USBE4CSR2 <- 0; USBE4CSR3 <- 0; USBE5CSR0 <- 0; USBE5CSR1 <- 0; USBE5CSR2 <- 0;
    USBE5CSR3 <- 0; USBE6CSR0 <- 0; USBE6CSR1 <- 0; USBE6CSR2 <- 0; USBE6CSR3 <- 0; USBE7CSR0 <- 0;
    USBE7CSR1 <- 0; USBE7CSR2 <- 0; USBE7CSR3 <- 0; USBDMAINT <- 0; USBDMA1C <- 0; USBDMA1A <- 0;
    USBDMA1N <- 0; USBDMA2C <- 0; USBDMA2A <- 0; USBDMA2N <- 0; USBDMA3C <- 0; USBDMA3A <- 0;
    USBDMA3N <- 0; USBDMA4C <- 0; USBDMA4A <- 0; USBDMA4N <- 0; USBDMA5C <- 0; USBDMA5A <- 0;
    USBDMA5N <- 0; USBDMA6C <- 0; USBDMA6A <- 0; USBDMA6N <- 0; USBDMA7C <- 0; USBDMA7A <- 0;
    USBDMA7N <- 0; USBDMA8C <- 0; USBDMA8A <- 0; USBDMA8N <- 0; USBE1RPC <- 0; USBE2RPC <- 0;
    USBE3RPC <- 0; USBE4RPC <- 0; USBE5RPC <- 0; USBE6RPC <- 0; USBE7RPC <- 0; USBDPBFD <- 0;
    USBTMCON1 <- 0x05E64074; USBTMCON2 <- 0; USBLPMR1 <- 0; USBLMPR2 <- 0 ].

Definition io_reset (s : pic32_t) : pic32_t :=
  fold_left (fun s statement => statement s) io_reset_body s.

(** The registers the statements of [io_reset] store into, in source
    order; PORTB and LATC are stored into twice. *)
Definition reset_registers : list reg :=
  [ PRECON; CFGCON; SYSKEY; RCON; RSWRST; OSCTUN; SPLLCON; PB1DIV; PB2DIV; PB3DIV; PB4DIV; PB5DIV;
    PB7DIV; PB8DIV; RTCCON; RTCTIME; RTCDATE; ANSELA; TRISA; PORTA; LATA; ODCA; CNPUA; CNPDA;
    CNCONA; CNENA; CNSTATA; ANSELB; TRISB; PORTB; PORTB; LATB; ODCB; CNPUB; CNPDB; CNCONB; CNENB;
    CNSTATB; ANSELC; TRISC; PORTC; LATC; LATC; ODCC; CNPUC; CNPDC; CNCONC; CNENC; CNSTATC; ANSELD;
    TRISD; PORTD; LATD; ODCD; CNPUD; CNPDD; CNCOND; CNEND; CNSTATD; ANSELE; TRISE; PORTE; LATE;
    ODCE; CNPUE; CNPDE; CNCONE; CNENE; CNSTATE; ANSELF; TRISF; PORTF; LATF; ODCF; CNPUF; CNPDF;
    CNCONF; CNENF; CNSTATF; ANSELG; TRISG; PORTG; LATG; ODCG; CNPUG; CNPDG; CNCONG; CNENG; CNSTATG;
    ANSELH; TRISH; PORTH; LATH; ODCH; CNPUH; CNPDH; CNCONH; CNENH; CNSTATH; ANSELJ; TRISJ; PORTJ;
    LATJ; ODCJ; CNPUJ; CNPDJ; CNCONJ; CNENJ; CNSTATJ; TRISK; PORTK; LATK; ODCK; CNPUK; CNPDK;
    CNCONK; CNENK; CNSTATK; U1MODE; U1STA; U1TXREG; U1RXREG; U1BRG; U2MODE; U2STA; U2TXREG;
    U2RXREG; U2BRG; U3MODE; U3STA; U3TXREG; U3RXREG; U3BRG; U4MODE; U4STA; U4TXREG; U4RXREG; U4BRG;
    U5MODE; U5STA; U5TXREG; U5RXREG; U5BRG; U6MODE; U6STA; U6TXREG; U6RXREG; U6BRG; SPI1CON;
    SPI1STAT; SPI1BRG; SPI2CON; SPI2STAT; SPI2BRG; SPI3CON; SPI3STAT; SPI3BRG; SPI4CON; SPI4STAT;
    SPI4BRG; SPI5CON; SPI5STAT; SPI5BRG; SPI6CON; SPI6STAT; SPI6BRG; SPI1CON2; SPI2CON2; SPI3CON2;
    SPI4CON2; SPI5CON2; SPI6CON2; T1CON; TMR1; PR1; T2CON; TMR2; PR2; T3CON; TMR3; PR3; T4CON;
    TMR4; PR4; T5CON; TMR5; PR5; T6CON; TMR6; PR6; T7CON; TMR7; PR7; T8CON; TMR8; PR8; T9CON; TMR9;
    PR9; ETHCON1; ETHCON2; ETHTXST; ETHRXST; ETHHT0; ETHHT1; ETHPMM0; ETHPMM1; ETHPMCS; ETHPMO;
    ETHRXFC; ETHRXWM; ETHIEN; ETHIRQ; ETHSTAT; ETHRXOVFLOW; ETHFRMTXOK; ETHSCOLFRM; ETHMCOLFRM;
    ETHFRMRXOK; ETHFCSERR; ETHALGNERR; EMAC1CFG1; EMAC1CFG2; EMAC1IPGT; EMAC1IPGR; EMAC1CLRT;
    EMAC1MAXF; EMAC1SUPP; EMAC1TEST; EMAC1MCFG; EMAC1MCMD; EMAC1MADR; EMAC1MWTD; EMAC1MRDD;
    EMAC1MIND; EMAC1SA0; EMAC1SA1; EMAC1SA2; USBCSR0; USBCSR1; USBCSR2; USBCSR3; USBIENCSR0;
    USBIENCSR1; USBIENCSR2; USBIENCSR3; USBFIFO0; USBFIFO1; USBFIFO2; USBFIFO3; USBFIFO4; USBFIFO5;
    USBFIFO6; USBFIFO7; USBOTG; USBFIFOA; USBHWVER; USBINFO; USBEOFRST; USBE0TXA; USBE0RXA;
    USBE1TXA; USBE1RXA; USBE2TXA; USBE2RXA; USBE3TXA; USBE3RXA; USBE4TXA; USBE4RXA; USBE5TXA;
    USBE5RXA; USBE6TXA; USBE6RXA; USBE7TXA; USBE7RXA; USBE0CSR0; USBE0CSR2; USBE0CSR3; USBE1CSR0;
    USBE1CSR1; USBE1CSR2; USBE1CSR3; USBE2CSR0; USBE2CSR1; USBE2CSR2; USBE2CSR3; USBE3CSR0;
    USBE3CSR1; USBE3CSR2; USBE3CSR3; USBE4CSR0; USBE4CSR1; USBE4CSR2; USBE4CSR3; USBE5CSR0;
    USBE5CSR1; USBE5CSR2; USBE5CSR3; USBE6CSR0; USBE6CSR1; USBE6CSR2; USBE6CSR3; USBE7CSR0;
    USBE7CSR1; USBE7CSR2; USBE7CSR3; USBDMAINT; USBDMA1C; USBDMA1A; USBDMA1N; USBDMA2C; USBDMA2A;
    USBDMA2N; USBDMA3C; USBDMA3A; USBDMA3N; USBDMA4C; USBDMA4A; USBDMA4N; USBDMA5C; USBDMA5A;
    USBDMA5N; USBDMA6C; USBDMA6A; USBDMA6N; USBDMA7C; USBDMA7A; USBDMA7N; USBDMA8C; USBDMA8A;
    USBDMA8N; USBE1RPC; USBE2RPC; USBE3RPC; USBE4RPC; USBE5RPC; USBE6RPC; USBE7RPC; USBDPBFD;
    USBTMCON1; USBTMCON2; USBLPMR1; USBLMPR2 ].

(** Two states with the same board and the same reading of the clock
    in the [struct tm] of [gmtime] that hold the same values in the
    cells at the offsets [A]. *)
Definition agree (A : list Z) (s t : pic32_t) : Prop :=
  board_type s = board_type t /\
  gmtime_now s = gmtime_now t /\
  forall a, In a A -> iomem s a = iomem t a.

(** *** The register switches *)

(** [switch (offset)]: the case whose label is the offset, if any.
    The labels of a C switch are distinct. *)
Definition switch {C : Type} (offset : Z) (table : list (label * C)) : option (label * C) :=
  find (fun e => offset_of (fst e) =? offset) table.

(** The offsets that are labels of each switch. *)
Definition io_read32_offsets : list Z := map (fun e => offset_of (fst e)) io_read32_table.
Definition io_write32_offsets : list Z := map (fun e => offset_of (fst e)) io_write32_table.

(** The body of a case of [io_read32], up to its [break]. *)
Definition read_body (b : Rd.body) (s : pic32_t) (offset : Z) : outcome unit :=
  match b with
  | Rd.break_ => Return tt s
  | Rd.zero => Return tt (store offset 0 s)
  | Rd.RSWRST_stop =>
      if truth (VALUE s RSWRST .& 1) && truth (stop_on_reset s) then Exit 0 s
      else Return tt s
  | Rd.uart_get_char unit =>
      let (c, s) := pic32_uart_get_char s unit in Return tt (store offset c s)
  | Rd.uart_poll_status unit => Return tt (pic32_uart_poll_status s unit)
  | Rd.spi_readbuf unit =>
      let (c, s) := pic32_spi_readbuf s unit in Return tt (store offset c s)
  end.

(** [io_read32] returns [*bufp] and the name it stored in [*namep]. *)
Definition io_read32 (s : pic32_t) (offset : Z) : outcome (Z * label) :=
  match switch offset io_read32_table with
  | Some (name, Rd.STORAGE _ b) =>
      match read_body b s offset with
      | Return _ s => Return (iomem s offset, name) s
      | Exit status s => Exit status s
      end
  | None =>
      let s := emit (printf (Read_not_supported offset)) s in
      let s := log (Read_not_supported offset) s in
      Exit 1 s
  end.

(** How the body of a case of [io_write32] ends: with [break], which
    leads to [*bufp = data], or with [return]. *)
Inductive flow : Type :=
  | Break (data : Z) (s : pic32_t)
  | Returned (s : pic32_t).

(** The writable bits of CFGCON. *)
Definition CFGCON_writable : Z :=
  u32 (PIC32_CFGCON_DMAPRI .| PIC32_CFGCON_CPUPRI .|
       PIC32_CFGCON_ICACLK .| PIC32_CFGCON_OCACLK .|
       PIC32_CFGCON_IOLOCK .| PIC32_CFGCON_PMDLOCK .|
       PIC32_CFGCON_PGLOCK .| PIC32_CFGCON_USBSSEN .|
       PIC32_CFGCON_ECC_MASK .| PIC32_CFGCON_JTAGEN .|
       PIC32_CFGCON_TROEN .| PIC32_CFGCON_TDOEN).

(** The body of a case of [io_write32], after the macro that opens it. *)
Definition write_body (b : Wr.body) (s : pic32_t) (offset data : Z) : flow :=
  match b with
  | Wr.break_ => Break data s
  | Wr.return_ => Returned s
  | Wr.goto_irq => Returned (update_irq_status s)
  | Wr.pps_input_group _ => Break data s      (* the functions have empty bodies *)
  | Wr.pps_output_group _ => Break data s
  | Wr.CFGCON_mask =>
      (* TODO: use unlock sequence *)
      let mask := CFGCON_writable in
      let data := (data .& mask) .| (iomem s offset .& u32 (~~ mask)) in
      Break data s
  | Wr.SYSKEY_unlock =>
      (* Unlock state machine. *)
      let s := if (syskey_unlock s =? 0) && (VALUE s SYSKEY =? 0xaa996655)
               then set_syskey_unlock 1 s else s in
      let s := if (syskey_unlock s =? 1) && (VALUE s SYSKEY =? 0x556699aa)
               then set_syskey_unlock 2 s
               else set_syskey_unlock 0 s in
      Break data s
  | Wr.RSWRST_reset =>
      let s := if (syskey_unlock s =? 2) && truth (VALUE s RSWRST .& 1) then
                 (* Reset CPU. *)
                 let s := emit qemu_system_reset_request s in
                 (* Reset all devices *)
                 let s := io_reset s in
                 pic32_sdcard_reset s
               else s in
      Break data s
  | Wr.RTCCON_clkon =>
      let s := if truth (VALUE s RTCCON .& PIC32_RTCC_ON)
               then assign RTCCON (write_op (s32 (VALUE s RTCCON)) (s32 PIC32_RTCC_CLKON)
                                            (s32 (offset_of RTCCONSET))) s
               else assign RTCCON (write_op (s32 (VALUE s RTCCON)) (s32 PIC32_RTCC_CLKON)
                                            (s32 (offset_of RTCCONCLR))) s in
      Returned s
  | Wr.uart_put_char unit => Break data (pic32_uart_put_char s unit data)
  | Wr.uart_update_mode unit => Returned (pic32_uart_update_mode s unit)
  | Wr.uart_update_status unit => Returned (pic32_uart_update_status s unit)
  | Wr.spi_control unit => Returned (pic32_spi_control s unit)
  | Wr.spi_writebuf unit => Returned (pic32_spi_writebuf s unit data)
  | Wr.gpio_write port lat => Returned (pic32_gpio_write s port (VALUE s lat))
  | Wr.eth_control => Returned (pic32_eth_control s)
  | Wr.mii_command => Returned (pic32_mii_command s)
  | Wr.mii_write => Returned (pic32_mii_write s)
  end.

(** Modelled from the spec: the operation of the macro [WRITEOP],
    [VALUE(name) = write_op(VALUE(name), data, offset)]: an alias
    write "always recomputes and stores into the canonical
    register's cell" (spec, section 3). *)
Definition op (name : reg) (s : pic32_t) (offset data : Z) : pic32_t :=
  assign name (write_op (s32 (VALUE s name)) (s32 data) (s32 offset)) s.

Definition romask_of (m : Wr.romask) : Z :=
  u32 match m with
      | Wr.RTCC_readonly => PIC32_RTCC_HALFSEC .| PIC32_RTCC_SYNC .| PIC32_RTCC_CLKON
      | Wr.USTA_readonly =>
          PIC32_USTA_URXDA .| PIC32_USTA_FERR .| PIC32_USTA_PERR .|
          PIC32_USTA_RIDLE .| PIC32_USTA_TRMT .| PIC32_USTA_UTXBF
      | Wr.SPISTAT_readonly => ~~ PIC32_SPISTAT_SPIROV
      end.

(** Modelled from the spec: the operation of the macro [WRITEOPR],
    for the registers whose writes are "masked" (spec, section 3):
    the bits of [romask] keep their value, the others take that of
    [write_op]. *)
Definition opr (name : reg) (m : Wr.romask) (s : pic32_t) (offset data : Z) : pic32_t :=
  let mask := romask_of m in
  assign name ((VALUE s name .& mask) .|
               (write_op (s32 (VALUE s name)) (s32 data) (s32 offset) .& u32 (~~ mask))) s.

(** After the switch of [io_write32]: [*bufp = data] on [break]. *)
Definition finish (name : label) (offset : Z) (f : flow) : outcome (option label) :=
  match f with
  | Break data s => Return (Some name) (store offset data s)
  | Returned s => Return (Some name) s
  end.

(** [io_write32] returns the name it left in [*namep]; [None] is the
    null pointer the read-only path stores there. *)
Definition io_write32 (s : pic32_t) (offset data : Z) : outcome (option label) :=
  match switch offset io_write32_table with
  | Some (name, Wr.STORAGE _ b) => finish name offset (write_body b s offset data)
  | Some (name, Wr.READONLY _) =>
      let s := emit (printf (Write_readonly data name)) s in
      let s := log (Write_readonly data name) s in
      Return None s
  | Some (name, Wr.WRITEOP r b) =>
      finish name offset (write_body b (op r s offset data) offset data)
  | Some (name, Wr.WRITEOPX _ target b) =>
      finish name offset (write_body b (op target s offset data) offset data)
  | Some (name, Wr.WRITEOPR r m b) =>
      finish name offset (write_body b (opr r m s offset data) offset data)
  | None =>
      let s := emit (printf (Write_not_supported data offset)) s in
      let s := log (Write_not_supported data offset) s in
      Exit 1 s
  end.

(** *** Load and store entry points *)

Definition pic32_io_read (s : pic32_t) (addr bytes : Z) : outcome Z :=
  let offset := u32 (addr .& 0xfffff) in
  match io_read32 s (offset .& u32 (~~ 3)) with
  | Exit status s => Exit status s
  | Return (data, name) s =>
      match bytes with
      | 1 =>
          let offset := offset .& 3 in
          (* Unaligned read. *)
          let data := if truth offset then data >> (offset * 8) else data in
          let data := u8 data in
          Return data (log (IO_read 1 data name) s)
      | 2 =>
          (* Unaligned read. *)
          let data := if truth (offset .& 2) then data >> 16 else data in
          let data := u16 data in
          Return data (log (IO_read 2 data name) s)
      | _ => Return data (log (IO_read 4 data name) s)
      end
  end.

Definition pic32_io_write (s : pic32_t) (addr data bytes : Z) : outcome unit :=
  let offset := u32 (addr .& 0xfffff) in
  (* Fetch data and align to word format. *)
  let data := match bytes with
              | 1 => u8 data << ((offset .& 3) * 8)
              | 2 => u16 data << ((offset .& 2) * 8)
              | _ => data
              end in
  match io_write32 s (offset .& u32 (~~ 3)) (u32 data) with
  | Exit status s => Exit status s
  | Return (Some name) s => Return tt (log (IO_write (u32 data) name) s)
  | Return None s => Return tt s
  end.

(** *** Interrupt hooks of the CPU

    The CPU calls [pic32_timer_irq] and [pic32_soft_irq] with its
    [env]; they reach the device through [env->eic_context] and read
    [env->active_tc.PC] for the line they write on the log.  Each
    returns the line it writes, which it does before it calls the
    arbiter, and the state of the device after the call. *)

Inductive eic_message : Type :=
  | Timer_interrupt (pc : Z)
    (* "--- %08x: Timer interrupt\n" *)
  | Clear_timer_interrupt
    (* "--- Clear timer interrupt\n" *)
  | Soft_interrupt (pc num : Z).
    (* "--- %08x: Soft interrupt %u\n" *)

(** [if (qemu_loglevel_mask(CPU_LOG_INSTR)) fprintf(qemu_logfile, ...)] *)
Definition eic_log (m : eic_message) (s : pic32_t) : list eic_message :=
  if log_instr s then [m] else [].

(** Timer interrupt. *)
Definition pic32_timer_irq (s : pic32_t) (pc raise : Z) : list eic_message * pic32_t :=
  if truth raise then (eic_log (Timer_interrupt pc) s, irq_raise s 0)
  else (eic_log Clear_timer_interrupt s, irq_clear s 0).

(** Software interrupt. *)
Definition pic32_soft_irq (s : pic32_t) (pc num : Z) : list eic_message * pic32_t :=
  (eic_log (Soft_interrupt pc num) s, irq_raise s (num + 1)).

(** INTSTAT and Cause.RIPL show the arbitration of the banks, as
    [update_irq_status] leaves them. *)
Definition settled (s : pic32_t) : Prop :=
  VALUE s INTSTAT = fst (arbitrate s) .| (snd (arbitrate s) << 8) /\
  ripl_of (CP0_Cause s) = snd (arbitrate s).

(** *** Assumptions on the header

    What the source needs of the constants to compile and to work as
    written: the labels of each switch are distinct offsets of words
    of the 1 Mbyte window, an alias group starts on a multiple of 16
    (so that [offset & 0xc] in [write_op] is the displacement of the
    alias), the sources fit the six flag banks, and the RIPL field
    fits an [int]. *)

Fixpoint distinct (l : list Z) : bool :=
  match l with
  | [] => true
  | x :: l' => negb (existsb (Z.eqb x) l') && distinct l'
  end.

Definition word_offset (z : Z) : bool := (0 <=? z) && (z <? 2 ^ 20) && (z mod 4 =? 0).

Definition group_aligned (c : Wr.case) : bool :=
  match c with
  | Wr.STORAGE _ _ | Wr.READONLY _ => true
  | Wr.WRITEOP r _ | Wr.WRITEOPX r _ _ | Wr.WRITEOPR r _ _ => addr r mod 16 =? 0
  end.

Definition header_ok : bool :=
  distinct io_write32_offsets &&
  distinct io_read32_offsets &&
  forallb word_offset io_write32_offsets &&
  forallb word_offset io_read32_offsets &&
  forallb group_aligned Wr.cases &&
  (0 <=? PIC32_IRQ_LAST) && (PIC32_IRQ_LAST <? 192) &&
  (0 <=? CP0Ca_IP) && (CP0Ca_IP <=? 23).

End Model.

(** ** Flash memory

    [store_byte] is the function [pic32_init] hands to the loader of
    hex files; it stores into the two flash memories, which the
    pointers [prog_ptr] and [boot_ptr] address. *)

(** Hardware addresses *)
Definition PROGRAM_FLASH_START : Z := 0x1d000000.
Definition BOOT_FLASH_START : Z := 0x1fc00000.

Definition PROGRAM_FLASH_SIZE : Z := 2 * 1024 * 1024.   (* 2 Mbytes *)
Definition BOOT_FLASH_SIZE : Z := 64 * 1024.            (* 64 kbytes *)

(** The bytes at [prog_ptr] and at [boot_ptr], by index. *)
Record flash : Type := { prog : Z -> Z; boot : Z -> Z }.

(** [store_byte] returns, or prints "Bad hex file: incorrect address
    %08X, must be ..." and calls [exit(1)]. *)
Inductive stored : Type :=
  | Stored (f : flash)
  | Bad_hex_file (address : Z).

(** The parameters are an [unsigned] and an [unsigned char]: the
    arguments of a call are converted to them. *)
Definition store_byte (f : flash) (address byte : Z) : stored :=
  let address := u32 address in
  if (address >=? PROGRAM_FLASH_START) &&
     (address <? PROGRAM_FLASH_START + PROGRAM_FLASH_SIZE) then
    Stored {| prog := fun i => if i =? address .& 0xfffff then u8 byte else prog f i;
              boot := boot f |}
  else if (address >=? BOOT_FLASH_START) &&
          (address <? BOOT_FLASH_START + BOOT_FLASH_SIZE) then
    Stored {| prog := prog f;
              boot := fun i => if i =? address .& 0xffff then u8 byte else boot f i |}
  else Bad_hex_file address.

(** ** A sample instance

    A header and peripherals on which the model runs: the interrupt
    controller at its offsets on the chip, every other register on a
    16-byte slot of its own, and peripherals that do nothing. *)

(** A numbering of the register names: the family and the index, or
    0 and the rank of the name. *)
Definition reg_code (r : reg) : Z * Z :=
  match r with
  | IFS n => (1, n) | IEC n => (2, n) | IPC n => (3, n) | OFF n => (4, n)
  | INTCON => (0, 0) | INTSTAT => (0, 1) | IPTMR => (0, 2) | PRECON => (0, 3)
  | PRESTAT => (0, 4) | CFGCON => (0, 5) | DEVID => (0, 6) | SYSKEY => (0, 7)
  | RCON => (0, 8) | RSWRST => (0, 9) | OSCCON => (0, 10) | OSCTUN => (0, 11)
  | SPLLCON => (0, 12) | REFO1CON => (0, 13) | REFO2CON => (0, 14)
  | REFO3CON => (0, 15) | REFO4CON => (0, 16) | PB1DIV => (0, 17)
  | PB2DIV => (0, 18) | PB3DIV => (0, 19) | PB4DIV => (0, 20)
  | PB5DIV => (0, 21) | PB7DIV => (0, 22) | PB8DIV => (0, 23)
  | INT1R => (0, 24) | T4CKR => (0, 25) | T9CKR => (0, 26) | IC1R => (0, 27)
  | IC6R => (0, 28) | U3CTSR => (0, 29) | U4RXR => (0, 30) | U6RXR => (0, 31)
  | SS2R => (0, 32) | SDI6R => (0, 33) | OCFAR => (0, 34)
  | REFCLKI3R => (0, 35) | INT2R => (0, 36) | T3CKR => (0, 37)
  | T8CKR => (0, 38) | IC2R => (0, 39) | IC5R => (0, 40) | IC9R => (0, 41)
  | U1CTSR => (0, 42) | U2RXR => (0, 43) | U5CTSR => (0, 44)
  | SS1R => (0, 45) | SS3R => (0, 46) | SS4R => (0, 47) | SS5R => (0, 48)
  | C2RXR => (0, 49) | INT3R => (0, 50) | T2CKR => (0, 51) | T6CKR => (0, 52)
  | IC3R => (0, 53) | IC7R => (0, 54) | U1RXR => (0, 55) | U2CTSR => (0, 56)
  | U5RXR => (0, 57) | U6CTSR => (0, 58) | SDI1R => (0, 59)
  | SDI3R => (0, 60) | SDI5R => (0, 61) | SS6R => (0, 62)
  | REFCLKI1R => (0, 63) | INT4R => (0, 64) | T5CKR => (0, 65)
  | T7CKR => (0, 66) | IC4R => (0, 67) | IC8R => (0, 68) | U3RXR => (0, 69)
  | U4CTSR => (0, 70) | SDI2R => (0, 71) | SDI4R => (0, 72)
  | C1RXR => (0, 73) | REFCLKI4R => (0, 74) | RPA15R => (0, 75)
  | RPB1R => (0, 76) | RPB3R => (0, 77) | RPC4R => (0, 78)
  | RPC13R => (0, 79) | RPD3R => (0, 80) | RPD7R => (0, 81)
  | RPD11R => (0, 82) | RPD15R => (0, 83) | RPE5R => (0, 84)
  | RPF0R => (0, 85) | RPF5R => (0, 86) | RPG0R => (0, 87) | RPG7R => (0, 88)
  | RPB2R => (0, 89) | RPB6R => (0, 90) | RPB14R => (0, 91)
  | RPC2R => (0, 92) | RPD0R => (0, 93) | RPD1R => (0, 94) | RPD5R => (0, 95)
  | RPE8R => (0, 96) | RPF2R => (0, 97) | RPF3R => (0, 98)
  | RPF13R => (0, 99) | RPG9R => (0, 100) | RPA14R => (0, 101)
  | RPB5R => (0, 102) | RPB9R => (0, 103) | RPB10R => (0, 104)
  | RPC1R => (0, 105) | RPC14R => (0, 106) | RPD2R => (0, 107)
  | RPD6R => (0, 108) | RPD10R => (0, 109) | RPD14R => (0, 110)
  | RPF1R => (0, 111) | RPF4R => (0, 112) | RPG1R => (0, 113)
  | RPG8R => (0, 114) | RPB0R => (0, 115) | RPB7R => (0, 116)
  | RPB8R => (0, 117) | RPB15R => (0, 118) | RPC3R => (0, 119)
  | RPD4R => (0, 120) | RPD9R => (0, 121) | RPD12R => (0, 122)
  | RPE3R => (0, 123) | RPE9R => (0, 124) | RPF8R => (0, 125)
  | RPF12R => (0, 126) | RPG6R => (0, 127) | RTCCON => (0, 128)
  | RTCTIME => (0, 129) | RTCDATE => (0, 130) | ANSELA => (0, 131)
  | TRISA => (0, 132) | PORTA => (0, 133) | LATA => (0, 134)
  | ODCA => (0, 135) | CNPUA => (0, 136) | CNPDA => (0, 137)
  | CNCONA => (0, 138) | CNENA => (0, 139) | CNSTATA => (0, 140)
  | ANSELB => (0, 141) | TRISB => (0, 142) | PORTB => (0, 143)
  | LATB => (0, 144) | ODCB => (0, 145) | CNPUB => (0, 146)
  | CNPDB => (0, 147) | CNCONB => (0, 148) | CNENB => (0, 149)
  | CNSTATB => (0, 150) | ANSELC => (0, 151) | TRISC => (0, 152)
  | PORTC => (0, 153) | LATC => (0, 154) | ODCC => (0, 155)
  | CNPUC => (0, 156) | CNPDC => (0, 157) | CNCONC => (0, 158)
  | CNENC => (0, 159) | CNSTATC => (0, 160) | ANSELD => (0, 161)
  | TRISD => (0, 162) | PORTD => (0, 163) | LATD => (0, 164)
  | ODCD => (0, 165) | CNPUD => (0, 166) | CNPDD => (0, 167)
  | CNCOND => (0, 168) | CNEND => (0, 169) | CNSTATD => (0, 170)
  | ANSELE => (0, 171) | TRISE => (0, 172) | PORTE => (0, 173)
  | LATE => (0, 174) | ODCE => (0, 175) | CNPUE => (0, 176)
  | CNPDE => (0, 177) | CNCONE => (0, 178) | CNENE => (0, 179)
  | CNSTATE => (0, 180) | ANSELF => (0, 181) | TRISF => (0, 182)
  | PORTF => (0, 183) | LATF => (0, 184) | ODCF => (0, 185)
  | CNPUF => (0, 186) | CNPDF => (0, 187) | CNCONF => (0, 188)
  | CNENF => (0, 189) | CNSTATF => (0, 190) | ANSELG => (0, 191)
  | TRISG => (0, 192) | PORTG => (0, 193) | LATG => (0, 194)
  | ODCG => (0, 195) | CNPUG => (0, 196) | CNPDG => (0, 197)
  | CNCONG => (0, 198) | CNENG => (0, 199) | CNSTATG => (0, 200)
  | ANSELH => (0, 201) | TRISH => (0, 202) | PORTH => (0, 203)
  | LATH => (0, 204) | ODCH => (0, 205) | CNPUH => (0, 206)
  | CNPDH => (0, 207) | CNCONH => (0, 208) | CNENH => (0, 209)
  | CNSTATH => (0, 210) | ANSELJ => (0, 211) | TRISJ => (0, 212)
  | PORTJ => (0, 213) | LATJ => (0, 214) | ODCJ => (0, 215)
  | CNPUJ => (0, 216) | CNPDJ => (0, 217) | CNCONJ => (0, 218)
  | CNENJ => (0, 219) | CNSTATJ => (0, 220) | TRISK => (0, 221)
  | PORTK => (0, 222) | LATK => (0, 223) | ODCK => (0, 224)
  | CNPUK => (0, 225) | CNPDK => (0, 226) | CNCONK => (0, 227)
  | CNENK => (0, 228) | CNSTATK => (0, 229) | U1TXREG => (0, 230)
  | U1MODE => (0, 231) | U1STA => (0, 232) | U1BRG => (0, 233)
  | U1RXREG => (0, 234) | U2TXREG => (0, 235) | U2MODE => (0, 236)
  | U2STA => (0, 237) | U2BRG => (0, 238) | U2RXREG => (0, 239)
  | U3TXREG => (0, 240) | U3MODE => (0, 241) | U3STA => (0, 242)
  | U3BRG => (0, 243) | U3RXREG => (0, 244) | U4TXREG => (0, 245)
  | U4MODE => (0, 246) | U4STA => (0, 247) | U4BRG => (0, 248)
  | U4RXREG => (0, 249) | U5TXREG => (0, 250) | U5MODE => (0, 251)
  | U5STA => (0, 252) | U5BRG => (0, 253) | U5RXREG => (0, 254)
  | U6TXREG => (0, 255) | U6MODE => (0, 256) | U6STA => (0, 257)
  | U6BRG => (0, 258) | U6RXREG => (0, 259) | SPI1CON => (0, 260)
  | SPI1STAT => (0, 261) | SPI1BUF => (0, 262) | SPI1BRG => (0, 263)
  | SPI1CON2 => (0, 264) | SPI2CON => (0, 265) | SPI2STAT => (0, 266)
  | SPI2BUF => (0, 267) | SPI2BRG => (0, 268) | SPI2CON2 => (0, 269)
  | SPI3CON => (0, 270) | SPI3STAT => (0, 271) | SPI3BUF => (0, 272)
  | SPI3BRG => (0, 273) | SPI3CON2 => (0, 274) | SPI4CON => (0, 275)
  | SPI4STAT => (0, 276) | SPI4BUF => (0, 277) | SPI4BRG => (0, 278)
  | SPI4CON2 => (0, 279) | T1CON => (0, 280) | TMR1 => (0, 281)
  | PR1 => (0, 282) | T2CON => (0, 283) | TMR2 => (0, 284) | PR2 => (0, 285)
  | T3CON => (0, 286) | TMR3 => (0, 287) | PR3 => (0, 288)
  | T4CON => (0, 289) | TMR4 => (0, 290) | PR4 => (0, 291)
  | T5CON => (0, 292) | TMR5 => (0, 293) | PR5 => (0, 294)
  | T6CON => (0, 295) | TMR6 => (0, 296) | PR6 => (0, 297)
  | T7CON => (0, 298) | TMR7 => (0, 299) | PR7 => (0, 300)
  | T8CON => (0, 301) | TMR8 => (0, 302) | PR8 => (0, 303)
  | T9CON => (0, 304) | TMR9 => (0, 305) | PR9 => (0, 306)
  | ETHCON1 => (0, 307) | ETHCON2 => (0, 308) | ETHTXST => (0, 309)
  | ETHRXST => (0, 310) | ETHHT0 => (0, 311) | ETHHT1 => (0, 312)
  | ETHPMM0 => (0, 313) | ETHPMM1 => (0, 314) | ETHPMCS => (0, 315)
  | ETHPMO => (0, 316) | ETHRXFC => (0, 317) | ETHRXWM => (0, 318)
  | ETHIEN => (0, 319) | ETHIRQ => (0, 320) | ETHSTAT => (0, 321)
  | ETHRXOVFLOW => (0, 322) | ETHFRMTXOK => (0, 323) | ETHSCOLFRM => (0, 324)
  | ETHMCOLFRM => (0, 325) | ETHFRMRXOK => (0, 326) | ETHFCSERR => (0, 327)
  | ETHALGNERR => (0, 328) | EMAC1CFG1 => (0, 329) | EMAC1CFG2 => (0, 330)
  | EMAC1IPGT => (0, 331) | EMAC1IPGR => (0, 332) | EMAC1CLRT => (0, 333)
  | EMAC1MAXF => (0, 334) | EMAC1SUPP => (0, 335) | EMAC1TEST => (0, 336)
  | EMAC1MCFG => (0, 337) | EMAC1MCMD => (0, 338) | EMAC1MADR => (0, 339)
  | EMAC1MWTD => (0, 340) | EMAC1MRDD => (0, 341) | EMAC1MIND => (0, 342)
  | EMAC1SA0 => (0, 343) | EMAC1SA1 => (0, 344) | EMAC1SA2 => (0, 345)
  | USBCSR0 => (0, 346) | USBCSR1 => (0, 347) | USBCSR2 => (0, 348)
  | USBCSR3 => (0, 349) | USBIENCSR0 => (0, 350) | USBIENCSR1 => (0, 351)
  | USBIENCSR2 => (0, 352) | USBIENCSR3 => (0, 353) | USBFIFO0 => (0, 354)
  | USBFIFO1 => (0, 355) | USBFIFO2 => (0, 356) | USBFIFO3 => (0, 357)
  | USBFIFO4 => (0, 358) | USBFIFO5 => (0, 359) | USBFIFO6 => (0, 360)
  | USBFIFO7 => (0, 361) | USBOTG => (0, 362) | USBFIFOA => (0, 363)
  | USBHWVER => (0, 364) | USBINFO => (0, 365) | USBEOFRST => (0, 366)
  | USBE0TXA => (0, 367) | USBE0RXA => (0, 368) | USBE1TXA => (0, 369)
  | USBE1RXA => (0, 370) | USBE2TXA => (0, 371) | USBE2RXA => (0, 372)
  | USBE3TXA => (0, 373) | USBE3RXA => (0, 374) | USBE4TXA => (0, 375)
  | USBE4RXA => (0, 376) | USBE5TXA => (0, 377) | USBE5RXA => (0, 378)
  | USBE6TXA => (0, 379) | USBE6RXA => (0, 380) | USBE7TXA => (0, 381)
  | USBE7RXA => (0, 382) | USBE0CSR0 => (0, 383) | USBE0CSR2 => (0, 384)
  | USBE0CSR3 => (0, 385) | USBE1CSR0 => (0, 386) | USBE1CSR1 => (0, 387)
  | USBE1CSR2 => (0, 388) | USBE1CSR3 => (0, 389) | USBE2CSR0 => (0, 390)
  | USBE2CSR1 => (0, 391) | USBE2CSR2 => (0, 392) | USBE2CSR3 => (0, 393)
  | USBE3CSR0 => (0, 394) | USBE3CSR1 => (0, 395) | USBE3CSR2 => (0, 396)
  | USBE3CSR3 => (0, 397) | USBE4CSR0 => (0, 398) | USBE4CSR1 => (0, 399)
  | USBE4CSR2 => (0, 400) | USBE4CSR3 => (0, 401) | USBE5CSR0 => (0, 402)
  | USBE5CSR1 => (0, 403) | USBE5CSR2 => (0, 404) | USBE5CSR3 => (0, 405)
  | USBE6CSR0 => (0, 406) | USBE6CSR1 => (0, 407) | USBE6CSR2 => (0, 408)
  | USBE6CSR3 => (0, 409) | USBE7CSR0 => (0, 410) | USBE7CSR1 => (0, 411)
  | USBE7CSR2 => (0, 412) | USBE7CSR3 => (0, 413) | USBDMAINT => (0, 414)
  | USBDMA1C => (0, 415) | USBDMA1A => (0, 416) | USBDMA1N => (0, 417)
  | USBDMA2C => (0, 418) | USBDMA2A => (0, 419) | USBDMA2N => (0, 420)
  | USBDMA3C => (0, 421) | USBDMA3A => (0, 422) | USBDMA3N => (0, 423)
  | USBDMA4C => (0, 424) | USBDMA4A => (0, 425) | USBDMA4N => (0, 426)
  | USBDMA5C => (0, 427) | USBDMA5A => (0, 428) | USBDMA5N => (0, 429)
  | USBDMA6C => (0, 430) | USBDMA6A => (0, 431) | USBDMA6N => (0, 432)
  | USBDMA7C => (0, 433) | USBDMA7A => (0, 434) | USBDMA7N => (0, 435)
  | USBDMA8C => (0, 436) | USBDMA8A => (0, 437) | USBDMA8N => (0, 438)
  | USBE1RPC => (0, 439) | USBE2RPC => (0, 440) | USBE3RPC => (0, 441)
  | USBE4RPC => (0, 442) | USBE5RPC => (0, 443) | USBE6RPC => (0, 444)
  | USBE7RPC => (0, 445) | USBDPBFD => (0, 446) | USBTMCON1 => (0, 447)
  | USBTMCON2 => (0, 448) | USBLPMR1 => (0, 449) | USBLMPR2 => (0, 450)
  | SPI5CON => (0, 451) | SPI5STAT => (0, 452) | SPI5BRG => (0, 453)
  | SPI6CON => (0, 454) | SPI6STAT => (0, 455) | SPI6BRG => (0, 456)
  | SPI5CON2 => (0, 457) | SPI6CON2 => (0, 458)
  end.

Definition sample_addr (r : reg) : Z :=
  match reg_code r with
  | (1, n) => 0x10040 + 16 * n
  | (2, n) => 0x100c0 + 16 * n
  | (3, n) => 0x10140 + 16 * n
  | (4, n) => 0x10540 + 4 * n
  | (_, k) => 0x20000 + 16 * k
  end.

Definition sample_h : pic32mz_h := {|
  addr := sample_addr;
  PIC32_IRQ_LAST := 190;
  CP0Ca_IP := 8;
  PIC32_CFGCON_DMAPRI := 0x02000000;  PIC32_CFGCON_CPUPRI := 0x01000000;
  PIC32_CFGCON_ICACLK := 0x00020000;  PIC32_CFGCON_OCACLK := 0x00010000;
  PIC32_CFGCON_IOLOCK := 0x00002000;  PIC32_CFGCON_PMDLOCK := 0x00001000;
  PIC32_CFGCON_PGLOCK := 0x00000800;  PIC32_CFGCON_USBSSEN := 0x00000100;
  PIC32_CFGCON_ECC_MASK := 0x00000030; PIC32_CFGCON_ECC_DISWR := 0x00000020;
  PIC32_CFGCON_JTAGEN := 0x00000008;  PIC32_CFGCON_TROEN := 0x00000004;
  PIC32_CFGCON_TDOEN := 0x00000001;
  PIC32_RTCC_ON := 0x8000;            PIC32_RTCC_CLKON := 0x0040;
  PIC32_RTCC_HALFSEC := 0x0002;       PIC32_RTCC_SYNC := 0x0004;
  PIC32_RTCTIME_SEC := 8;             PIC32_RTCTIME_MIN := 16;
  PIC32_RTCTIME_HOUR := 24;           PIC32_RTCDATE_DAY := 8;
  PIC32_RTCDATE_MONTH := 16;          PIC32_RTCDATE_YEAR := 24;
  PIC32_USTA_URXDA := 0x0001;         PIC32_USTA_FERR := 0x0004;
  PIC32_USTA_PERR := 0x0008;          PIC32_USTA_RIDLE := 0x0010;
  PIC32_USTA_TRMT := 0x0100;          PIC32_USTA_UTXBF := 0x0200;
  PIC32_SPISTAT_SPIROV := 0x0040;     PIC32_SPISTAT_SPITBE := 0x0008
|}.

Definition sample_p : peripherals := {|
  pic32_uart_get_char := fun s _ => (0, s);
  pic32_uart_poll_status := fun s _ => s;
  pic32_uart_put_char := fun s _ _ => s;
  pic32_uart_update_mode := fun s _ => s;
  pic32_uart_update_status := fun s _ => s;
  pic32_spi_control := fun s _ => s;
  pic32_spi_readbuf := fun s _ => (0, s);
  pic32_spi_writebuf := fun s _ _ => s;
  pic32_gpio_write := fun s _ _ => s;
  pic32_eth_control := fun s => s;
  pic32_mii_command := fun s => s;
  pic32_mii_write := fun s => s;
  pic32_sdcard_reset := fun s => s
|}.

(** The state [pic32_init] builds before it calls [io_reset]: zeroed
    storage ([g_malloc0]), [stop_on_reset = 1], and the device
    identifier and oscillator setting of the board; here the chipKIT
    WiFire board, a CPU with Cause = 0, six SPI ports, no logging,
    and a host clock that is read twice a second from Friday
    30 October 2026, 12:00:00 on. *)
Definition sample_init : pic32_t :=
  let s := {| iomem := fun _ => 0; syskey_unlock := 0; board_type := BOARD_WIFIRE;
              stop_on_reset := 1; spi := repeat (0, 0) 6; CP0_Cause := 0;
              log_instr := false;
              host_clock := fun n =>
                {| tm_sec := Z.of_nat n / 2 mod 60; tm_min := Z.of_nat n / 120 mod 60;
                   tm_hour := 12; tm_wday := 5; tm_mday := 30; tm_mon := 9; tm_year := 126 |};
              gmtime_now := {| tm_sec := 0; tm_min := 0; tm_hour := 0; tm_wday := 0;
                               tm_mday := 0; tm_mon := 0; tm_year := 0 |};
              trace := [] |} in
  let s := @assign sample_h DEVID 0x4510e053 s in
  @assign sample_h OSCCON 0x00001120 s.

(** The sample machine after reset. *)
Definition sample_reset : pic32_t := @io_reset sample_h sample_init.

(** ** Comparing names

    The numbering has an inverse, so that two names with one number
    are one name. *)
Definition reg_of_code (c : Z * Z) : option reg :=
  match c with
  | (1, n) => Some (IFS n) | (2, n) => Some (IEC n) | (3, n) => Some (IPC n)
  | (4, n) => Some (OFF n)
  | (0, 0) => Some INTCON | (0, 1) => Some INTSTAT | (0, 2) => Some IPTMR
  | (0, 3) => Some PRECON | (0, 4) => Some PRESTAT | (0, 5) => Some CFGCON
  | (0, 6) => Some DEVID | (0, 7) => Some SYSKEY | (0, 8) => Some RCON
  | (0, 9) => Some RSWRST | (0, 10) => Some OSCCON | (0, 11) => Some OSCTUN
  | (0, 12) => Some SPLLCON | (0, 13) => Some REFO1CON
  | (0, 14) => Some REFO2CON | (0, 15) => Some REFO3CON
  | (0, 16) => Some REFO4CON | (0, 17) => Some PB1DIV
  | (0, 18) => Some PB2DIV | (0, 19) => Some PB3DIV | (0, 20) => Some PB4DIV
  | (0, 21) => Some PB5DIV | (0, 22) => Some PB7DIV | (0, 23) => Some PB8DIV
  | (0, 24) => Some INT1R | (0, 25) => Some T4CKR | (0, 26) => Some T9CKR
  | (0, 27) => Some IC1R | (0, 28) => Some IC6R | (0, 29) => Some U3CTSR
  | (0, 30) => Some U4RXR | (0, 31) => Some U6RXR | (0, 32) => Some SS2R
  | (0, 33) => Some SDI6R | (0, 34) => Some OCFAR | (0, 35) => Some REFCLKI3R
  | (0, 36) => Some INT2R | (0, 37) => Some T3CKR | (0, 38) => Some T8CKR
  | (0, 39) => Some IC2R | (0, 40) => Some IC5R | (0, 41) => Some IC9R
  | (0, 42) => Some U1CTSR | (0, 43) => Some U2RXR | (0, 44) => Some U5CTSR
  | (0, 45) => Some SS1R | (0, 46) => Some SS3R | (0, 47) => Some SS4R
  | (0, 48) => Some SS5R | (0, 49) => Some C2RXR | (0, 50) => Some INT3R
  | (0, 51) => Some T2CKR | (0, 52) => Some T6CKR | (0, 53) => Some IC3R
  | (0, 54) => Some IC7R | (0, 55) => Some U1RXR | (0, 56) => Some U2CTSR
  | (0, 57) => Some U5RXR | (0, 58) => Some U6CTSR | (0, 59) => Some SDI1R
  | (0, 60) => Some SDI3R | (0, 61) => Some SDI5R | (0, 62) => Some SS6R
  | (0, 63) => Some REFCLKI1R | (0, 64) => Some INT4R | (0, 65) => Some T5CKR
  | (0, 66) => Some T7CKR | (0, 67) => Some IC4R | (0, 68) => Some IC8R
  | (0, 69) => Some U3RXR | (0, 70) => Some U4CTSR | (0, 71) => Some SDI2R
  | (0, 72) => Some SDI4R | (0, 73) => Some C1RXR | (0, 74) => Some REFCLKI4R
  | (0, 75) => Some RPA15R | (0, 76) => Some RPB1R | (0, 77) => Some RPB3R
  | (0, 78) => Some RPC4R | (0, 79) => Some RPC13R | (0, 80) => Some RPD3R
  | (0, 81) => Some RPD7R | (0, 82) => Some RPD11R | (0, 83) => Some RPD15R
  | (0, 84) => Some RPE5R | (0, 85) => Some RPF0R | (0, 86) => Some RPF5R
  | (0, 87) => Some RPG0R | (0, 88) => Some RPG7R | (0, 89) => Some RPB2R
  | (0, 90) => Some RPB6R | (0, 91) => Some RPB14R | (0, 92) => Some RPC2R
  | (0, 93) => Some RPD0R | (0, 94) => Some RPD1R | (0, 95) => Some RPD5R
  | (0, 96) => Some RPE8R | (0, 97) => Some RPF2R | (0, 98) => Some RPF3R
  | (0, 99) => Some RPF13R | (0, 100) => Some RPG9R | (0, 101) => Some RPA14R
  | (0, 102) => Some RPB5R | (0, 103) => Some RPB9R | (0, 104) => Some RPB10R
  | (0, 105) => Some RPC1R | (0, 106) => Some RPC14R | (0, 107) => Some RPD2R
  | (0, 108) => Some RPD6R | (0, 109) => Some RPD10R
  | (0, 110) => Some RPD14R | (0, 111) => Some RPF1R | (0, 112) => Some RPF4R
  | (0, 113) => Some RPG1R | (0, 114) => Some RPG8R | (0, 115) => Some RPB0R
  | (0, 116) => Some RPB7R | (0, 117) => Some RPB8R | (0, 118) => Some RPB15R
  | (0, 119) => Some RPC3R | (0, 120) => Some RPD4R | (0, 121) => Some RPD9R
  | (0, 122) => Some RPD12R | (0, 123) => Some RPE3R | (0, 124) => Some RPE9R
  | (0, 125) => Some RPF8R | (0, 126) => Some RPF12R | (0, 127) => Some RPG6R
  | (0, 128) => Some RTCCON | (0, 129) => Some RTCTIME
  | (0, 130) => Some RTCDATE | (0, 131) => Some ANSELA
  | (0, 132) => Some TRISA | (0, 133) => Some PORTA | (0, 134) => Some LATA
  | (0, 135) => Some ODCA | (0, 136) => Some CNPUA | (0, 137) => Some CNPDA
  | (0, 138) => Some CNCONA | (0, 139) => Some CNENA
  | (0, 140) => Some CNSTATA | (0, 141) => Some ANSELB
  | (0, 142) => Some TRISB | (0, 143) => Some PORTB | (0, 144) => Some LATB
  | (0, 145) => Some ODCB | (0, 146) => Some CNPUB | (0, 147) => Some CNPDB
  | (0, 148) => Some CNCONB | (0, 149) => Some CNENB
  | (0, 150) => Some CNSTATB | (0, 151) => Some ANSELC
  | (0, 152) => Some TRISC | (0, 153) => Some PORTC | (0, 154) => Some LATC
  | (0, 155) => Some ODCC | (0, 156) => Some CNPUC | (0, 157) => Some CNPDC
  | (0, 158) => Some CNCONC | (0, 159) => Some CNENC
  | (0, 160) => Some CNSTATC | (0, 161) => Some ANSELD
  | (0, 162) => Some TRISD | (0, 163) => Some PORTD | (0, 164) => Some LATD
  | (0, 165) => Some ODCD | (0, 166) => Some CNPUD | (0, 167) => Some CNPDD
  | (0, 168) => Some CNCOND | (0, 169) => Some CNEND
  | (0, 170) => Some CNSTATD | (0, 171) => Some ANSELE
  | (0, 172) => Some TRISE | (0, 173) => Some PORTE | (0, 174) => Some LATE
  | (0, 175) => Some ODCE | (0, 176) => Some CNPUE | (0, 177) => Some CNPDE
  | (0, 178) => Some CNCONE | (0, 179) => Some CNENE
  | (0, 180) => Some CNSTATE | (0, 181) => Some ANSELF
  | (0, 182) => Some TRISF | (0, 183) => Some PORTF | (0, 184) => Some LATF
  | (0, 185) => Some ODCF | (0, 186) => Some CNPUF | (0, 187) => Some CNPDF
  | (0, 188) => Some CNCONF | (0, 189) => Some CNENF
  | (0, 190) => Some CNSTATF | (0, 191) => Some ANSELG
  | (0, 192) => Some TRISG | (0, 193) => Some PORTG | (0, 194) => Some LATG
  | (0, 195) => Some ODCG | (0, 196) => Some CNPUG | (0, 197) => Some CNPDG
  | (0, 198) => Some CNCONG | (0, 199) => Some CNENG
  | (0, 200) => Some CNSTATG | (0, 201) => Some ANSELH
  | (0, 202) => Some TRISH | (0, 203) => Some PORTH | (0, 204) => Some LATH
  | (0, 205) => Some ODCH | (0, 206) => Some CNPUH | (0, 207) => Some CNPDH
  | (0, 208) => Some CNCONH | (0, 209) => Some CNENH
  | (0, 210) => Some CNSTATH | (0, 211) => Some ANSELJ
  | (0, 212) => Some TRISJ | (0, 213) => Some PORTJ | (0, 214) => Some LATJ
  | (0, 215) => Some ODCJ | (0, 216) => Some CNPUJ | (0, 217) => Some CNPDJ
  | (0, 218) => Some CNCONJ | (0, 219) => Some CNENJ
  | (0, 220) => Some CNSTATJ | (0, 221) => Some TRISK
  | (0, 222) => Some PORTK | (0, 223) => Some LATK | (0, 224) => Some ODCK
  | (0, 225) => Some CNPUK | (0, 226) => Some CNPDK | (0, 227) => Some CNCONK
  | (0, 228) => Some CNENK | (0, 229) => Some CNSTATK
  | (0, 230) => Some U1TXREG | (0, 231) => Some U1MODE
  | (0, 232) => Some U1STA | (0, 233) => Some U1BRG
  | (0, 234) => Some U1RXREG | (0, 235) => Some U2TXREG
  | (0, 236) => Some U2MODE | (0, 237) => Some U2STA | (0, 238) => Some U2BRG
  | (0, 239) => Some U2RXREG | (0, 240) => Some U3TXREG
  | (0, 241) => Some U3MODE | (0, 242) => Some U3STA | (0, 243) => Some U3BRG
  | (0, 244) => Some U3RXREG | (0, 245) => Some U4TXREG
  | (0, 246) => Some U4MODE | (0, 247) => Some U4STA | (0, 248) => Some U4BRG
  | (0, 249) => Some U4RXREG | (0, 250) => Some U5TXREG
  | (0, 251) => Some U5MODE | (0, 252) => Some U5STA | (0, 253) => Some U5BRG
  | (0, 254) => Some U5RXREG | (0, 255) => Some U6TXREG
  | (0, 256) => Some U6MODE | (0, 257) => Some U6STA | (0, 258) => Some U6BRG
  | (0, 259) => Some U6RXREG | (0, 260) => Some SPI1CON
  | (0, 261) => Some SPI1STAT | (0, 262) => Some SPI1BUF
  | (0, 263) => Some SPI1BRG | (0, 264) => Some SPI1CON2
  | (0, 265) => Some SPI2CON | (0, 266) => Some SPI2STAT
  | (0, 267) => Some SPI2BUF | (0, 268) => Some SPI2BRG
  | (0, 269) => Some SPI2CON2 | (0, 270) => Some SPI3CON
  | (0, 271) => Some SPI3STAT | (0, 272) => Some SPI3BUF
  | (0, 273) => Some SPI3BRG | (0, 274) => Some SPI3CON2
  | (0, 275) => Some SPI4CON | (0, 276) => Some SPI4STAT
  | (0, 277) => Some SPI4BUF | (0, 278) => Some SPI4BRG
  | (0, 279) => Some SPI4CON2 | (0, 280) => Some T1CON
  | (0, 281) => Some TMR1 | (0, 282) => Some PR1 | (0, 283) => Some T2CON
  | (0, 284) => Some TMR2 | (0, 285) => Some PR2 | (0, 286) => Some T3CON
  | (0, 287) => Some TMR3 | (0, 288) => Some PR3 | (0, 289) => Some T4CON
  | (0, 290) => Some TMR4 | (0, 291) => Some PR4 | (0, 292) => Some T5CON
  | (0, 293) => Some TMR5 | (0, 294) => Some PR5 | (0, 295) => Some T6CON
  | (0, 296) => Some TMR6 | (0, 297) => Some PR6 | (0, 298) => Some T7CON
  | (0, 299) => Some TMR7 | (0, 300) => Some PR7 | (0, 301) => Some T8CON
  | (0, 302) => Some TMR8 | (0, 303) => Some PR8 | (0, 304) => Some T9CON
  | (0, 305) => Some TMR9 | (0, 306) => Some PR9 | (0, 307) => Some ETHCON1
  | (0, 308) => Some ETHCON2 | (0, 309) => Some ETHTXST
  | (0, 310) => Some ETHRXST | (0, 311) => Some ETHHT0
  | (0, 312) => Some ETHHT1 | (0, 313) => Some ETHPMM0
  | (0, 314) => Some ETHPMM1 | (0, 315) => Some ETHPMCS
  | (0, 316) => Some ETHPMO | (0, 317) => Some ETHRXFC
  | (0, 318) => Some ETHRXWM | (0, 319) => Some ETHIEN
  | (0, 320) => Some ETHIRQ | (0, 321) => Some ETHSTAT
  | (0, 322) => Some ETHRXOVFLOW | (0, 323) => Some ETHFRMTXOK
  | (0, 324) => Some ETHSCOLFRM | (0, 325) => Some ETHMCOLFRM
  | (0, 326) => Some ETHFRMRXOK | (0, 327) => Some ETHFCSERR
  | (0, 328) => Some ETHALGNERR | (0, 329) => Some EMAC1CFG1
  | (0, 330) => Some EMAC1CFG2 | (0, 331) => Some EMAC1IPGT
  | (0, 332) => Some EMAC1IPGR | (0, 333) => Some EMAC1CLRT
  | (0, 334) => Some EMAC1MAXF | (0, 335) => Some EMAC1SUPP
  | (0, 336) => Some EMAC1TEST | (0, 337) => Some EMAC1MCFG
  | (0, 338) => Some EMAC1MCMD | (0, 339) => Some EMAC1MADR
  | (0, 340) => Some EMAC1MWTD | (0, 341) => Some EMAC1MRDD
  | (0, 342) => Some EMAC1MIND | (0, 343) => Some EMAC1SA0
  | (0, 344) => Some EMAC1SA1 | (0, 345) => Some EMAC1SA2
  | (0, 346) => Some USBCSR0 | (0, 347) => Some USBCSR1
  | (0, 348) => Some USBCSR2 | (0, 349) => Some USBCSR3
  | (0, 350) => Some USBIENCSR0 | (0, 351) => Some USBIENCSR1
  | (0, 352) => Some USBIENCSR2 | (0, 353) => Some USBIENCSR3
  | (0, 354) => Some USBFIFO0 | (0, 355) => Some USBFIFO1
  | (0, 356) => Some USBFIFO2 | (0, 357) => Some USBFIFO3
  | (0, 358) => Some USBFIFO4 | (0, 359) => Some USBFIFO5
  | (0, 360) => Some USBFIFO6 | (0, 361) => Some USBFIFO7
  | (0, 362) => Some USBOTG | (0, 363) => Some USBFIFOA
  | (0, 364) => Some USBHWVER | (0, 365) => Some USBINFO
  | (0, 366) => Some USBEOFRST | (0, 367) => Some USBE0TXA
  | (0, 368) => Some USBE0RXA | (0, 369) => Some USBE1TXA
  | (0, 370) => Some USBE1RXA | (0, 371) => Some USBE2TXA
  | (0, 372) => Some USBE2RXA | (0, 373) => Some USBE3TXA
  | (0, 374) => Some USBE3RXA | (0, 375) => Some USBE4TXA
  | (0, 376) => Some USBE4RXA | (0, 377) => Some USBE5TXA
  | (0, 378) => Some USBE5RXA | (0, 379) => Some USBE6TXA
  | (0, 380) => Some USBE6RXA | (0, 381) => Some USBE7TXA
  | (0, 382) => Some USBE7RXA | (0, 383) => Some USBE0CSR0
  | (0, 384) => Some USBE0CSR2 | (0, 385) => Some USBE0CSR3
  | (0, 386) => Some USBE1CSR0 | (0, 387) => Some USBE1CSR1
  | (0, 388) => Some USBE1CSR2 | (0, 389) => Some USBE1CSR3
  | (0, 390) => Some USBE2CSR0 | (0, 391) => Some USBE2CSR1
  | (0, 392) => Some USBE2CSR2 | (0, 393) => Some USBE2CSR3
  | (0, 394) => Some USBE3CSR0 | (0, 395) => Some USBE3CSR1
  | (0, 396) => Some USBE3CSR2 | (0, 397) => Some USBE3CSR3
  | (0, 398) => Some USBE4CSR0 | (0, 399) => Some USBE4CSR1
  | (0, 400) => Some USBE4CSR2 | (0, 401) => Some USBE4CSR3
  | (0, 402) => Some USBE5CSR0 | (0, 403) => Some USBE5CSR1
  | (0, 404) => Some USBE5CSR2 | (0, 405) => Some USBE5CSR3
  | (0, 406) => Some USBE6CSR0 | (0, 407) => Some USBE6CSR1
  | (0, 408) => Some USBE6CSR2 | (0, 409) => Some USBE6CSR3
  | (0, 410) => Some USBE7CSR0 | (0, 411) => Some USBE7CSR1
  | (0, 412) => Some USBE7CSR2 | (0, 413) => Some USBE7CSR3
  | (0, 414) => Some USBDMAINT | (0, 415) => Some USBDMA1C
  | (0, 416) => Some USBDMA1A | (0, 417) => Some USBDMA1N
  | (0, 418) => Some USBDMA2C | (0, 419) => Some USBDMA2A
  | (0, 420) => Some USBDMA2N | (0, 421) => Some USBDMA3C
  | (0, 422) => Some USBDMA3A | (0, 423) => Some USBDMA3N
  | (0, 424) => Some USBDMA4C | (0, 425) => Some USBDMA4A
  | (0, 426) => Some USBDMA4N | (0, 427) => Some USBDMA5C
  | (0, 428) => Some USBDMA5A | (0, 429) => Some USBDMA5N
  | (0, 430) => Some USBDMA6C | (0, 431) => Some USBDMA6A
  | (0, 432) => Some USBDMA6N | (0, 433) => Some USBDMA7C
  | (0, 434) => Some USBDMA7A | (0, 435) => Some USBDMA7N
  | (0, 436) => Some USBDMA8C | (0, 437) => Some USBDMA8A
  | (0, 438) => Some USBDMA8N | (0, 439) => Some USBE1RPC
  | (0, 440) => Some USBE2RPC | (0, 441) => Some USBE3RPC
  | (0, 442) => Some USBE4RPC | (0, 443) => Some USBE5RPC
  | (0, 444) => Some USBE6RPC | (0, 445) => Some USBE7RPC
  | (0, 446) => Some USBDPBFD | (0, 447) => Some USBTMCON1
  | (0, 448) => Some USBTMCON2 | (0, 449) => Some USBLPMR1
  | (0, 450) => Some USBLMPR2 | (0, 451) => Some SPI5CON
  | (0, 452) => Some SPI5STAT | (0, 453) => Some SPI5BRG
  | (0, 454) => Some SPI6CON | (0, 455) => Some SPI6STAT
  | (0, 456) => Some SPI6BRG | (0, 457) => Some SPI5CON2
  | (0, 458) => Some SPI6CON2
  | _ => None
  end.

Definition reg_eqb (r r' : reg) : bool :=
  let (f, n) := reg_code r in
  let (f', n') := reg_code r' in
  (f =? f') && (n =? n').

Definition alias_eqb (a a' : alias) : bool := disp a =? disp a'.

Definition label_eqb (l l' : label) : bool :=
  reg_eqb (base l) (base l') && alias_eqb (view l) (view l').

(** The labels of each switch. *)
Definition io_read32_labels : list label := map fst io_read32_table.
Definition io_write32_labels : list label := map fst io_write32_table.

Definition has_label (labels : list label) (l : label) : bool :=
  existsb (label_eqb l) labels.

(** The registers [io_reset] stores into that [io_write32] has no
    case for. *)
Definition reset_only_registers : list reg :=
  filter (fun r : reg => negb (has_label io_write32_labels r)) reset_registers.

(** * Properties *)

(** Membership of an explicit list, by search. *)
Ltac in_list := repeat first [left; reflexivity | right].

(** Linear arithmetic with division by constants. *)
Ltac divmod := Z.div_mod_to_equations; lia.

(** ** Words and bits *)

Lemma u32_range (z : Z) : 0 <= u32 z < 2 ^ 32.
Proof. unfold u32. apply Z.mod_pos_bound. lia. Qed.

Lemma u32_small (z : Z) : 0 <= z < 2 ^ 32 -> u32 z = z.
Proof. intros Hz. unfold u32. now apply Z.mod_small. Qed.

Lemma u32_idem (z : Z) : u32 (u32 z) = u32 z.
Proof. apply u32_small, u32_range. Qed.

Lemma u32_s32 (z : Z) : u32 (s32 z) = u32 z.
Proof.
  unfold u32, s32.
  rewrite Zminus_mod, Z.mod_mod by lia.
  rewrite <- Zminus_mod. f_equal. lia.
Qed.

Lemma s32_small (z : Z) : 0 <= z < 2 ^ 31 -> s32 z = z.
Proof. intros Hz. unfold s32. rewrite Z.mod_small; lia. Qed.

Lemma u32_testbit (z i : Z) : Z.testbit (u32 z) i = (i <? 32) && Z.testbit z i.
Proof.
  unfold u32. destruct (Z.ltb_spec i 32) as [Hi | Hi]; cbn [andb].
  - destruct (Z.ltb_spec i 0) as [Hn | Hn].
    + now rewrite !Z.testbit_neg_r.
    + apply Z.mod_pow2_bits_low. lia.
  - apply Z.mod_pow2_bits_high. lia.
Qed.

Lemma s32_testbit (z i : Z) : i < 32 -> Z.testbit (s32 z) i = Z.testbit z i.
Proof.
  intros Hi.
  assert (E : Z.testbit (u32 (s32 z)) i = Z.testbit (u32 z) i) by now rewrite u32_s32.
  rewrite !u32_testbit in E.
  destruct (Z.ltb_spec i 32); [exact E | lia].
Qed.

(** Two words with the same 32 low bits are equal. *)
Lemma u32_eq (x y : Z) :
  (forall i, 0 <= i < 32 -> Z.testbit x i = Z.testbit y i) -> u32 x = u32 y.
Proof.
  intros E. apply Z.bits_inj'. intros i Hi. rewrite !u32_testbit.
  destruct (Z.ltb_spec i 32); cbn [andb]; [apply E; lia | reflexivity].
Qed.

Lemma testbit_high (z i : Z) : 0 <= z < 2 ^ 32 -> 32 <= i -> Z.testbit z i = false.
Proof.
  intros Hz Hi. rewrite <- (u32_small z Hz), u32_testbit.
  destruct (Z.ltb_spec i 32); [lia | reflexivity].
Qed.

Lemma pow2_bit (k i : Z) : 0 <= k -> Z.testbit (1 << k) i = (i =? k).
Proof.
  intros Hk. rewrite Z.shiftl_1_l.
  destruct (Z.eqb_spec i k) as [-> | Hne].
  - now apply Z.pow2_bits_true.
  - apply Z.pow2_bits_false. lia.
Qed.

(** The C test [x & (1 << k)] reads bit [k] of [x]. *)
Lemma truth_land_bit (x k : Z) :
  0 <= k < 32 -> truth (x .& u32 (1 << k)) = Z.testbit x k.
Proof.
  intros Hk. unfold truth.
  destruct (Z.testbit x k) eqn:E.
  - destruct (Z.eqb_spec (x .& u32 (1 << k)) 0) as [E0 | ]; [ | reflexivity].
    assert (B : Z.testbit (x .& u32 (1 << k)) k = true).
    { rewrite Z.land_spec, u32_testbit, pow2_bit, E, Z.eqb_refl by lia.
      destruct (Z.ltb_spec k 32); [reflexivity | lia]. }
    rewrite E0, Z.bits_0 in B. discriminate.
  - replace (x .& u32 (1 << k)) with 0; [reflexivity | ].
    symmetry. apply Z.bits_inj'. intros i Hi.
    rewrite Z.land_spec, u32_testbit, pow2_bit, Z.bits_0 by lia.
    destruct (Z.eqb_spec i k) as [-> | ]; [now rewrite E | ].
    now rewrite andb_false_r, andb_false_r.
Qed.

(** The C test [(x >> k) & 1] reads bit [k] of [x]. *)
Lemma truth_shiftr_bit (x k : Z) : 0 <= k -> truth ((x >> k) .& 1) = Z.testbit x k.
Proof.
  intros Hk. unfold truth.
  change 1 with (Z.ones 1) at 1. rewrite Z.land_ones by lia.
  replace (Z.testbit x k) with (Z.testbit (x >> k) 0)
    by (rewrite Z.shiftr_spec by lia; f_equal; lia).
  rewrite Z.bit0_eqb.
  change (2 ^ 1) with 2.
  destruct (Z.eqb_spec ((x >> k) mod 2) 0) as [-> | Hne]; [reflexivity | ].
  destruct (Z.eqb_spec ((x >> k) mod 2) 1); [reflexivity | ].
  pose proof (Z.mod_pos_bound (x >> k) 2). lia.
Qed.

Lemma truth_false (z : Z) : truth z = false -> z = 0.
Proof. unfold truth. destruct (Z.eqb_spec z 0); [easy | discriminate]. Qed.

(** ** Storage *)

Lemma iomem_store (s : pic32_t) (offset v a : Z) :
  iomem (store offset v s) a = if a =? offset then u32 v else iomem s a.
Proof. reflexivity. Qed.

Lemma iomem_store_same (s : pic32_t) (offset v : Z) :
  iomem (store offset v s) offset = u32 v.
Proof. rewrite iomem_store. now rewrite Z.eqb_refl. Qed.

Lemma iomem_store_other (s : pic32_t) (offset v a : Z) :
  a <> offset -> iomem (store offset v s) a = iomem s a.
Proof. intros Hne. rewrite iomem_store. destruct (Z.eqb_spec a offset); easy. Qed.

Lemma iomem_log (m : message) (s : pic32_t) : iomem (log m s) = iomem s.
Proof. unfold log. now destruct (log_instr s). Qed.

Lemma syskey_unlock_log (m : message) (s : pic32_t) : syskey_unlock (log m s) = syskey_unlock s.
Proof. unfold log. now destruct (log_instr s). Qed.

Lemma CP0_Cause_log (m : message) (s : pic32_t) : CP0_Cause (log m s) = CP0_Cause s.
Proof. unfold log. now destruct (log_instr s). Qed.

(** ** Switches *)

Section Switch.

Context {H : pic32mz_h} {C : Type}.

Lemma distinct_not_in (x : Z) (l : list Z) : existsb (Z.eqb x) l = false -> ~ In x l.
Proof.
  intros E Hin.
  assert (existsb (Z.eqb x) l = true); [ | congruence].
  apply existsb_exists. exists x. split; [exact Hin | apply Z.eqb_refl].
Qed.

Lemma not_in_distinct (x : Z) (l : list Z) : ~ In x l -> existsb (Z.eqb x) l = false.
Proof.
  intros Hn. destruct (existsb (Z.eqb x) l) eqn:E; [ | reflexivity].
  apply existsb_exists in E. destruct E as (y & Hy & E).
  apply Z.eqb_eq in E. now subst y.
Qed.

(** A label of the table selects its own case. *)
Lemma switch_label (table : list (label * C)) (l : label) (c : C) :
  distinct (map (fun e => offset_of (fst e)) table) = true ->
  In (l, c) table ->
  switch (offset_of l) table = Some (l, c).
Proof.
  unfold switch. induction table as [ | e table IH]; intros Hd Hin; [easy | ].
  cbn [map distinct] in Hd. apply andb_prop in Hd. destruct Hd as [Hx Hd].
  cbn [find]. destruct Hin as [-> | Hin].
  - cbn [fst]. now rewrite Z.eqb_refl.
  - destruct (Z.eqb_spec (offset_of (fst e)) (offset_of l)) as [E | _]; [ | now apply IH].
    apply negb_true_iff, distinct_not_in in Hx. exfalso. apply Hx.
    rewrite E. now apply (in_map (fun e => offset_of (fst e)) table (l, c)).
Qed.

(** An offset that is no label of the table selects no case. *)
Lemma switch_default (table : list (label * C)) (offset : Z) :
  ~ In offset (map (fun e => offset_of (fst e)) table) ->
  switch offset table = None.
Proof.
  unfold switch. induction table as [ | e table IH]; intros Hn; [reflexivity | ].
  cbn [find]. destruct (Z.eqb_spec (offset_of (fst e)) offset) as [E | _].
  - exfalso. apply Hn. now left.
  - apply IH. intros Hin. apply Hn. now right.
Qed.

(** Two entries of a table at one offset are one entry. *)
Lemma labels_apart (table : list (label * C)) (l l' : label) (c c' : C) :
  distinct (map (fun e => offset_of (fst e)) table) = true ->
  In (l, c) table -> In (l', c') table ->
  offset_of l = offset_of l' -> l = l' /\ c = c'.
Proof.
  intros Hd Hin Hin' E.
  pose proof (switch_label table l c Hd Hin) as S.
  pose proof (switch_label table l' c' Hd Hin') as S'.
  rewrite E in S. split; congruence.
Qed.

End Switch.

Lemma in_write_table (c : Wr.case) (l : label) :
  In c Wr.cases -> In l (Wr.labels c) -> In (l, c) io_write32_table.
Proof.
  intros Hc Hl. unfold io_write32_table. apply in_flat_map.
  exists c. split; [exact Hc | ]. now apply (in_map (fun l => (l, c))).
Qed.

Lemma in_read_table (c : Rd.case) (l : label) :
  In c Rd.cases -> In l (Rd.labels c) -> In (l, c) io_read32_table.
Proof.
  intros Hc Hl. unfold io_read32_table. apply in_flat_map.
  exists c. split; [exact Hc | ]. now apply (in_map (fun l => (l, c))).
Qed.

(** ** Addresses *)

Lemma land_u32_r (x y : Z) : 0 <= x < 2 ^ 32 -> x .& u32 y = x .& y.
Proof.
  intros Hx. apply Z.bits_inj'. intros i Hi. rewrite !Z.land_spec, u32_testbit.
  destruct (Z.ltb_spec i 32); cbn [andb]; [reflexivity | ].
  now rewrite (testbit_high x i Hx).
Qed.

(** [x & ~3] is the word part of [x] and [x & 3] the byte part. *)
Lemma land_word (x : Z) : 0 <= x < 2 ^ 32 -> x .& u32 (~~ 3) = x / 4 * 4.
Proof.
  intros Hx. rewrite land_u32_r by exact Hx.
  rewrite <- Z.ldiff_land. change 3 with (Z.ones 2).
  rewrite Z.ldiff_ones_r, Z.shiftl_mul_pow2, Z.shiftr_div_pow2 by lia.
  reflexivity.
Qed.

Lemma land_byte (x : Z) : x .& 3 = x mod 4.
Proof. change 3 with (Z.ones 2). now rewrite Z.land_ones by lia. Qed.

Lemma window (x : Z) : 0 <= x < 2 ^ 20 -> u32 (x .& 0xfffff) = x.
Proof.
  intros Hx. change 0xfffff with (Z.ones 20). rewrite Z.land_ones by lia.
  rewrite Z.mod_small by exact Hx. apply u32_small.
  change (2 ^ 20) with 1048576 in Hx. change (2 ^ 32) with 4294967296. lia.
Qed.

Lemma word_offset_spec (z : Z) :
  word_offset z = true -> 0 <= z < 2 ^ 20 /\ z mod 4 = 0.
Proof.
  unfold word_offset. intros Hw.
  apply andb_prop in Hw. destruct Hw as [Hw Hm]. apply andb_prop in Hw. destruct Hw as [H0 H1].
  apply Z.leb_le in H0. apply Z.ltb_lt in H1. apply Z.eqb_eq in Hm. auto.
Qed.

(** The word and the byte of an address [z + k] in the word at [z]. *)
Lemma word_of_address (z k : Z) :
  word_offset z = true -> 0 <= k < 4 ->
  u32 ((z + k) .& 0xfffff) = z + k /\
  (z + k) .& u32 (~~ 3) = z /\
  (z + k) .& 3 = k.
Proof.
  intros Hw Hk. apply word_offset_spec in Hw. destruct Hw as [Hz Hm].
  change (2 ^ 20) with 1048576 in Hz.
  split; [ | split].
  - apply window. change (2 ^ 20) with 1048576. divmod.
  - rewrite land_word by (change (2 ^ 32) with 4294967296; lia). divmod.
  - rewrite land_byte. divmod.
Qed.

(** ** Properties of the model *)

Section Properties.

Context {H : pic32mz_h} {P : peripherals}.

Hypothesis ok : header_ok = true.

Lemma header_ok_inv :
  distinct io_write32_offsets = true /\
  distinct io_read32_offsets = true /\
  forallb word_offset io_write32_offsets = true /\
  forallb word_offset io_read32_offsets = true /\
  forallb group_aligned Wr.cases = true /\
  0 <= PIC32_IRQ_LAST < 192 /\
  0 <= CP0Ca_IP <= 23.
Proof.
  unfold header_ok in ok.
  do 8 (apply andb_prop in ok; destruct ok as [ok ?]).
  repeat match goal with
         | E : (_ <=? _) = true |- _ => apply Z.leb_le in E
         | E : (_ <? _) = true |- _ => apply Z.ltb_lt in E
         end.
  repeat split; assumption.
Qed.

Lemma write_labels_distinct : distinct io_write32_offsets = true.
Proof. apply header_ok_inv. Qed.

Lemma read_labels_distinct : distinct io_read32_offsets = true.
Proof. apply header_ok_inv. Qed.

Lemma write_labels_words : forallb word_offset io_write32_offsets = true.
Proof. apply header_ok_inv. Qed.

Lemma read_labels_words : forallb word_offset io_read32_offsets = true.
Proof. apply header_ok_inv. Qed.

Lemma groups_aligned : forallb group_aligned Wr.cases = true.
Proof. apply header_ok_inv. Qed.

Lemma irq_last_range : 0 <= PIC32_IRQ_LAST < 192.
Proof. apply header_ok_inv. Qed.

Lemma cause_ip_range : 0 <= CP0Ca_IP <= 23.
Proof. apply header_ok_inv. Qed.

(** A label of a case of [io_write32] selects that case. *)
Lemma switch_write (c : Wr.case) (l : label) :
  In c Wr.cases -> In l (Wr.labels c) ->
  switch (offset_of l) io_write32_table = Some (l, c).
Proof.
  intros Hc Hl. apply switch_label; [exact write_labels_distinct | now apply in_write_table].
Qed.

Lemma switch_read (c : Rd.case) (l : label) :
  In c Rd.cases -> In l (Rd.labels c) ->
  switch (offset_of l) io_read32_table = Some (l, c).
Proof.
  intros Hc Hl. apply switch_label; [exact read_labels_distinct | now apply in_read_table].
Qed.

(** Two labels of [io_write32] at one offset are one label of one case. *)
Lemma write_cells_apart (c c' : Wr.case) (l l' : label) :
  In c Wr.cases -> In l (Wr.labels c) ->
  In c' Wr.cases -> In l' (Wr.labels c') ->
  offset_of l = offset_of l' -> l = l' /\ c = c'.
Proof.
  intros Hc Hl Hc' Hl' E.
  apply (labels_apart io_write32_table l l' c c');
    [exact write_labels_distinct | now apply in_write_table | now apply in_write_table | exact E].
Qed.

Lemma write_label_word (c : Wr.case) (l : label) :
  In c Wr.cases -> In l (Wr.labels c) -> word_offset (offset_of l) = true.
Proof.
  intros Hc Hl. pose proof write_labels_words as W.
  rewrite forallb_forall in W. apply W.
  apply (in_map (fun e => offset_of (fst e)) io_write32_table (l, c)).
  now apply in_write_table.
Qed.

Lemma read_label_word (c : Rd.case) (l : label) :
  In c Rd.cases -> In l (Rd.labels c) -> word_offset (offset_of l) = true.
Proof.
  intros Hc Hl. pose proof read_labels_words as W.
  rewrite forallb_forall in W. apply W.
  apply (in_map (fun e => offset_of (fst e)) io_read32_table (l, c)).
  now apply in_read_table.
Qed.

(** The address of a word of the window is its own word offset. *)
Lemma word_address (z : Z) :
  word_offset z = true -> u32 (z .& 0xfffff) .& u32 (~~ 3) = z.
Proof.
  intros Hw. destruct (word_of_address z 0 Hw) as (E1 & E2 & _); [lia | ].
  rewrite Z.add_0_r in *. now rewrite E1, E2.
Qed.

(** ** Unmapped offsets and read-only registers *)

(** C8: an offset that is the label of no case of the switch is
    fatal for the access.  For every state and every address whose
    word offset is no label of [io_read32], [io_read32] and
    [pic32_io_read] print the diagnostic for an unsupported read of
    that offset and exit with status 1; likewise [io_write32] and
    [pic32_io_write] for an offset that is no label of [io_write32],
    with the diagnostic for an unsupported write of the data to that
    offset.  No cell of the storage has changed at the exit. *)
Theorem unmapped_access_is_fatal (s : pic32_t) (addr data bytes : Z) :
  let offset := u32 (addr .& 0xfffff) .& u32 (~~ 3) in
  (~ In offset io_read32_offsets ->
   let s' := log (Read_not_supported offset) (emit (printf (Read_not_supported offset)) s) in
   io_read32 s offset = Exit 1 s' /\
   pic32_io_read s addr bytes = Exit 1 s' /\
   iomem s' = iomem s) /\
  (~ In offset io_write32_offsets ->
   io_write32 s offset data =
     Exit 1 (log (Write_not_supported data offset)
               (emit (printf (Write_not_supported data offset)) s)) /\
   exists d,
     let s' := log (Write_not_supported d offset)
                 (emit (printf (Write_not_supported d offset)) s) in
     pic32_io_write s addr data bytes = Exit 1 s' /\
     iomem s' = iomem s).
Proof.
  intros offset. split.
  - intros Hn s'.
    assert (E : io_read32 s offset = Exit 1 s').
    { unfold io_read32. now rewrite (switch_default io_read32_table offset Hn). }
    split; [exact E | split].
    + unfold pic32_io_read. fold offset. now rewrite E.
    + unfold s'. now rewrite iomem_log.
  - intros Hn.
    assert (E : forall d, io_write32 s offset d =
                  Exit 1 (log (Write_not_supported d offset)
                            (emit (printf (Write_not_supported d offset)) s))).
    { intros d. unfold io_write32. now rewrite (switch_default io_write32_table offset Hn). }
    split; [apply E | ].
    eexists. split.
    + unfold pic32_io_write. fold offset. rewrite E. reflexivity.
    + now rewrite iomem_log.
Qed.

(** C9: a write to a read-only register is reported and discarded.
    The [READONLY] cases of [io_write32] are INTSTAT, DEVID and
    U1RXREG ... U6RXREG.  For each of them, every state and every
    data, [io_write32] at the offset of the register prints the
    diagnostic that names the register, returns (it does not exit)
    with the null name, and leaves every cell of the storage, the
    register's own included, as it was; so does a store of any
    width through [pic32_io_write] into the word of the register. *)
Theorem readonly_write_is_discarded (r : reg) (s : pic32_t) (data : Z) :
  In r readonly_registers ->
  readonly_registers =
    [INTSTAT; DEVID; U1RXREG; U2RXREG; U3RXREG; U4RXREG; U5RXREG; U6RXREG] /\
  let s' := log (Write_readonly data r) (emit (printf (Write_readonly data r)) s) in
  io_write32 s (offset_of r) data = Return None s' /\
  iomem s' = iomem s /\
  VALUE s' r = VALUE s r /\
  forall k bytes, 0 <= k < 4 ->
    exists s'', pic32_io_write s (offset_of r + k) data bytes = Return tt s'' /\
               iomem s'' = iomem s.
Proof.
  intros Hr. split; [reflexivity | ].
  assert (Hc : In (Wr.READONLY r) Wr.cases).
  { unfold readonly_registers in Hr. apply in_flat_map in Hr.
    destruct Hr as (c & Hc & Hin). destruct c; try easy.
    destruct Hin as [-> | []]. exact Hc. }
  assert (E : forall d, io_write32 s (offset_of r) d =
                Return None (log (Write_readonly d r) (emit (printf (Write_readonly d r)) s))).
  { intros d. unfold io_write32.
    rewrite (switch_write (Wr.READONLY r) r Hc) by now left. reflexivity. }
  intros s'. split; [apply E | ].
  assert (M : forall d, iomem (log (Write_readonly d r) (emit (printf (Write_readonly d r)) s))
                        = iomem s) by (intros d; now rewrite iomem_log).
  split; [apply M | split].
  - unfold VALUE, s'. now rewrite M.
  - intros k bytes Hk.
    assert (W : word_offset (offset_of r) = true)
      by (apply (write_label_word (Wr.READONLY r)); [exact Hc | now left]).
    destruct (word_of_address _ k W Hk) as (E1 & E2 & _).
    unfold pic32_io_write. rewrite E1, E2, E.
    eexists. split; [reflexivity | apply M].
Qed.

(** ** The configuration register *)

Lemma CFGCON_case : In (Wr.STORAGE CFGCON Wr.CFGCON_mask) Wr.cases.
Proof. unfold Wr.cases. in_list. Qed.

(** The bits of [(data & mask) | (old & ~mask)]. *)
Lemma masked_merge_bits (old data mask i : Z) :
  0 <= i < 32 ->
  Z.testbit (u32 ((u32 data .& mask) .| (old .& u32 (~~ mask)))) i =
  if Z.testbit mask i then Z.testbit data i else Z.testbit old i.
Proof.
  intros Hi.
  rewrite u32_testbit, Z.lor_spec, !Z.land_spec, !u32_testbit, Z.lnot_spec by lia.
  destruct (Z.ltb_spec i 32); [ | lia].
  destruct (Z.testbit mask i), (Z.testbit data i), (Z.testbit old i); reflexivity.
Qed.

(** C10: a word write to CFGCON changes writable bits only.  For
    every state and data, the store returns, and in the new value of
    CFGCON every bit (0 to 31) outside [CFGCON_writable], the mask
    the case builds from DMAPRI, CPUPRI, ICACLK, OCACLK, IOLOCK,
    PMDLOCK, PGLOCK, USBSSEN, the ECC field, JTAGEN, TROEN and TDOEN,
    is the bit of the old value, and every bit inside the mask is the
    bit of the data; no other cell changes. *)
Theorem CFGCON_write_keeps_unwritable_bits (s : pic32_t) (data : Z) :
  exists s',
    pic32_io_write s (offset_of CFGCON) data 4 = Return tt s' /\
    (forall i, 0 <= i < 32 -> Z.testbit CFGCON_writable i = false ->
       Z.testbit (VALUE s' CFGCON) i = Z.testbit (VALUE s CFGCON) i) /\
    (forall i, 0 <= i < 32 -> Z.testbit CFGCON_writable i = true ->
       Z.testbit (VALUE s' CFGCON) i = Z.testbit data i) /\
    (forall a, a <> offset_of CFGCON -> iomem s' a = iomem s a).
Proof.
  assert (W : word_offset (offset_of CFGCON) = true)
    by (apply (write_label_word _ _ CFGCON_case); now left).
  unfold pic32_io_write. rewrite (word_address _ W).
  unfold io_write32. rewrite (switch_write _ CFGCON CFGCON_case) by now left.
  cbn [write_body finish]. eexists. split; [reflexivity | ].
  unfold VALUE. split; [ | split].
  - intros i Hi E. rewrite iomem_log, iomem_store_same, masked_merge_bits by exact Hi.
    now rewrite E.
  - intros i Hi E. rewrite iomem_log, iomem_store_same, masked_merge_bits by exact Hi.
    now rewrite E.
  - intros a Ha. now rewrite iomem_log, iomem_store_other.
Qed.

(** ** The interrupt status register is the one cell the arbiter writes *)

Lemma iomem_update_irq_status (s : pic32_t) (a : Z) :
  a <> offset_of INTSTAT -> iomem (update_irq_status s) a = iomem s a.
Proof.
  intros Ha. unfold update_irq_status. cbv zeta.
  destruct (any_pending _); destruct (_ =? _);
    cbn [iomem emit set_CP0_Cause]; rewrite ?iomem_log; unfold assign;
    now rewrite ?iomem_store_other by exact Ha.
Qed.

Lemma syskey_unlock_update_irq_status (s : pic32_t) :
  syskey_unlock (update_irq_status s) = syskey_unlock s.
Proof.
  unfold update_irq_status. cbv zeta.
  destruct (any_pending _); destruct (_ =? _);
    cbn [syskey_unlock emit set_CP0_Cause]; now rewrite ?syskey_unlock_log.
Qed.

Lemma INTSTAT_case : In (Wr.READONLY INTSTAT) Wr.cases.
Proof. unfold Wr.cases. in_list. Qed.

(** ** The unlock sequence *)

Lemma SYSKEY_case : In (Wr.STORAGE SYSKEY Wr.SYSKEY_unlock) Wr.cases.
Proof. unfold Wr.cases. in_list. Qed.

Lemma RSWRST_case : In (Wr.WRITEOP RSWRST Wr.RSWRST_reset) Wr.cases.
Proof. unfold Wr.cases. in_list. Qed.

Lemma trace_log (m : message) (s : pic32_t) (e : event) :
  In e (trace (log m s)) -> e = fprintf_logfile m \/ In e (trace s).
Proof.
  unfold log. destruct (log_instr s); cbn [trace emit]; [ | now right].
  intros [<- | Hin]; [now left | now right].
Qed.

(** What a store to SYSKEY does: the state machine tests the value
    the register held before the store, and ends unlocked only when
    it was entered in state 1 with the second key already stored. *)
Lemma SYSKEY_write (s : pic32_t) (data : Z) :
  exists s',
    io_write32 s (offset_of SYSKEY) data = Return (Some (canonical SYSKEY)) s' /\
    syskey_unlock s' =
      (if (syskey_unlock s =? 1) && (VALUE s SYSKEY =? 0x556699aa) then 2 else 0) /\
    iomem s' = iomem (store (offset_of SYSKEY) data s) /\
    trace s' = trace s.
Proof.
  unfold io_write32. rewrite (switch_write _ SYSKEY SYSKEY_case) by now left.
  cbn [write_body finish]. eexists. split; [reflexivity | ].
  assert (K : 0xaa996655 <> 0x556699aa) by discriminate.
  destruct (Z.eqb_spec (syskey_unlock s) 0) as [E0 | N0].
  - rewrite E0. cbn [andb Z.eqb].
    destruct (Z.eqb_spec (VALUE s SYSKEY) 0xaa996655) as [EA | NA].
    + assert (EB : (VALUE (set_syskey_unlock 1 s) SYSKEY =? 0x556699aa) = false).
      { apply Z.eqb_neq. unfold VALUE in *. cbn [iomem set_syskey_unlock]. congruence. }
      cbn [syskey_unlock set_syskey_unlock Z.eqb Pos.eqb andb]. rewrite EB.
      repeat split.
    + rewrite E0. cbn [Z.eqb andb]. repeat split.
  - cbn [andb].
    destruct (Z.eqb_spec (syskey_unlock s) 1) as [E1 | N1]; cbn [andb].
    + destruct (VALUE s SYSKEY =? 0x556699aa); repeat split.
    + repeat split.
Qed.

(** From the locked state no sequence of stores to SYSKEY leaves it. *)
Lemma SYSKEY_writes_stay_locked (l : list Z) (s : pic32_t) (n : option label) :
  syskey_unlock s = 0 ->
  exists n' s',
    fold_left (fun o data => match o with
                             | Return _ s => io_write32 s (offset_of SYSKEY) data
                             | Exit status s => Exit status s
                             end) l (Return n s) = Return n' s' /\
    syskey_unlock s' = 0.
Proof.
  revert s n. induction l as [ | data l IH]; intros s n U.
  - exists n, s. now split.
  - cbn [fold_left]. destruct (SYSKEY_write s data) as (s1 & E & U1 & _).
    rewrite E. apply IH. rewrite U1, U. reflexivity.
Qed.

(** What a store to RSWRST does when the state machine is not in
    state 2: it stores, and nothing else. *)
Lemma RSWRST_write_locked (s : pic32_t) (data : Z) :
  syskey_unlock s <> 2 ->
  exists s',
    io_write32 s (offset_of RSWRST) data = Return (Some (canonical RSWRST)) s' /\
    syskey_unlock s' = syskey_unlock s /\
    (forall a, iomem s' a = iomem (store (offset_of RSWRST) data s) a) /\
    trace s' = trace s.
Proof.
  intros U. unfold io_write32. rewrite (switch_write _ RSWRST RSWRST_case) by now left.
  cbn [write_body finish].
  replace (syskey_unlock (op RSWRST s (offset_of RSWRST) data) =? 2) with false
    by (symmetry; now apply Z.eqb_neq).
  cbn [andb]. eexists. split; [reflexivity | ].
  split; [reflexivity | split; [ | reflexivity]].
  intros a. unfold op, assign. rewrite !iomem_store.
  now destruct (a =? offset_of RSWRST).
Qed.

(** C1, as the code behaves: the unlock sequence leaves the state
    machine locked.  From a state with [syskey_unlock = 0], as
    [io_reset] leaves it, the word writes of 0xaa996655 and then of
    0x556699aa to SYSKEY both return and end with
    [syskey_unlock = 0], not 2; the following word write of any data
    to RSWRST (bit 0 set or not) returns, stores the data in RSWRST
    and does nothing else: no cell but SYSKEY and RSWRST has changed
    since the start, so [io_reset] has not run, and no reset of the
    CPU has been requested. *)
Theorem unlock_sequence_stays_locked (s : pic32_t) (data : Z) :
  syskey_unlock s = 0 ->
  exists s1 s2 s3,
    pic32_io_write s (offset_of SYSKEY) 0xaa996655 4 = Return tt s1 /\
    pic32_io_write s1 (offset_of SYSKEY) 0x556699aa 4 = Return tt s2 /\
    syskey_unlock s1 = 0 /\
    syskey_unlock s2 = 0 /\
    pic32_io_write s2 (offset_of RSWRST) data 4 = Return tt s3 /\
    syskey_unlock s3 = 0 /\
    VALUE s3 RSWRST = u32 data /\
    (forall a, a <> offset_of SYSKEY -> a <> offset_of RSWRST -> iomem s3 a = iomem s a) /\
    (In qemu_system_reset_request (trace s3) -> In qemu_system_reset_request (trace s)).
Proof.
  intros U0.
  assert (WS : word_offset (offset_of SYSKEY) = true)
    by (apply (write_label_word _ _ SYSKEY_case); now left).
  assert (WR : word_offset (offset_of RSWRST) = true)
    by (apply (write_label_word _ _ RSWRST_case); now left).
  destruct (SYSKEY_write s (u32 0xaa996655)) as (s1 & E1 & U1 & M1 & T1).
  rewrite U0 in U1. cbn [Z.eqb andb] in U1.
  set (s1' := log (IO_write (u32 0xaa996655) SYSKEY) s1).
  destruct (SYSKEY_write s1' (u32 0x556699aa)) as (s2 & E2 & U2 & M2 & T2).
  assert (U1' : syskey_unlock s1' = 0) by (unfold s1'; now rewrite syskey_unlock_log).
  rewrite U1' in U2. cbn [Z.eqb andb] in U2.
  set (s2' := log (IO_write (u32 0x556699aa) SYSKEY) s2).
  assert (U2' : syskey_unlock s2' = 0) by (unfold s2'; now rewrite syskey_unlock_log).
  destruct (RSWRST_write_locked s2' (u32 data)) as (s3 & E3 & U3 & M3 & T3);
    [rewrite U2'; discriminate | ].
  exists s1', s2', (log (IO_write (u32 data) RSWRST) s3).
  split; [unfold pic32_io_write; now rewrite (word_address _ WS), E1 | ].
  split; [unfold pic32_io_write; now rewrite (word_address _ WS), E2 | ].
  split; [exact U1' | split; [exact U2' | ]].
  split; [unfold pic32_io_write; now rewrite (word_address _ WR), E3 | ].
  split; [now rewrite syskey_unlock_log, U3 | ].
  split; [unfold VALUE; now rewrite iomem_log, M3, iomem_store_same, u32_idem | ].
  split.
  - intros a HS HR.
    rewrite iomem_log, M3, iomem_store_other by exact HR.
    unfold s2'. rewrite iomem_log, M2, iomem_store_other by exact HS.
    unfold s1'. rewrite iomem_log, M1. now apply iomem_store_other.
  - intros Hin. apply trace_log in Hin. destruct Hin as [Hin | Hin]; [discriminate | ].
    rewrite T3 in Hin. unfold s2' in Hin.
    apply trace_log in Hin. destruct Hin as [Hin | Hin]; [discriminate | ].
    rewrite T2 in Hin. unfold s1' in Hin.
    apply trace_log in Hin. destruct Hin as [Hin | Hin]; [discriminate | ].
    now rewrite T1 in Hin.
Qed.

(** ** The alias write rule *)

(** Bits 2 and 3 of an offset in an aligned group are the displacement. *)
Lemma group_displacement (z : Z) (a : alias) :
  z mod 16 = 0 -> (z + disp a) .& 0xc = disp a.
Proof.
  intros Hz.
  assert (E : (z + disp a) .& 0xc = ((z + disp a) mod 16) .& 0xc).
  { change 16 with (2 ^ 4). rewrite <- Z.land_ones by lia.
    rewrite <- Z.land_assoc. reflexivity. }
  rewrite E. replace ((z + disp a) mod 16) with (disp a) by (destruct a; cbn [disp]; divmod).
  now destruct a.
Qed.

(** On words, [write_op] is the rule of the spec. *)
Lemma write_op_rule (old data op : Z) (a : alias) :
  0 <= old < 2 ^ 32 -> 0 <= data < 2 ^ 32 -> op .& 0xc = disp a ->
  write_op (s32 old) (s32 data) op = alias_rule a old data.
Proof.
  intros Ho Hd Hop. unfold write_op. rewrite Hop.
  destruct a; cbn [disp alias_rule].
  - rewrite u32_s32. now apply u32_small.
  - apply Z.bits_inj'. intros i Hi.
    rewrite u32_testbit, !Z.land_spec, !Z.lnot_spec by lia.
    destruct (Z.ltb_spec i 32); cbn [andb].
    + now rewrite !s32_testbit by lia.
    + now rewrite (testbit_high old i Ho).
  - apply Z.bits_inj'. intros i Hi.
    rewrite u32_testbit, !Z.lor_spec.
    destruct (Z.ltb_spec i 32); cbn [andb].
    + now rewrite !s32_testbit by lia.
    + now rewrite (testbit_high old i Ho), (testbit_high data i Hd).
  - apply Z.bits_inj'. intros i Hi.
    rewrite u32_testbit, !Z.lxor_spec.
    destruct (Z.ltb_spec i 32); cbn [andb].
    + now rewrite !s32_testbit by lia.
    + now rewrite (testbit_high old i Ho), (testbit_high data i Hd).
Qed.

Lemma alias_rule_range (a : alias) (old data : Z) :
  0 <= old < 2 ^ 32 -> 0 <= data < 2 ^ 32 -> 0 <= alias_rule a old data < 2 ^ 32.
Proof.
  intros Ho Hd. rewrite <- (write_op_rule old data (disp a) a Ho Hd) by now destruct a.
  apply u32_range.
Qed.

Lemma group_case_aligned (c : Wr.case) (r : reg) (b : Wr.body) :
  In c Wr.cases -> c = Wr.WRITEOP r b -> addr r mod 16 = 0.
Proof.
  intros Hc ->. pose proof groups_aligned as G. rewrite forallb_forall in G.
  apply G in Hc. now apply Z.eqb_eq in Hc.
Qed.

(** Every alias group applies the rule before its body runs. *)
Lemma alias_write_applies_rule (r : reg) (k : Wr.body) (v : alias) (s : pic32_t) (b : Z) :
  In (Wr.WRITEOP r k) Wr.cases ->
  0 <= VALUE s r < 2 ^ 32 ->
  0 <= b < 2 ^ 32 ->
  let s1 := assign r (alias_rule v (VALUE s r) b) s in
  VALUE s1 r = alias_rule v (VALUE s r) b /\
  io_write32 s (offset_of (Name r v)) b =
    finish (Name r v) (offset_of (Name r v)) (write_body k s1 (offset_of (Name r v)) b).
Proof.
  intros Hc Ha Hb s1.
  assert (Hl : In (Name r v) (Wr.labels (Wr.WRITEOP r k)))
    by (cbn [Wr.labels Wr.group]; destruct v; in_list).
  assert (W : word_offset (offset_of (Name r v)) = true)
    by now apply (write_label_word (Wr.WRITEOP r k)).
  assert (Hop : s32 (offset_of (Name r v)) .& 0xc = disp v).
  { apply word_offset_spec in W. destruct W as [W _].
    rewrite s32_small by (change (2 ^ 20) with 1048576 in W; change (2 ^ 31) with 2147483648; lia).
    apply group_displacement. exact (group_case_aligned _ r k Hc eq_refl). }
  split.
  - unfold s1, VALUE, assign. rewrite iomem_store_same. apply u32_small.
    now apply alias_rule_range.
  - unfold io_write32. rewrite (switch_write _ _ Hc Hl).
    unfold op. now rewrite (write_op_rule _ _ _ v Ha Hb Hop).
Qed.

(** C2: the write rule of the alias groups.  For every case
    [WRITEOP(r)] of [io_write32] whose body is [return] or
    [goto irq] (the groups that call no peripheral: the interrupt
    controller INTCON, IPTMR, IFS0-5, IEC0-5, IPC0-47 and the plain
    groups), every state in which [r] holds a word [a] and every
    word [b]: the word write of [b] to the canonical offset leaves
    [b] in [r], to the offset + 4 leaves [a & ~b], to the offset + 8
    leaves [a | b], to the offset + 12 leaves [a ^ b]. *)
Theorem alias_write_rule (r : reg) (k : Wr.body) (v : alias) (s : pic32_t) (b : Z) :
  In (Wr.WRITEOP r k) Wr.cases ->
  k = Wr.return_ \/ k = Wr.goto_irq ->
  0 <= VALUE s r < 2 ^ 32 ->
  0 <= b < 2 ^ 32 ->
  exists s',
    pic32_io_write s (offset_of (Name r v)) b 4 = Return tt s' /\
    VALUE s' r =
      match v with
      | PLAIN => b
      | CLR => VALUE s r .& ~~ b
      | SET => VALUE s r .| b
      | INV => VALUE s r .^ b
      end.
Proof.
  intros Hc Hk Ha Hb.
  destruct (alias_write_applies_rule r k v s b Hc Ha Hb) as [V E].
  assert (W : word_offset (offset_of (Name r v)) = true)
    by (apply (write_label_word (Wr.WRITEOP r k)); [exact Hc | ];
        cbn [Wr.labels Wr.group]; destruct v; in_list).
  unfold pic32_io_write. rewrite (word_address _ W), (u32_small b Hb), E.
  change (match v with
          | PLAIN => b
          | CLR => VALUE s r .& ~~ b
          | SET => VALUE s r .| b
          | INV => VALUE s r .^ b
          end) with (alias_rule v (VALUE s r) b).
  destruct Hk as [-> | ->]; cbn [write_body finish]; eexists; (split; [reflexivity | ]).
  - unfold VALUE at 1. rewrite iomem_log. exact V.
  - unfold VALUE at 1. rewrite iomem_log, iomem_update_irq_status; [exact V | ].
    intros E'.
    destruct (write_cells_apart (Wr.WRITEOP r Wr.goto_irq) (Wr.READONLY INTSTAT) r INTSTAT)
      as [_ D]; [exact Hc | now left | exact INTSTAT_case | now left | exact E' | discriminate].
Qed.

(** ** Narrow accesses *)

Lemma land_halfword (z k : Z) :
  z mod 4 = 0 -> 0 <= k < 4 -> (z + k) .& 2 = 2 * (k / 2).
Proof.
  intros Hz Hk.
  assert (E : (z + k) .& 2 = ((z + k) .& 3) .& 2) by now rewrite <- Z.land_assoc.
  rewrite E, land_byte. replace ((z + k) mod 4) with k by divmod.
  assert (C : k = 0 \/ k = 1 \/ k = 2 \/ k = 3) by lia.
  destruct C as [-> | [-> | [-> | ->]]]; reflexivity.
Qed.

(** A byte or half-word in position is a word. *)
Lemma positioned_range (v k bytes : Z) :
  0 <= k < 4 ->
  0 <= match bytes with
       | 1 => u8 v << (k * 8)
       | 2 => u16 v << (2 * (k / 2) * 8)
       | _ => u32 v
       end < 2 ^ 32.
Proof.
  intros Hk.
  assert (H8 : 0 <= u8 v < 2 ^ 8) by (apply Z.mod_pos_bound; lia).
  assert (H16 : 0 <= u16 v < 2 ^ 16) by (apply Z.mod_pos_bound; lia).
  pose proof (u32_range v) as H32.
  assert (C : k = 0 \/ k = 1 \/ k = 2 \/ k = 3) by lia.
  change (2 ^ 8) with 256 in H8. change (2 ^ 16) with 65536 in H16.
  change (2 ^ 32) with 4294967296 in *.
  destruct bytes as [ | [ [ | | ] | [ | | ] | ] | ]; try exact H32;
    destruct C as [-> | [-> | [-> | ->]]]; rewrite Z.shiftl_mul_pow2 by (cbn; lia);
    cbn; lia.
Qed.

(** C6, as the code behaves: a narrow write replaces the word.  For
    every register that is plain storage in both switches (a case
    [STORAGE(r)] that only stores in [io_write32] and a case
    [STORAGE(r); break;] in [io_read32]), every state, every byte
    [k] of its word and every width in 1, 2, 4: the write of [v] at
    offset + [k] returns, and the word read at the offset then
    returns [v] truncated to the width and shifted left by [8 * k]
    bits for a byte, by 16 bits for a half-word when bit 1 of the
    address is set, and not shifted otherwise.  The word read is
    exactly that value: its other bytes are zero whatever the
    register held before the write. *)
Theorem narrow_write_replaces_word (r : reg) (b : Wr.body) (s : pic32_t) (k v bytes : Z) :
  In (Wr.STORAGE r b) Wr.cases ->
  Wr.stores_only b = true ->
  In (Rd.STORAGE r Rd.break_) Rd.cases ->
  0 <= k < 4 ->
  bytes = 1 \/ bytes = 2 \/ bytes = 4 ->
  exists s' s'' w,
    pic32_io_write s (offset_of r + k) v bytes = Return tt s' /\
    pic32_io_read s' (offset_of r) 4 = Return w s'' /\
    w = match bytes with
        | 1 => u8 v << (8 * k)
        | 2 => u16 v << (if Z.testbit k 1 then 16 else 0)
        | _ => u32 v
        end.
Proof.
  intros Hw Hs Hr Hk Hb.
  assert (W : word_offset (offset_of r) = true)
    by (apply (write_label_word _ _ Hw); now left).
  destruct (word_of_address _ k W Hk) as (E1 & E2 & E3).
  pose proof (word_offset_spec _ W) as [_ Hm].
  pose proof (land_halfword _ k Hm Hk) as E4.
  unfold pic32_io_write. rewrite E1, E2, E3, E4.
  set (d := match bytes with
            | 1 => u8 v << (k * 8)
            | 2 => u16 v << (2 * (k / 2) * 8)
            | _ => v
            end).
  assert (D : u32 d = match bytes with
                      | 1 => u8 v << (k * 8)
                      | 2 => u16 v << (2 * (k / 2) * 8)
                      | _ => u32 v
                      end).
  { pose proof (positioned_range v k bytes Hk) as R. unfold d.
    destruct Hb as [-> | [-> | ->]]; [now apply u32_small | now apply u32_small | reflexivity]. }
  unfold io_write32. rewrite (switch_write _ r Hw) by now left.
  assert (B : write_body b s (offset_of r) (u32 d) = Break (u32 d) s)
    by (destruct b; try discriminate Hs; reflexivity).
  rewrite B. cbn [finish].
  unfold pic32_io_read. rewrite (word_address _ W).
  unfold io_read32. rewrite (switch_read _ r Hr) by now left.
  cbn [read_body]. do 3 eexists. split; [reflexivity | split; [reflexivity | ]].
  rewrite iomem_log, iomem_store_same, u32_idem, D.
  destruct Hb as [-> | [-> | ->]]; [f_equal; lia | | reflexivity].
  f_equal. assert (C : k = 0 \/ k = 1 \/ k = 2 \/ k = 3) by lia.
  destruct C as [-> | [-> | [-> | ->]]]; reflexivity.
Qed.

(** ** Reads through alias offsets *)

(** Every alias label of [io_read32] has the body [*bufp = 0; break;]. *)
Lemma alias_read_body (r : reg) (v : alias) (b : Rd.body) :
  In (Rd.STORAGE (Name r v) b) Rd.cases -> v <> PLAIN -> b = Rd.zero.
Proof.
  intros Hc Hv.
  assert (A : forallb (fun c => match c with
                                | Rd.STORAGE (Name _ PLAIN) _ => true
                                | Rd.STORAGE _ Rd.zero => true
                                | _ => false
                                end) Rd.cases = true) by (vm_compute; reflexivity).
  rewrite forallb_forall in A. apply A in Hc.
  destruct v; [congruence | | | ]; now destruct b.
Qed.

(** C7, as the code behaves: a read through an alias offset returns
    zero.  For every clear, set or invert label of [io_read32] (the
    aliases of REFOxCON, PBxDIV, UxMODE, UxSTA, UxBRG, SPIxCON,
    SPIxSTAT, SPIxBRG, SPIxCON2 and the others the switch lists),
    every state and every width: the read returns 0, whatever the
    canonical register holds, and leaves the canonical register as
    it was.  No read through an alias shows storage of its own. *)
Theorem alias_read_is_zero (r : reg) (v : alias) (b : Rd.body) (s : pic32_t) (bytes : Z) :
  In (Rd.STORAGE (Name r v) b) Rd.cases ->
  v <> PLAIN ->
  exists s' s'',
    io_read32 s (offset_of (Name r v)) = Return (0, Name r v) s' /\
    pic32_io_read s (offset_of (Name r v)) bytes = Return 0 s'' /\
    VALUE s' r = VALUE s r /\
    VALUE s'' r = VALUE s r.
Proof.
  intros Hc Hv. pose proof (alias_read_body r v b Hc Hv) as ->.
  assert (W : word_offset (offset_of (Name r v)) = true)
    by (apply (read_label_word _ _ Hc); now left).
  assert (E : io_read32 s (offset_of (Name r v)) =
              Return (0, Name r v) (store (offset_of (Name r v)) 0 s)).
  { unfold io_read32. rewrite (switch_read _ _ Hc) by now left.
    cbn [read_body]. now rewrite iomem_store_same. }
  assert (V : VALUE (store (offset_of (Name r v)) 0 s) r = VALUE s r).
  { unfold VALUE. apply iomem_store_other. unfold offset_of. cbn [base view canonical disp].
    destruct v; cbn [disp]; [congruence | lia | lia | lia]. }
  unfold pic32_io_read. rewrite (word_address _ W), E.
  assert (O : u32 (offset_of (Name r v) .& 0xfffff) .& 3 = 0).
  { destruct (word_of_address _ 0 W) as (E1 & _ & E3); [lia | ].
    rewrite Z.add_0_r in *. now rewrite E1. }
  assert (O2 : u32 (offset_of (Name r v) .& 0xfffff) .& 2 = 0).
  { destruct (word_of_address _ 0 W) as (E1 & _ & _); [lia | ].
    rewrite Z.add_0_r in *. rewrite E1.
    pose proof (word_offset_spec _ W) as [_ Hm].
    pose proof (land_halfword _ 0 Hm) as L. rewrite Z.add_0_r in L. now apply L. }
  rewrite O, O2. cbn [truth Z.eqb negb].
  destruct bytes as [ | [ [ | | ] | [ | | ] | ] | ]; do 2 eexists;
    (split; [reflexivity | split; [reflexivity | split; [exact V | ]]]);
    unfold VALUE; rewrite iomem_log; exact V.
Qed.

(** ** The interrupt banks *)

Lemma below_cases (k : nat) (n : Z) :
  0 <= n < Z.of_nat k -> In n (map Z.of_nat (seq 0 k)).
Proof.
  intros Hn. rewrite <- (Z2Nat.id n) by lia.
  apply in_map, in_seq. lia.
Qed.

Lemma IFS_case (n : Z) : 0 <= n < 6 -> In (Wr.WRITEOP (IFS n) Wr.goto_irq) Wr.cases.
Proof.
  intros Hn. apply (below_cases 6) in Hn. cbn in Hn.
  repeat (destruct Hn as [<- | Hn]; [unfold Wr.cases; in_list | ]). destruct Hn.
Qed.

Lemma IEC_case (n : Z) : 0 <= n < 6 -> In (Wr.WRITEOP (IEC n) Wr.goto_irq) Wr.cases.
Proof.
  intros Hn. apply (below_cases 6) in Hn. cbn in Hn.
  repeat (destruct Hn as [<- | Hn]; [unfold Wr.cases; in_list | ]). destruct Hn.
Qed.

Lemma IPC_case (n : Z) : 0 <= n < 48 -> In (Wr.WRITEOP (IPC n) Wr.goto_irq) Wr.cases.
Proof.
  intros Hn. apply (below_cases 48) in Hn. cbn in Hn.
  repeat (destruct Hn as [<- | Hn]; [unfold Wr.cases; in_list | ]). destruct Hn.
Qed.

(** The cells of the banks are not the cell of INTSTAT. *)
Lemma bank_not_INTSTAT (r : reg) :
  In (Wr.WRITEOP r Wr.goto_irq) Wr.cases -> offset_of r <> offset_of INTSTAT.
Proof.
  intros Hc E.
  destruct (write_cells_apart (Wr.WRITEOP r Wr.goto_irq) (Wr.READONLY INTSTAT) r INTSTAT)
    as [_ D]; [exact Hc | now left | exact INTSTAT_case | now left | exact E | discriminate].
Qed.

(** Two banks are two cells. *)
Lemma banks_apart (r r' : reg) :
  In (Wr.WRITEOP r Wr.goto_irq) Wr.cases -> In (Wr.WRITEOP r' Wr.goto_irq) Wr.cases ->
  offset_of r = offset_of r' -> r = r'.
Proof.
  intros Hc Hc' E.
  destruct (write_cells_apart (Wr.WRITEOP r Wr.goto_irq) (Wr.WRITEOP r' Wr.goto_irq) r r')
    as [D _]; [exact Hc | now left | exact Hc' | now left | exact E | ].
  now injection D.
Qed.

(** A state that differs in INTSTAT and outside the storage has the same banks. *)
Lemma same_banks_frame (s t : pic32_t) :
  (forall a, a <> offset_of INTSTAT -> iomem t a = iomem s a) -> same_banks s t.
Proof.
  intros F. unfold same_banks, VALUE. split.
  - intros n Hn. split; symmetry; apply F.
    + apply bank_not_INTSTAT. now apply IFS_case.
    + apply bank_not_INTSTAT. now apply IEC_case.
  - intros n Hn. symmetry. apply F. apply bank_not_INTSTAT. now apply IPC_case.
Qed.

Lemma same_banks_refl (s : pic32_t) : same_banks s s.
Proof. split; intros; auto. Qed.

Lemma same_banks_sym (s t : pic32_t) : same_banks s t -> same_banks t s.
Proof.
  intros [A B]. split.
  - intros n Hn. destruct (A n Hn). split; congruence.
  - intros n Hn. symmetry. now apply B.
Qed.

Lemma same_banks_trans (s t u : pic32_t) : same_banks s t -> same_banks t u -> same_banks s u.
Proof.
  intros [A B] [A' B']. split.
  - intros n Hn. destruct (A n Hn), (A' n Hn). split; congruence.
  - intros n Hn. rewrite B by exact Hn. now apply B'.
Qed.

Lemma same_banks_update (s : pic32_t) : same_banks s (update_irq_status s).
Proof. apply same_banks_frame. intros a Ha. now apply iomem_update_irq_status. Qed.

(** *** Sources, banks and bits *)

Lemma source_bank (irq : Z) :
  source irq -> irq >> 5 = irq / 32 /\ irq .& 31 = irq mod 32 /\
                0 <= irq / 32 < 6 /\ 0 <= irq mod 32 < 32.
Proof.
  unfold source. intros Hi. pose proof irq_last_range as L.
  rewrite Z.shiftr_div_pow2 by lia. change (2 ^ 5) with 32.
  change 31 with (Z.ones 5). rewrite Z.land_ones by lia. change (2 ^ 5) with 32.
  repeat split; try reflexivity; divmod.
Qed.

Lemma source_word (irq : Z) :
  source irq -> 0 <= irq >> 2 < 48.
Proof.
  unfold source. intros Hi. pose proof irq_last_range as L.
  rewrite Z.shiftr_div_pow2 by lia. change (2 ^ 2) with 4. split; divmod.
Qed.

Lemma is_pending_spec (s : pic32_t) (irq : Z) :
  source irq -> is_pending s irq = flag s irq && enable s irq.
Proof.
  intros Hi. destruct (source_bank irq Hi) as (E5 & E31 & _ & Hb).
  unfold is_pending, flag, enable. cbv zeta. rewrite E5, E31.
  rewrite truth_shiftr_bit by lia. apply Z.land_spec.
Qed.

Lemma raise_test (s : pic32_t) (irq : Z) :
  source irq ->
  truth (VALUE s (IFS (irq >> 5)) .& u32 (1 << (irq .& 31))) = flag s irq.
Proof.
  intros Hi. destruct (source_bank irq Hi) as (E5 & E31 & _ & Hb).
  unfold flag. rewrite E5, E31. now apply truth_land_bit.
Qed.

Lemma land_level (x : Z) : x .& 7 = x mod 8.
Proof. change 7 with (Z.ones 3). now rewrite Z.land_ones by lia. Qed.

Lemma priority_range (s : pic32_t) (irq : Z) : 0 <= priority s irq <= 7.
Proof. unfold priority. cbv zeta. rewrite land_level. divmod. Qed.

(** *** Arbitration depends on the banks only *)

Lemma any_pending_banks (s t : pic32_t) : same_banks s t -> any_pending s = any_pending t.
Proof.
  intros [A _]. unfold any_pending.
  destruct (A 0) as [-> ->]; [lia | ]. destruct (A 1) as [-> ->]; [lia | ].
  destruct (A 2) as [-> ->]; [lia | ]. destruct (A 3) as [-> ->]; [lia | ].
  destruct (A 4) as [-> ->]; [lia | ]. destruct (A 5) as [-> ->]; [lia | ].
  reflexivity.
Qed.

Lemma is_pending_banks (s t : pic32_t) (irq : Z) :
  same_banks s t -> source irq -> is_pending s irq = is_pending t irq.
Proof.
  intros [A _] Hi. destruct (source_bank irq Hi) as (E5 & _ & Hn & _).
  unfold is_pending. cbv zeta. rewrite E5. now destruct (A _ Hn) as [-> ->].
Qed.

Lemma priority_banks (s t : pic32_t) (irq : Z) :
  same_banks s t -> source irq -> priority s irq = priority t irq.
Proof.
  intros [_ B] Hi. unfold priority. cbv zeta. now rewrite (B _ (source_word irq Hi)).
Qed.

Lemma in_irqs (irq : Z) : In irq irqs <-> source irq.
Proof.
  unfold irqs, source. pose proof irq_last_range as L. split.
  - intros Hin. apply in_map_iff in Hin. destruct Hin as (n & <- & Hn).
    apply in_seq in Hn. lia.
  - intros Hi. apply below_cases. lia.
Qed.

Lemma scan_banks (s t : pic32_t) (l : list Z) (acc : Z * Z) :
  same_banks s t -> (forall irq, In irq l -> source irq) ->
  fold_left (scan s) l acc = fold_left (scan t) l acc.
Proof.
  intros Hb. revert acc. induction l as [ | irq l IH]; intros acc Hl; [reflexivity | ].
  cbn [fold_left]. rewrite IH by (intros; apply Hl; now right).
  f_equal. unfold scan.
  rewrite (is_pending_banks s t irq Hb), (priority_banks s t irq Hb) by (apply Hl; now left).
  reflexivity.
Qed.

Lemma arbitrate_banks (s t : pic32_t) : same_banks s t -> arbitrate s = arbitrate t.
Proof.
  intros Hb. unfold arbitrate. rewrite (any_pending_banks s t Hb).
  destruct (any_pending t); [ | reflexivity].
  apply scan_banks; [exact Hb | ]. intros irq. apply in_irqs.
Qed.

(** *** The scan *)

Lemma scan_choice (s : pic32_t) (n : nat) :
  choice s (Z.of_nat n) (fold_left (scan s) (map Z.of_nat (seq 0 n)) (0, 0)).
Proof.
  induction n as [ | n IH].
  - cbn. repeat split; intros; lia.
  - rewrite seq_S, map_app, fold_left_app. cbn [map fold_left Nat.add].
    destruct (fold_left (scan s) (map Z.of_nat (seq 0 n)) (0, 0)) as [v p].
    destruct IH as (P0 & PZ & PV & PM & PT).
    pose proof (priority_range s (Z.of_nat n)) as R.
    unfold scan. cbn [snd].
    destruct (is_pending s (Z.of_nat n)) eqn:Pn.
    + destruct (Z.gtb_spec (priority s (Z.of_nat n)) p) as [G | G].
      * cbn [choice]. split; [lia | ]. split; [lia | ]. split; [intros _; repeat split; lia || assumption | ].
        split.
        -- intros i Hi Pi. destruct (Z.eq_dec i (Z.of_nat n)) as [-> | Ne]; [lia | ].
           assert (priority s i <= p) by (apply PM; [lia | exact Pi]). lia.
        -- intros i Hi Pi Ei _. destruct (Z.eq_dec i (Z.of_nat n)) as [-> | Ne]; [lia | ].
           assert (priority s i <= p) by (apply PM; [lia | exact Pi]). lia.
      * cbn [choice]. split; [exact P0 | ]. split; [exact PZ | ].
        split; [intros Hp; destruct (PV Hp) as (? & ? & ?); repeat split; lia || assumption | ].
        split.
        -- intros i Hi Pi. destruct (Z.eq_dec i (Z.of_nat n)) as [-> | Ne]; [lia | ].
           apply PM; [lia | exact Pi].
        -- intros i Hi Pi Ei Hp. destruct (Z.eq_dec i (Z.of_nat n)) as [-> | Ne].
           ++ destruct (PV Hp) as (? & _). lia.
           ++ apply PT; [lia | assumption ..].
    + cbn [choice]. split; [exact P0 | ]. split; [exact PZ | ].
      split; [intros Hp; destruct (PV Hp) as (? & ? & ?); repeat split; lia || assumption | ].
      split.
      * intros i Hi Pi. destruct (Z.eq_dec i (Z.of_nat n)) as [-> | Ne]; [congruence | ].
        apply PM; [lia | exact Pi].
      * intros i Hi Pi Ei Hp. destruct (Z.eq_dec i (Z.of_nat n)) as [-> | Ne]; [congruence | ].
        apply PT; [lia | assumption ..].
Qed.

(** When the guard of the scan fails no source is pending. *)
Lemma not_any_pending (s : pic32_t) (irq : Z) :
  any_pending s = false -> source irq -> is_pending s irq = false.
Proof.
  intros A Hi. destruct (source_bank irq Hi) as (E5 & _ & Hn & _).
  unfold any_pending in A.
  apply orb_false_iff in A. destruct A as [A A5].
  apply orb_false_iff in A. destruct A as [A A4].
  apply orb_false_iff in A. destruct A as [A A3].
  apply orb_false_iff in A. destruct A as [A A2].
  apply orb_false_iff in A. destruct A as [A0 A1].
  unfold is_pending. cbv zeta. rewrite E5.
  apply (below_cases 6) in Hn. cbn in Hn.
  destruct Hn as [<- | [<- | [<- | [<- | [<- | [<- | []]]]]]];
    [rewrite (truth_false _ A0) | rewrite (truth_false _ A1) | rewrite (truth_false _ A2)
    | rewrite (truth_false _ A3) | rewrite (truth_false _ A4) | rewrite (truth_false _ A5)];
    now rewrite Z.shiftr_0_l.
Qed.

Lemma arbitrate_choice (s : pic32_t) : choice s (PIC32_IRQ_LAST + 1) (arbitrate s).
Proof.
  pose proof irq_last_range as L. unfold arbitrate.
  destruct (any_pending s) eqn:A.
  - unfold irqs. pose proof (scan_choice s (Z.to_nat (PIC32_IRQ_LAST + 1))) as C.
    now rewrite Z2Nat.id in C by lia.
  - cbn [choice]. repeat split; try lia.
    + intros i Hi Pi. rewrite not_any_pending in Pi; [discriminate | exact A | unfold source; lia].
Qed.

Lemma arbitrate_range (s : pic32_t) :
  0 <= fst (arbitrate s) <= PIC32_IRQ_LAST /\ 0 <= snd (arbitrate s) <= 7.
Proof.
  pose proof irq_last_range as L. pose proof (arbitrate_choice s) as C.
  destruct (arbitrate s) as [v p]. cbn [choice fst snd] in *.
  destruct C as (P0 & PZ & PV & _).
  destruct (Z.eq_dec p 0) as [-> | Np].
  - rewrite PZ by reflexivity. lia.
  - destruct PV as (Hv & _ & Hp); [lia | ].
    pose proof (priority_range s v). lia.
Qed.

(** *** What [update_irq_status] leaves in INTSTAT and in Cause.RIPL *)

Lemma level_bits (l i : Z) : 0 <= l < 64 -> 6 <= i -> Z.testbit l i = false.
Proof.
  intros Hl Hi. rewrite <- (Z.mod_small l (2 ^ 6)) by (change (2 ^ 6) with 64; lia).
  apply Z.mod_pow2_bits_high. lia.
Qed.

Lemma ripl_update (c l k : Z) :
  0 <= k -> 0 <= l < 64 ->
  (((c .& ~~ (0x3f << k)) .| (l << k)) >> k) .& 0x3f = l.
Proof.
  intros Hk Hl. apply Z.bits_inj'. intros i Hi.
  rewrite Z.land_spec, Z.shiftr_spec, Z.lor_spec, Z.land_spec, Z.lnot_spec by lia.
  rewrite !Z.shiftl_spec by lia. replace (i + k - k) with i by lia.
  change 0x3f with (Z.ones 6). rewrite Z.testbit_ones_nonneg by lia.
  destruct (Z.ltb_spec i 6); cbn [negb andb].
  - now rewrite andb_false_r, andb_true_r.
  - now rewrite andb_false_r, level_bits.
Qed.

Lemma result_word (v p : Z) : 0 <= v < 192 -> 0 <= p <= 7 -> u32 (v .| (p << 8)) = v .| (p << 8).
Proof.
  intros Hv Hp. apply Z.bits_inj'. intros i Hi.
  rewrite u32_testbit. destruct (Z.ltb_spec i 32); cbn [andb]; [reflexivity | ].
  rewrite Z.lor_spec, testbit_high, testbit_high; [reflexivity | | lia | | lia].
  - rewrite Z.shiftl_mul_pow2 by lia. change (2 ^ 8) with 256. change (2 ^ 32) with 4294967296. lia.
  - change (2 ^ 32) with 4294967296. lia.
Qed.

Lemma update_irq_status_spec (s : pic32_t) :
  VALUE (update_irq_status s) INTSTAT = fst (arbitrate s) .| (snd (arbitrate s) << 8) /\
  ripl_of (CP0_Cause (update_irq_status s)) = snd (arbitrate s).
Proof.
  pose proof irq_last_range as L. pose proof cause_ip_range as K.
  pose proof (arbitrate_range s) as [Rv Rp].
  assert (B : same_banks (assign INTSTAT 0 s) s).
  { apply same_banks_sym, same_banks_frame. intros a Ha. unfold assign.
    now apply iomem_store_other. }
  unfold update_irq_status. cbv zeta.
  rewrite (arbitrate_banks _ _ B), (any_pending_banks _ _ B).
  assert (V : VALUE (if any_pending s
                     then assign INTSTAT (fst (arbitrate s) .| (snd (arbitrate s) << 8))
                            (assign INTSTAT 0 s)
                     else assign INTSTAT 0 s) INTSTAT
              = fst (arbitrate s) .| (snd (arbitrate s) << 8)).
  { unfold arbitrate at 3 4. destruct (any_pending s) eqn:A; unfold VALUE, assign.
    - rewrite iomem_store_same. unfold arbitrate. rewrite A.
      fold irqs. 
      assert (E : arbitrate s = fold_left (scan s) irqs (0, 0)) by (unfold arbitrate; now rewrite A).
      rewrite <- E. apply result_word; lia.
    - now rewrite iomem_store_same. }
  destruct (Z.eqb_spec (snd (arbitrate s)) (ripl_of (CP0_Cause s))) as [E | N].
  - split; [exact V | ].
    destruct (any_pending s); cbn [CP0_Cause assign store set_iomem]; now rewrite E.
  - split.
    + unfold VALUE in *. cbn [iomem emit set_CP0_Cause]. rewrite iomem_log. exact V.
    + cbn [CP0_Cause emit set_CP0_Cause]. rewrite CP0_Cause_log.
      unfold ripl_of.
      replace (CP0_Cause (if any_pending s then _ else _)) with (CP0_Cause s)
        by now destruct (any_pending s).
      apply ripl_update; lia.
Qed.

(** *** Raising and clearing a flag *)

Lemma flag_banks (s t : pic32_t) (irq : Z) :
  same_banks s t -> source irq -> flag s irq = flag t irq /\ enable s irq = enable t irq.
Proof.
  intros [A _] Hi. destruct (source_bank irq Hi) as (_ & _ & Hn & _).
  unfold flag, enable. now destruct (A _ Hn) as [-> ->].
Qed.

Lemma source_split (i j : Z) :
  source i -> source j -> (j / 32 = i / 32 /\ j mod 32 = i mod 32) <-> j = i.
Proof. unfold source. intros Hi Hj. split; [intros [E1 E2]; divmod | now intros ->]. Qed.

Lemma set_bit (x k b : Z) :
  0 <= k < 32 -> 0 <= b < 32 ->
  Z.testbit (u32 (x .| u32 (1 << k))) b = Z.testbit x b || (b =? k).
Proof.
  intros Hk Hb. rewrite u32_testbit, Z.lor_spec, u32_testbit, pow2_bit by lia.
  destruct (Z.ltb_spec b 32); [reflexivity | lia].
Qed.

Lemma clear_bit (x k b : Z) :
  0 <= k < 32 -> 0 <= b < 32 ->
  Z.testbit (u32 (x .& u32 (~~ (1 << k)))) b = Z.testbit x b && negb (b =? k).
Proof.
  intros Hk Hb. rewrite u32_testbit, Z.land_spec, u32_testbit, Z.lnot_spec, pow2_bit by lia.
  destruct (Z.ltb_spec b 32); [reflexivity | lia].
Qed.

(** A store to a flag bank changes that bank only. *)
Lemma assign_IFS (s : pic32_t) (n v : Z) :
  0 <= n < 6 ->
  let t := assign (IFS n) v s in
  (forall m, 0 <= m < 6 ->
     VALUE t (IFS m) = (if m =? n then u32 v else VALUE s (IFS m)) /\
     VALUE t (IEC m) = VALUE s (IEC m)) /\
  (forall m, 0 <= m < 48 -> VALUE t (IPC m) = VALUE s (IPC m)).
Proof.
  intros Hn t. unfold t, VALUE, assign. split; [intros m Hm; split | intros m Hm].
  - destruct (Z.eqb_spec m n) as [-> | Ne]; [apply iomem_store_same | ].
    apply iomem_store_other. intros E. apply Ne.
    apply banks_apart in E; [now injection E | now apply IFS_case | now apply IFS_case].
  - apply iomem_store_other. intros E.
    apply banks_apart in E; [discriminate | now apply IEC_case | now apply IFS_case].
  - apply iomem_store_other. intros E.
    apply banks_apart in E; [discriminate | now apply IPC_case | now apply IFS_case].
Qed.

Lemma irq_raise_eq (s : pic32_t) (irq : Z) :
  source irq ->
  irq_raise s irq =
    if flag s irq then s
    else update_irq_status
           (assign (IFS (irq / 32))
                   (VALUE s (IFS (irq / 32)) .| u32 (1 << (irq mod 32))) s).
Proof.
  intros Hi. unfold irq_raise. rewrite (raise_test s irq Hi).
  destruct (source_bank irq Hi) as (-> & -> & _). reflexivity.
Qed.

Lemma irq_clear_eq (s : pic32_t) (irq : Z) :
  source irq ->
  irq_clear s irq =
    if flag s irq
    then update_irq_status
           (assign (IFS (irq / 32))
                   (VALUE s (IFS (irq / 32)) .& u32 (~~ (1 << (irq mod 32)))) s)
    else s.
Proof.
  intros Hi. unfold irq_clear. rewrite (raise_test s irq Hi).
  destruct (source_bank irq Hi) as (-> & -> & _). now destruct (flag s irq).
Qed.

(** The banks after [irq_raise]. *)
Lemma irq_raise_banks (s : pic32_t) (irq : Z) :
  source irq ->
  (forall m, 0 <= m < 6 ->
     VALUE (irq_raise s irq) (IFS m) =
       (if flag s irq then VALUE s (IFS m)
        else if m =? irq / 32
             then u32 (VALUE s (IFS m) .| u32 (1 << (irq mod 32)))
             else VALUE s (IFS m)) /\
     VALUE (irq_raise s irq) (IEC m) = VALUE s (IEC m)) /\
  (forall m, 0 <= m < 48 -> VALUE (irq_raise s irq) (IPC m) = VALUE s (IPC m)).
Proof.
  intros Hi. destruct (source_bank irq Hi) as (_ & _ & Hn & _).
  rewrite (irq_raise_eq s irq Hi). destruct (flag s irq); [now split | ].
  set (t := assign _ _ s).
  destruct (same_banks_update t) as [U1 U2].
  destruct (assign_IFS s (irq / 32) (VALUE s (IFS (irq / 32)) .| u32 (1 << (irq mod 32))) Hn)
    as [A1 A2].
  fold t in A1, A2. split.
  - intros m Hm. destruct (U1 m Hm) as [<- <-]. destruct (A1 m Hm) as [-> ->].
    split; [ | reflexivity]. now destruct (Z.eqb_spec m (irq / 32)) as [-> | ].
  - intros m Hm. rewrite <- (U2 m Hm). now apply A2.
Qed.

Lemma flag_irq_raise (s : pic32_t) (i j : Z) :
  source i -> source j ->
  flag (irq_raise s i) j = flag s j || (j =? i) /\
  enable (irq_raise s i) j = enable s j.
Proof.
  intros Hi Hj.
  destruct (source_bank i Hi) as (_ & _ & _ & Hki).
  destruct (source_bank j Hj) as (_ & _ & Hnj & Hkj).
  destruct (irq_raise_banks s i Hi) as [B _]. destruct (B _ Hnj) as [F E].
  unfold flag at 1. unfold enable at 1. rewrite F, E. split; [ | reflexivity].
  destruct (flag s i) eqn:Fi.
  - change (flag s j = flag s j || (j =? i)).
    destruct (Z.eqb_spec j i) as [-> | Ne]; [now rewrite Fi | now rewrite orb_false_r].
  - destruct (Z.eqb_spec (j / 32) (i / 32)) as [En | Nn].
    + rewrite set_bit by assumption. change (Z.testbit (VALUE s (IFS (j / 32))) (j mod 32)) with (flag s j). f_equal.
      destruct (Z.eqb_spec (j mod 32) (i mod 32)) as [Ek | Nk];
        destruct (Z.eqb_spec j i) as [Eq | Nq]; try reflexivity.
      * exfalso. apply Nq. now apply source_split.
      * exfalso. apply Nk. now rewrite Eq.
    + change (flag s j = flag s j || (j =? i)).
      destruct (Z.eqb_spec j i) as [Eq | Nq]; [exfalso; apply Nn; now rewrite Eq | ].
      now rewrite orb_false_r.
Qed.

(** C4: raising a source twice is raising it once.  For every
    source index and every state, the second of two successive
    [irq_raise] of that source returns its argument: the state
    after it (flag banks, INTSTAT, Cause.RIPL and all the rest) is
    the state after the first. *)
Theorem irq_raise_idempotent (s : pic32_t) (irq : Z) :
  source irq ->
  irq_raise (irq_raise s irq) irq = irq_raise s irq.
Proof.
  intros Hi. rewrite (irq_raise_eq (irq_raise s irq) irq Hi).
  destruct (flag_irq_raise s irq irq Hi Hi) as [-> _].
  now rewrite Z.eqb_refl, orb_true_r.
Qed.

(** After a raise that sets the flag, INTSTAT and Cause.RIPL are the
    arbitration of the banks. *)
Lemma irq_raise_fresh (s : pic32_t) (irq : Z) :
  source irq -> flag s irq = false ->
  let t := irq_raise s irq in
  VALUE t INTSTAT = fst (arbitrate t) .| (snd (arbitrate t) << 8) /\
  ripl_of (CP0_Cause t) = snd (arbitrate t).
Proof.
  intros Hi F t. unfold t. rewrite (irq_raise_eq s irq Hi), F.
  set (u := assign _ _ s).
  rewrite <- (arbitrate_banks u (update_irq_status u) (same_banks_update u)).
  apply update_irq_status_spec.
Qed.

Lemma double_raise_fresh (s : pic32_t) (i j : Z) :
  source i -> source j -> flag s i && flag s j = false ->
  let t := irq_raise (irq_raise s i) j in
  VALUE t INTSTAT = fst (arbitrate t) .| (snd (arbitrate t) << 8) /\
  ripl_of (CP0_Cause t) = snd (arbitrate t).
Proof.
  intros Hi Hj F t. unfold t.
  destruct (flag (irq_raise s i) j) eqn:F1.
  - rewrite (irq_raise_eq (irq_raise s i) j Hj), F1.
    destruct (flag s i) eqn:Fi.
    + exfalso. cbn [andb] in F. rewrite (irq_raise_eq s i Hi), Fi in F1. congruence.
    + now apply irq_raise_fresh.
  - now apply irq_raise_fresh.
Qed.

Lemma double_raise_banks (s : pic32_t) (i j : Z) :
  source i -> source j ->
  same_banks (irq_raise (irq_raise s i) j) (irq_raise (irq_raise s j) i).
Proof.
  intros Hi Hj.
  destruct (Z.eq_dec j i) as [-> | Ne]; [apply same_banks_refl | ].
  destruct (source_bank i Hi) as (_ & _ & Hni & Hki).
  destruct (source_bank j Hj) as (_ & _ & Hnj & Hkj).
  destruct (irq_raise_banks s i Hi) as [Ai Ci].
  destruct (irq_raise_banks s j Hj) as [Aj Cj].
  destruct (irq_raise_banks (irq_raise s i) j Hj) as [Aij Cij].
  destruct (irq_raise_banks (irq_raise s j) i Hi) as [Aji Cji].
  destruct (flag_irq_raise s i j Hi Hj) as [Fij _].
  destruct (flag_irq_raise s j i Hj Hi) as [Fji _].
  rewrite (proj2 (Z.eqb_neq j i)), orb_false_r in Fij by exact Ne.
  rewrite (proj2 (Z.eqb_neq i j)), orb_false_r in Fji by congruence.
  split.
  - intros m Hm.
    destruct (Aij m Hm) as [-> ->]. destruct (Aji m Hm) as [-> ->].
    destruct (Ai m Hm) as [-> ->]. destruct (Aj m Hm) as [-> ->].
    split; [ | reflexivity]. rewrite Fij, Fji.
    destruct (flag s i), (flag s j); try reflexivity.
    destruct (Z.eqb_spec m (i / 32)), (Z.eqb_spec m (j / 32)); try reflexivity.
    apply Z.bits_inj'. intros b Hb. rewrite !u32_testbit.
    destruct (Z.ltb_spec b 32); [ | reflexivity]. cbn [andb].
    rewrite !Z.lor_spec, !u32_testbit, !Z.lor_spec, !u32_testbit.
    destruct (Z.ltb_spec b 32); [ | lia]. cbn [andb].
    now rewrite <- !orb_assoc, (orb_comm (Z.testbit (1 << _) b)).
  - intros m Hm. rewrite Cij, Cji, Ci, Cj by exact Hm. reflexivity.
Qed.

Lemma flag_clear (s : pic32_t) (i j : Z) :
  source i -> source j ->
  let t := assign (IFS (i / 32)) (VALUE s (IFS (i / 32)) .& u32 (~~ (1 << (i mod 32)))) s in
  flag t j = flag s j && negb (j =? i) /\ enable t j = enable s j.
Proof.
  intros Hi Hj t.
  destruct (source_bank i Hi) as (_ & _ & Hni & Hki).
  destruct (source_bank j Hj) as (_ & _ & Hnj & Hkj).
  destruct (assign_IFS s (i / 32) (VALUE s (IFS (i / 32)) .& u32 (~~ (1 << (i mod 32)))) Hni)
    as [A _].
  fold t in A. destruct (A _ Hnj) as [F E].
  unfold flag at 1. unfold enable at 1. rewrite F, E. split; [ | reflexivity].
  destruct (Z.eqb_spec (j / 32) (i / 32)) as [En | Nn].
  - rewrite clear_bit by assumption. rewrite <- En.
    change (Z.testbit (VALUE s (IFS (j / 32))) (j mod 32)) with (flag s j). f_equal. f_equal.
    destruct (Z.eqb_spec (j mod 32) (i mod 32)) as [Ek | Nk];
      destruct (Z.eqb_spec j i) as [Eq | Nq]; try reflexivity.
    + exfalso. apply Nq. now apply source_split.
    + exfalso. apply Nk. now rewrite Eq.
  - change (flag s j = flag s j && negb (j =? i)).
    destruct (Z.eqb_spec j i) as [Eq | Nq]; [exfalso; apply Nn; now rewrite Eq | ].
    now rewrite andb_true_r.
Qed.

Lemma no_request (s : pic32_t) :
  (forall i, source i -> flag s i && enable s i = false) -> arbitrate s = (0, 0).
Proof.
  intros N. pose proof (arbitrate_choice s) as C.
  destruct (arbitrate s) as [v p]. cbn [choice] in C.
  destruct C as (P0 & PZ & PV & _).
  destruct (Z.eq_dec p 0) as [-> | Np]; [now rewrite PZ | ].
  destruct PV as (Hv & Pv & _); [lia | ].
  rewrite is_pending_spec, N in Pv by (unfold source; lia). discriminate.
Qed.

(** *** Arbitration *)

(** C3, as the code behaves: the arbiter selects the lowest source
    of the highest level among the sources whose level is not 0.
    For every state, with [(vector, level)] the pair the scan of
    [update_irq_status] ends with: INTSTAT is left holding
    [vector | level << 8] and Cause.RIPL holding [level]; if some
    source has its flag bit and its enable bit set and a level
    other than 0, then [vector] is such a source, [level] is its
    level, no source with both bits set has a higher level, and
    none with that level has a lower index; if every source with
    both bits set has level 0, the pair is [(0, 0)], whichever
    sources those are.  The pair is the same in any two states with
    the same flag, enable and priority banks; and two raises in
    either order end with the same banks, the same INTSTAT and the
    same Cause.RIPL. *)
Theorem arbitration_selects_highest_level (s : pic32_t) :
  let vector := fst (arbitrate s) in
  let level := snd (arbitrate s) in
  VALUE (update_irq_status s) INTSTAT = vector .| (level << 8) /\
  ripl_of (CP0_Cause (update_irq_status s)) = level /\
  ((exists i, source i /\ flag s i && enable s i = true /\ 0 < priority s i) ->
     source vector /\
     flag s vector && enable s vector = true /\
     priority s vector = level /\
     (forall i, source i -> flag s i && enable s i = true -> priority s i <= level) /\
     (forall i, source i -> flag s i && enable s i = true -> priority s i = level ->
        vector <= i)) /\
  ((forall i, source i -> flag s i && enable s i = true -> priority s i = 0) ->
     vector = 0 /\ level = 0) /\
  (forall t, same_banks s t -> arbitrate t = arbitrate s) /\
  (forall i j, source i -> source j ->
     let a := irq_raise (irq_raise s i) j in
     let b := irq_raise (irq_raise s j) i in
     same_banks a b /\
     VALUE a INTSTAT = VALUE b INTSTAT /\
     ripl_of (CP0_Cause a) = ripl_of (CP0_Cause b)).
Proof.
  intros vector level.
  destruct (update_irq_status_spec s) as [Us Uc].
  split; [exact Us | split; [exact Uc | ]].
  pose proof (arbitrate_choice s) as C.
  assert (S : forall i, source i <-> 0 <= i < PIC32_IRQ_LAST + 1) by (unfold source; intros; lia).
  unfold vector, level. destruct (arbitrate s) as [v p] eqn:A. cbn [fst snd choice] in *.
  destruct C as (P0 & PZ & PV & PM & PT).
  split; [ | split; [ | split]].
  - intros (i & Hi & Ri & Li).
    rewrite <- is_pending_spec in Ri by exact Hi.
    assert (Hp : 0 < p) by (pose proof (PM i (proj1 (S i) Hi) Ri); lia).
    destruct (PV Hp) as (Hv & Pv & Lv). apply S in Hv.
    split; [exact Hv | ]. split; [now rewrite <- is_pending_spec | ].
    split; [exact Lv | ]. split.
    + intros k Hk Rk. rewrite <- is_pending_spec in Rk by exact Hk. apply PM; [now apply S | exact Rk].
    + intros k Hk Rk Lk. rewrite <- is_pending_spec in Rk by exact Hk.
      apply PT; [now apply S | assumption ..].
  - intros Z0. destruct (Z.eq_dec p 0) as [-> | Np]; [now rewrite PZ | ].
    destruct PV as (Hv & Pv & Lv); [lia | ]. apply S in Hv.
    rewrite is_pending_spec in Pv by exact Hv. rewrite (Z0 v Hv Pv) in Lv. lia.
  - intros t Ht. rewrite <- A. symmetry. now apply arbitrate_banks.
  - intros i j Hi Hj.
    set (a := irq_raise (irq_raise s i) j). set (b := irq_raise (irq_raise s j) i).
    pose proof (double_raise_banks s i j Hi Hj) as B. fold a b in B.
    split; [exact B | ].
    destruct (flag s i && flag s j) eqn:F.
    + apply andb_prop in F. destruct F as [Fi Fj].
      unfold a, b.
      assert (Si : irq_raise s i = s) by now rewrite (irq_raise_eq s i Hi), Fi.
      assert (Sj : irq_raise s j = s) by now rewrite (irq_raise_eq s j Hj), Fj.
      rewrite ?Si, ?Sj, ?Si, ?Sj. split; reflexivity.
    + destruct (double_raise_fresh s i j Hi Hj F) as [Ia Ca].
      rewrite andb_comm in F.
      destruct (double_raise_fresh s j i Hj Hi F) as [Ib Cb].
      fold a in Ia, Ca. fold b in Ib, Cb.
      rewrite Ia, Ib, Ca, Cb, (arbitrate_banks a b B). split; reflexivity.
Qed.

(** C5: without a request the result is "no interrupt".  For every
    state the scan ends with a vector from 0 to [PIC32_IRQ_LAST] and
    a level from 0 to 7: [update_irq_status] has no failing path.
    If no source has both its flag bit and its enable bit set, the
    pair is [(0, 0)], and [update_irq_status] leaves 0 in INTSTAT
    and 0 in Cause.RIPL.  In particular, if a source is the only
    one with both bits set, [irq_clear] of that source leaves 0 in
    INTSTAT and in Cause.RIPL, and the pair [(0, 0)]. *)
Theorem no_request_no_interrupt (s : pic32_t) :
  (0 <= fst (arbitrate s) <= PIC32_IRQ_LAST /\ 0 <= snd (arbitrate s) <= 7) /\
  ((forall i, source i -> flag s i && enable s i = false) ->
     arbitrate s = (0, 0) /\
     VALUE (update_irq_status s) INTSTAT = 0 /\
     ripl_of (CP0_Cause (update_irq_status s)) = 0) /\
  (forall i, source i ->
     flag s i && enable s i = true ->
     (forall j, source j -> j <> i -> flag s j && enable s j = false) ->
     arbitrate (irq_clear s i) = (0, 0) /\
     VALUE (irq_clear s i) INTSTAT = 0 /\
     ripl_of (CP0_Cause (irq_clear s i)) = 0).
Proof.
  split; [apply arbitrate_range | ].
  assert (N : forall t, (forall i, source i -> flag t i && enable t i = false) ->
                arbitrate t = (0, 0) /\
                VALUE (update_irq_status t) INTSTAT = 0 /\
                ripl_of (CP0_Cause (update_irq_status t)) = 0).
  { intros t Nt. pose proof (no_request t Nt) as A.
    destruct (update_irq_status_spec t) as [Us Uc]. rewrite A in Us, Uc.
    split; [exact A | split; [exact Us | exact Uc]]. }
  split; [apply N | ].
  intros i Hi Ri Oi. apply andb_prop in Ri. destruct Ri as [Fi Ei].
  rewrite (irq_clear_eq s i Hi), Fi.
  set (t := assign _ _ s).
  destruct (N t) as (A & Us & Uc).
  - intros j Hj. destruct (flag_clear s i j Hi Hj) as [F E]. fold t in F, E.
    rewrite F, E. destruct (Z.eqb_spec j i) as [-> | Ne].
    + now rewrite andb_false_r.
    + rewrite andb_true_r. now apply Oi.
  - split; [ | split; [exact Us | exact Uc]].
    rewrite <- A. symmetry. apply arbitrate_banks, same_banks_update.
Qed.

(** ** The arbiter at rest *)

Lemma arbitrate_update (s : pic32_t) : arbitrate (update_irq_status s) = arbitrate s.
Proof. symmetry. apply arbitrate_banks, same_banks_update. Qed.

Lemma update_settles (s : pic32_t) : settled (update_irq_status s).
Proof. unfold settled. rewrite arbitrate_update. apply update_irq_status_spec. Qed.

Lemma same_banks_INTSTAT (s : pic32_t) (v : Z) : same_banks (assign INTSTAT v s) s.
Proof.
  apply same_banks_sym, same_banks_frame. intros a Ha. unfold assign.
  now apply iomem_store_other.
Qed.

(** The three ways out of [update_irq_status], by the level found. *)
Lemma update_irq_status_eq (s : pic32_t) :
  let level := snd (arbitrate s) in
  let t := if any_pending s
           then assign INTSTAT (fst (arbitrate s) .| (level << 8)) (assign INTSTAT 0 s)
           else assign INTSTAT 0 s in
  update_irq_status s =
    if level =? ripl_of (CP0_Cause s) then t
    else emit cpu_interrupt_hard
           (set_CP0_Cause ((CP0_Cause s .& ~~ (0x3f << (CP0Ca_IP + 2))) .|
                           (level << (CP0Ca_IP + 2)))
              (log (Priority_level level) t)).
Proof.
  intros level t. unfold update_irq_status. cbv zeta.
  rewrite (arbitrate_banks _ _ (same_banks_INTSTAT s 0)).
  rewrite (any_pending_banks _ _ (same_banks_INTSTAT s 0)).
  fold level. fold t.
  assert (C : CP0_Cause t = CP0_Cause s) by (unfold t; now destruct (any_pending s)).
  destruct (level =? ripl_of (CP0_Cause s)); [reflexivity | ].
  cbn [CP0_Cause set_CP0_Cause]. rewrite CP0_Cause_log, C.
  unfold set_CP0_Cause, emit. cbn. reflexivity.
Qed.

Lemma trace_store (offset v : Z) (s : pic32_t) : trace (store offset v s) = trace s.
Proof. reflexivity. Qed.

(** X1: [update_irq_status] brings the arbiter to rest, and at rest
    it does nothing.  After the call, INTSTAT holds
    [vector | level << 8] and Cause.RIPL holds [level] for the pair
    the banks select.  On a state that is at rest already the call
    changes no cell, leaves the Cause register as it is, writes
    nothing on the log and requests no interrupt of the CPU: a
    second call in a row has no effect. *)
Theorem update_irq_status_settles (s : pic32_t) :
  settled (update_irq_status s) /\
  (settled s ->
     (forall a, iomem (update_irq_status s) a = iomem s a) /\
     CP0_Cause (update_irq_status s) = CP0_Cause s /\
     trace (update_irq_status s) = trace s).
Proof.
  split; [apply update_settles | ].
  intros [I R].
  pose proof (update_irq_status_spec s) as [I' _].
  split.
  - intros a. destruct (Z.eq_dec a (offset_of INTSTAT)) as [-> | Ne].
    + unfold VALUE in I, I'. now rewrite I, I'.
    + now apply iomem_update_irq_status.
  - rewrite update_irq_status_eq. cbv zeta. rewrite <- R, Z.eqb_refl.
    destruct (any_pending s); split; reflexivity.
Qed.

(** The bits of Cause outside the RIPL field. *)
Lemma ripl_field_frame (c l k i : Z) :
  0 <= k -> 0 <= l < 64 -> 0 <= i -> ~ (k <= i < k + 6) ->
  Z.testbit ((c .& ~~ (0x3f << k)) .| (l << k)) i = Z.testbit c i.
Proof.
  intros Hk Hl Hi Hn.
  rewrite Z.lor_spec, Z.land_spec, Z.lnot_spec, !Z.shiftl_spec by lia.
  change 0x3f with (Z.ones 6).
  destruct (Z.ltb_spec i k) as [Lt | Ge].
  - rewrite !(Z.testbit_neg_r _ (i - k)) by lia. cbn [negb]. now rewrite andb_true_r, orb_false_r.
  - rewrite Z.ones_spec_high, (level_bits l (i - k)) by lia. cbn [negb].
    now rewrite andb_true_r, orb_false_r.
Qed.

(** X2: what [update_irq_status] changes and when it interrupts.
    The call stores into no cell but INTSTAT and changes no bit of
    the Cause register outside the six bits of the RIPL field.  When
    the level the banks select is the level in Cause.RIPL, the Cause
    register and the trace are as before: nothing is logged and the
    CPU is not interrupted.  When it differs, the call logs the new
    level (if logging is on) and then requests the interrupt of the
    CPU. *)
Theorem update_irq_status_frame (s : pic32_t) :
  let s' := update_irq_status s in
  let level := snd (arbitrate s) in
  (forall a, a <> offset_of INTSTAT -> iomem s' a = iomem s a) /\
  (forall i, 0 <= i -> ~ (CP0Ca_IP + 2 <= i < CP0Ca_IP + 8) ->
     Z.testbit (CP0_Cause s') i = Z.testbit (CP0_Cause s) i) /\
  (level = ripl_of (CP0_Cause s) ->
     CP0_Cause s' = CP0_Cause s /\ trace s' = trace s) /\
  (level <> ripl_of (CP0_Cause s) ->
     trace s' = cpu_interrupt_hard :: trace (log (Priority_level level) s)).
Proof.
  intros s' level. pose proof cause_ip_range as K.
  pose proof (arbitrate_range s) as [_ Rp]. fold level in Rp.
  pose proof (update_irq_status_eq s) as E. cbv zeta in E. fold level in E. fold s' in E.
  set (t := if any_pending s
            then assign INTSTAT (fst (arbitrate s) .| (level << 8)) (assign INTSTAT 0 s)
            else assign INTSTAT 0 s) in E.
  assert (C : CP0_Cause t = CP0_Cause s) by (unfold t; now destruct (any_pending s)).
  assert (T : trace t = trace s) by (unfold t; now destruct (any_pending s)).
  assert (L : log_instr t = log_instr s) by (unfold t; now destruct (any_pending s)).
  split; [intros a Ha; now apply iomem_update_irq_status | ].
  destruct (Z.eqb_spec level (ripl_of (CP0_Cause s))) as [Eq | Ne].
  - rewrite E, C, T. split; [reflexivity | ]. split; [now split | easy].
  - rewrite E. cbn [CP0_Cause trace emit set_CP0_Cause]. split; [ | split; [easy | ]].
    + intros i Hi Hn. apply ripl_field_frame; lia.
    + intros _. f_equal. unfold log. rewrite L. destruct (log_instr s); cbn [trace emit]; now rewrite T.
Qed.

(** ** Flags, enables and priorities across the calls *)

Lemma irq_clear_banks (s : pic32_t) (irq : Z) :
  source irq ->
  (forall m, 0 <= m < 6 ->
     VALUE (irq_clear s irq) (IFS m) =
       (if flag s irq
        then if m =? irq / 32
             then u32 (VALUE s (IFS m) .& u32 (~~ (1 << (irq mod 32))))
             else VALUE s (IFS m)
        else VALUE s (IFS m)) /\
     VALUE (irq_clear s irq) (IEC m) = VALUE s (IEC m)) /\
  (forall m, 0 <= m < 48 -> VALUE (irq_clear s irq) (IPC m) = VALUE s (IPC m)).
Proof.
  intros Hi. destruct (source_bank irq Hi) as (_ & _ & Hn & _).
  rewrite (irq_clear_eq s irq Hi). destruct (flag s irq); [ | now split].
  set (t := assign _ _ s).
  destruct (same_banks_update t) as [U1 U2].
  destruct (assign_IFS s (irq / 32) (VALUE s (IFS (irq / 32)) .& u32 (~~ (1 << (irq mod 32)))) Hn)
    as [A1 A2].
  fold t in A1, A2. split.
  - intros m Hm. destruct (U1 m Hm) as [<- <-]. destruct (A1 m Hm) as [-> ->].
    split; [ | reflexivity]. now destruct (Z.eqb_spec m (irq / 32)) as [-> | ].
  - intros m Hm. rewrite <- (U2 m Hm). now apply A2.
Qed.

Lemma flag_irq_clear (s : pic32_t) (i j : Z) :
  source i -> source j ->
  flag (irq_clear s i) j = flag s j && negb (j =? i) /\
  enable (irq_clear s i) j = enable s j.
Proof.
  intros Hi Hj. rewrite (irq_clear_eq s i Hi).
  destruct (flag s i) eqn:Fi.
  - set (t := assign _ _ s).
    destruct (flag_banks t (update_irq_status t) j (same_banks_update t) Hj) as [<- <-].
    now apply flag_clear.
  - split; [ | reflexivity].
    destruct (Z.eqb_spec j i) as [-> | Ne]; [now rewrite Fi | now rewrite andb_true_r].
Qed.

Lemma priority_words (s t : pic32_t) (irq : Z) :
  source irq -> (forall m, 0 <= m < 48 -> VALUE t (IPC m) = VALUE s (IPC m)) ->
  priority t irq = priority s irq.
Proof. intros Hi W. unfold priority. cbv zeta. now rewrite (W _ (source_word irq Hi)). Qed.

(** X3: a raise or a clear changes one flag.  For all sources [i]
    and [j]: after [irq_raise] of [i] the flag of [j] is set when it
    was set before or [j] is [i]; after [irq_clear] of [i] it is set
    when it was set before and [j] is not [i].  Neither call changes
    an enable bit or the priority of a source. *)
Theorem irq_calls_change_one_flag (s : pic32_t) (i j : Z) :
  source i -> source j ->
  flag (irq_raise s i) j = flag s j || (j =? i) /\
  flag (irq_clear s i) j = flag s j && negb (j =? i) /\
  enable (irq_raise s i) j = enable s j /\
  enable (irq_clear s i) j = enable s j /\
  priority (irq_raise s i) j = priority s j /\
  priority (irq_clear s i) j = priority s j.
Proof.
  intros Hi Hj.
  destruct (flag_irq_raise s i j Hi Hj) as [Fr Er].
  destruct (flag_irq_clear s i j Hi Hj) as [Fc Ec].
  repeat split; try assumption.
  - apply priority_words; [exact Hj | apply (irq_raise_banks s i Hi)].
  - apply priority_words; [exact Hj | apply (irq_clear_banks s i Hi)].
Qed.

Lemma settled_irq_raise (s : pic32_t) (irq : Z) :
  source irq -> settled s -> settled (irq_raise s irq).
Proof.
  intros Hi St. rewrite (irq_raise_eq s irq Hi).
  destruct (flag s irq); [exact St | apply update_settles].
Qed.

Lemma settled_irq_clear (s : pic32_t) (irq : Z) :
  source irq -> settled s -> settled (irq_clear s irq).
Proof.
  intros Hi St. rewrite (irq_clear_eq s irq Hi).
  destruct (flag s irq); [apply update_settles | exact St].
Qed.

(** X4: the calls of the peripherals keep the arbiter at rest.  If
    INTSTAT and Cause.RIPL show the arbitration of the banks, they
    still do after [irq_raise] and after [irq_clear] of any source,
    whether the call found the flag set or not. *)
Theorem irq_calls_keep_settled (s : pic32_t) (irq : Z) :
  source irq -> settled s ->
  settled (irq_raise s irq) /\ settled (irq_clear s irq).
Proof.
  intros Hi St. split; [now apply settled_irq_raise | now apply settled_irq_clear].
Qed.

(** Setting a bit that is clear and clearing it again gives the word back. *)
Lemma set_then_clear (x k : Z) :
  0 <= x < 2 ^ 32 -> 0 <= k < 32 -> Z.testbit x k = false ->
  u32 (u32 (x .| u32 (1 << k)) .& u32 (~~ (1 << k))) = x.
Proof.
  intros Hx Hk F. rewrite <- (u32_small x Hx) at 2. apply u32_eq. intros i Hi.
  rewrite Z.land_spec, !u32_testbit, Z.lor_spec, Z.lnot_spec, u32_testbit, pow2_bit by lia.
  destruct (Z.ltb_spec i 32); [ | lia]. cbn [andb].
  destruct (Z.eqb_spec i k) as [-> | Ne]; cbn [negb].
  - now rewrite F.
  - now rewrite orb_false_r, andb_true_r.
Qed.

(** X5: a raise followed by a clear is undone.  For a source whose
    flag is not set, in a state whose flag bank holds a word,
    [irq_raise] followed by [irq_clear] of that source ends with the
    flag, enable and priority banks as they were, and with INTSTAT
    and Cause.RIPL showing the arbitration of those banks. *)
Theorem raise_then_clear_restores_banks (s : pic32_t) (irq : Z) :
  source irq -> flag s irq = false ->
  0 <= VALUE s (IFS (irq / 32)) < 2 ^ 32 ->
  let t := irq_clear (irq_raise s irq) irq in
  same_banks t s /\ arbitrate t = arbitrate s /\ settled t.
Proof.
  intros Hi F Hw t.
  destruct (source_bank irq Hi) as (_ & _ & Hn & Hk).
  destruct (flag_irq_raise s irq irq Hi Hi) as [Fr _].
  rewrite Z.eqb_refl, orb_true_r in Fr.
  destruct (irq_raise_banks s irq Hi) as [Ar Cr].
  destruct (irq_clear_banks (irq_raise s irq) irq Hi) as [Ac Cc].
  assert (B : same_banks t s).
  { split.
    - intros m Hm. unfold t. destruct (Ac m Hm) as [-> ->]. destruct (Ar m Hm) as [-> ->].
      split; [ | reflexivity]. rewrite Fr, F.
      destruct (Z.eqb_spec m (irq / 32)) as [-> | ]; [ | reflexivity].
      now apply set_then_clear.
    - intros m Hm. unfold t. now rewrite Cc, Cr. }
  split; [exact B | split; [now apply arbitrate_banks | ]].
  unfold t. rewrite (irq_clear_eq _ irq Hi), Fr. apply update_settles.
Qed.

(** ** The interrupt hooks of the CPU *)

Lemma source_0 : source 0.
Proof. unfold source. pose proof irq_last_range. lia. Qed.

(** X6: the timer is source 0 and software interrupt [num] is source
    [num + 1].  [pic32_timer_irq] with a true [raise] sets the flag
    of source 0 and with [raise = 0] clears it; [pic32_soft_irq]
    sets the flag of source [num + 1].  Each hook changes no other
    flag, no enable bit and no priority, keeps the arbiter at rest,
    and writes no line on the log when logging is off. *)
Theorem eic_hooks_raise_sources (s : pic32_t) (pc raise num j : Z) :
  source (num + 1) -> source j ->
  let t := snd (pic32_timer_irq s pc raise) in
  let u := snd (pic32_soft_irq s pc num) in
  flag t j = (if raise =? 0 then flag s j && negb (j =? 0) else flag s j || (j =? 0)) /\
  flag u j = flag s j || (j =? num + 1) /\
  enable t j = enable s j /\ enable u j = enable s j /\
  priority t j = priority s j /\ priority u j = priority s j /\
  (settled s -> settled t /\ settled u) /\
  (log_instr s = false ->
     fst (pic32_timer_irq s pc raise) = [] /\ fst (pic32_soft_irq s pc num) = []).
Proof.
  intros Hn Hj t u. pose proof source_0 as H0.
  unfold t, u, pic32_timer_irq, pic32_soft_irq, truth. cbn [snd fst].
  destruct (flag_irq_raise s 0 j H0 Hj) as [Fr Er].
  destruct (flag_irq_clear s 0 j H0 Hj) as [Fc Ec].
  destruct (flag_irq_raise s (num + 1) j Hn Hj) as [Fs Es].
  assert (Ps : priority (irq_raise s (num + 1)) j = priority s j)
    by (apply priority_words; [exact Hj | apply (irq_raise_banks s _ Hn)]).
  assert (Pr : priority (irq_raise s 0) j = priority s j)
    by (apply priority_words; [exact Hj | apply (irq_raise_banks s _ H0)]).
  assert (Pc : priority (irq_clear s 0) j = priority s j)
    by (apply priority_words; [exact Hj | apply (irq_clear_banks s _ H0)]).
  assert (L : log_instr s = false ->
              eic_log (Timer_interrupt pc) s = [] /\ eic_log Clear_timer_interrupt s = [] /\
              eic_log (Soft_interrupt pc num) s = [])
    by (intros L; unfold eic_log; now rewrite L).
  destruct (raise =? 0); cbn [negb snd fst].
  - split; [exact Fc | ]. split; [exact Fs | ]. split; [exact Ec | ]. split; [exact Es | ].
    split; [exact Pc | ]. split; [exact Ps | ]. split.
    + intros St. split; [now apply settled_irq_clear | now apply settled_irq_raise].
    + intros Lg. destruct (L Lg) as (_ & L2 & L3). now split.
  - split; [exact Fr | ]. split; [exact Fs | ]. split; [exact Er | ]. split; [exact Es | ].
    split; [exact Pr | ]. split; [exact Ps | ]. split.
    + intros St. split; now apply settled_irq_raise.
    + intros Lg. destruct (L Lg) as (L1 & _ & L3). now split.
Qed.

(** ** The level across the calls *)

(** A state whose requests include those of another, at the same
    priorities, selects a level that is not lower. *)
Lemma level_monotone (s t : pic32_t) :
  (forall j, source j -> flag s j && enable s j = true -> flag t j && enable t j = true) ->
  (forall j, source j -> priority t j = priority s j) ->
  snd (arbitrate s) <= snd (arbitrate t).
Proof.
  intros Hr Hp.
  assert (S : forall i, source i <-> 0 <= i < PIC32_IRQ_LAST + 1) by (unfold source; intros; lia).
  pose proof (arbitrate_choice s) as Cs. pose proof (arbitrate_choice t) as Ct.
  destruct (arbitrate s) as [v p], (arbitrate t) as [v' p']. cbn [choice snd] in *.
  destruct Cs as (_ & _ & PV & _). destruct Ct as (P0 & _ & _ & PM & _).
  destruct (Z_le_gt_dec p 0) as [Le | Gt]; [lia | ].
  destruct PV as (Hv & Pv & Lv); [lia | ].
  rewrite <- Lv, <- (Hp v (proj2 (S v) Hv)). apply PM; [exact Hv | ].
  rewrite is_pending_spec in * by now apply S. apply Hr; [now apply S | exact Pv].
Qed.

(** X23: a raise never lowers the level and a clear never raises
    it.  For every state and every source, the level the banks
    select after [irq_raise] is at least the level they selected
    before, and the level they select after [irq_clear] is at most
    that level. *)
Theorem raise_never_lowers_level (s : pic32_t) (irq : Z) :
  source irq ->
  snd (arbitrate s) <= snd (arbitrate (irq_raise s irq)) /\
  snd (arbitrate (irq_clear s irq)) <= snd (arbitrate s).
Proof.
  intros Hi. split; apply level_monotone.
  - intros j Hj R. destruct (flag_irq_raise s irq j Hi Hj) as [-> ->].
    apply andb_prop in R. destruct R as [-> ->]. reflexivity.
  - intros j Hj. apply priority_words; [exact Hj | apply (irq_raise_banks s irq Hi)].
  - intros j Hj R. destruct (flag_irq_clear s irq j Hi Hj) as [F E]. rewrite F, E in R.
    apply andb_prop in R. destruct R as [R ->]. apply andb_prop in R. destruct R as [-> _].
    reflexivity.
  - intros j Hj. symmetry. apply priority_words; [exact Hj | apply (irq_clear_banks s irq Hi)].
Qed.

(** X24: INTSTAT is read back as vector and level.  In a state at
    rest, and so after every [update_irq_status], the low byte of
    INTSTAT is the vector and the bits from bit 8 up are the level:
    the two fields do not overlap, for the vector is below 256. *)
Theorem INTSTAT_fields (s : pic32_t) :
  settled s ->
  VALUE s INTSTAT .& 0xff = fst (arbitrate s) /\
  VALUE s INTSTAT >> 8 = snd (arbitrate s) /\
  VALUE (update_irq_status s) INTSTAT .& 0xff = fst (arbitrate s) /\
  VALUE (update_irq_status s) INTSTAT >> 8 = snd (arbitrate s).
Proof.
  intros [I _]. pose proof irq_last_range as L.
  pose proof (arbitrate_range s) as [Rv Rp].
  destruct (update_irq_status_spec s) as [I' _].
  rewrite I, I'.
  assert (F : (fst (arbitrate s) .| (snd (arbitrate s) << 8)) .& 0xff = fst (arbitrate s) /\
              (fst (arbitrate s) .| (snd (arbitrate s) << 8)) >> 8 = snd (arbitrate s)).
  { set (v := fst (arbitrate s)) in *. set (p := snd (arbitrate s)) in *.
    assert (V : forall i, 8 <= i -> Z.testbit v i = false).
    { intros i Hi. rewrite <- (Z.mod_small v (2 ^ 8)) by (change (2 ^ 8) with 256; lia).
      apply Z.mod_pow2_bits_high. lia. }
    split; apply Z.bits_inj'; intros i Hi.
    - change 0xff with (Z.ones 8).
      rewrite Z.land_spec, Z.lor_spec, Z.shiftl_spec, Z.testbit_ones_nonneg by lia.
      destruct (Z.ltb_spec i 8) as [Lt | Ge].
      + rewrite (Z.testbit_neg_r p) by lia. now rewrite orb_false_r, andb_true_r.
      + now rewrite andb_false_r, V.
    - rewrite Z.shiftr_spec, Z.lor_spec, Z.shiftl_spec, V by lia.
      cbn [orb]. f_equal. lia. }
  destruct F as [F1 F2]. repeat split; assumption.
Qed.

(** ** Stores into the interrupt controller *)

Lemma group_label (r : reg) (v : alias) : In (Name r v) (Wr.group r).
Proof. unfold Wr.group. destruct v; in_list. Qed.

(** A word store to a view of a group that ends with [goto irq]. *)
Lemma bank_write (r : reg) (v : alias) (s : pic32_t) (b : Z) :
  In (Wr.WRITEOP r Wr.goto_irq) Wr.cases ->
  0 <= VALUE s r < 2 ^ 32 -> 0 <= b < 2 ^ 32 ->
  pic32_io_write s (offset_of (Name r v)) b 4 =
    Return tt (log (IO_write b (Name r v))
                 (update_irq_status (assign r (alias_rule v (VALUE s r) b) s))).
Proof.
  intros Hc Ha Hb.
  destruct (alias_write_applies_rule r Wr.goto_irq v s b Hc Ha Hb) as [_ E].
  assert (W : word_offset (offset_of (Name r v)) = true)
    by (apply (write_label_word (Wr.WRITEOP r Wr.goto_irq)); [exact Hc | apply group_label]).
  unfold pic32_io_write. rewrite (word_address _ W), (u32_small b Hb), E. reflexivity.
Qed.

Lemma same_banks_log (m : message) (s : pic32_t) : same_banks (log m s) s.
Proof. unfold same_banks, VALUE. rewrite iomem_log. now split. Qed.

Lemma settled_log (m : message) (s : pic32_t) : settled s -> settled (log m s).
Proof.
  unfold settled, VALUE. rewrite (arbitrate_banks _ _ (same_banks_log m s)).
  now rewrite iomem_log, CP0_Cause_log.
Qed.

(** X7: a store into the interrupt controller re-arbitrates.  For
    every flag, enable and priority register (IFS0-5, IEC0-5,
    IPC0-47, the groups that end with [goto irq]), each of its four
    views, every state in which the register holds a word and every
    word [b]: the word store returns, the register holds the value
    of the view's rule, no cell but the register and INTSTAT has
    changed, and INTSTAT and Cause.RIPL show the arbitration of the
    banks as they are after the store. *)
Theorem bank_store_rearbitrates (r : reg) (v : alias) (s : pic32_t) (b : Z) :
  In (Wr.WRITEOP r Wr.goto_irq) Wr.cases ->
  0 <= VALUE s r < 2 ^ 32 -> 0 <= b < 2 ^ 32 ->
  exists s',
    pic32_io_write s (offset_of (Name r v)) b 4 = Return tt s' /\
    VALUE s' r = alias_rule v (VALUE s r) b /\
    (forall a, a <> offset_of r -> a <> offset_of INTSTAT -> iomem s' a = iomem s a) /\
    settled s'.
Proof.
  intros Hc Ha Hb. rewrite (bank_write r v s b Hc Ha Hb).
  eexists. split; [reflexivity | ].
  pose proof (bank_not_INTSTAT r Hc) as N.
  split; [ | split].
  - unfold VALUE at 1. rewrite iomem_log, iomem_update_irq_status by exact N.
    unfold assign. rewrite iomem_store_same. apply u32_small. now apply alias_rule_range.
  - intros a Hr Hi. rewrite iomem_log, iomem_update_irq_status by exact Hi.
    unfold assign. now apply iomem_store_other.
  - apply settled_log, update_settles.
Qed.

(** ** From the request to the acknowledgement *)

Lemma assign_u32 (r : label) (v v' : Z) (s : pic32_t) :
  u32 v = u32 v' -> assign r v s = assign r v' s.
Proof. intros E. unfold assign, store. now rewrite E. Qed.

Lemma bit_word (k : Z) : 0 <= k < 32 -> 0 <= 1 << k < 2 ^ 32.
Proof.
  intros Hk. rewrite Z.shiftl_1_l. split; [apply Z.pow_nonneg; lia | ].
  apply Z.pow_lt_mono_r; lia.
Qed.

(** One requesting source is the one selected, at its level. *)
Lemma single_request (s : pic32_t) (i : Z) :
  source i -> flag s i && enable s i = true -> 0 < priority s i ->
  (forall j, source j -> j <> i -> flag s j && enable s j = false) ->
  arbitrate s = (i, priority s i).
Proof.
  intros Hi Ri Li Oi. pose proof (arbitrate_choice s) as C.
  assert (S : forall j, source j <-> 0 <= j < PIC32_IRQ_LAST + 1) by (unfold source; intros; lia).
  destruct (arbitrate s) as [v p]. cbn [choice] in C.
  destruct C as (_ & _ & PV & PM & _).
  rewrite <- is_pending_spec in Ri by exact Hi.
  assert (Hp : 0 < p) by (pose proof (PM i (proj1 (S i) Hi) Ri); lia).
  destruct (PV Hp) as (Hv & Pv & Lv). apply S in Hv.
  destruct (Z.eq_dec v i) as [-> | Ne]; [now rewrite Lv | ].
  rewrite is_pending_spec, (Oi v Hv Ne) in Pv by exact Hv. discriminate.
Qed.

(** X8: from the request to the acknowledgement.  Let source [i] be
    enabled at a level [p] other than 0, with its flag clear, and
    let no other source have both its flag and its enable bit set.
    After [irq_raise] of [i], INTSTAT holds [i | p << 8] and
    Cause.RIPL holds [p].  When the program then stores the bit of
    the source through the clear view of its flag register, the
    store returns, the flag is clear, and INTSTAT and Cause.RIPL
    hold 0. *)
Theorem request_then_acknowledge (s : pic32_t) (i : Z) :
  source i ->
  flag s i = false -> enable s i = true -> 0 < priority s i ->
  (forall j, source j -> j <> i -> flag s j && enable s j = false) ->
  let t := irq_raise s i in
  VALUE t INTSTAT = i .| (priority s i << 8) /\
  ripl_of (CP0_Cause t) = priority s i /\
  exists u,
    pic32_io_write t (offset_of (Name (IFS (i / 32)) CLR)) (1 << (i mod 32)) 4 = Return tt u /\
    flag u i = false /\
    VALUE u INTSTAT = 0 /\
    ripl_of (CP0_Cause u) = 0.
Proof.
  intros Hi F E L Oi t.
  destruct (source_bank i Hi) as (_ & _ & Hn & Hk).
  assert (Ft : forall j, source j -> flag t j = flag s j || (j =? i) /\ enable t j = enable s j)
    by (intros j Hj; now apply flag_irq_raise).
  assert (Pt : priority t i = priority s i)
    by (apply priority_words; [exact Hi | apply (irq_raise_banks s i Hi)]).
  assert (At : arbitrate t = (i, priority s i)).
  { rewrite <- Pt. apply single_request; [exact Hi | | now rewrite Pt | ].
    - destruct (Ft i Hi) as [-> ->]. now rewrite Z.eqb_refl, orb_true_r, E.
    - intros j Hj Ne. destruct (Ft j Hj) as [-> ->].
      rewrite (proj2 (Z.eqb_neq j i) Ne), orb_false_r. now apply Oi. }
  assert (St : settled t).
  { unfold t. rewrite (irq_raise_eq s i Hi), F. apply update_settles. }
  destruct St as [It Ct]. rewrite At in It, Ct. cbn [fst snd] in It, Ct.
  split; [exact It | split; [exact Ct | ]].
  assert (Wt : 0 <= VALUE t (IFS (i / 32)) < 2 ^ 32).
  { unfold t. destruct (irq_raise_banks s i Hi) as [B _]. destruct (B _ Hn) as [-> _].
    rewrite F, Z.eqb_refl. apply u32_range. }
  rewrite (bank_write _ CLR t _ (IFS_case _ Hn) Wt (bit_word _ Hk)).
  eexists. split; [reflexivity | ]. cbn [alias_rule].
  rewrite (assign_u32 _ _ (VALUE t (IFS (i / 32)) .& u32 (~~ (1 << (i mod 32))))).
  2:{ apply u32_eq. intros b Hb. rewrite !Z.land_spec, u32_testbit.
      destruct (Z.ltb_spec b 32); [reflexivity | lia]. }
  set (c := assign _ _ t).
  assert (Fc : forall j, source j -> flag c j && enable c j = false).
  { intros j Hj. destruct (flag_clear t i j Hi Hj) as [Fj Ej]. fold c in Fj, Ej.
    rewrite Fj, Ej. destruct (Ft j Hj) as [-> ->].
    destruct (Z.eqb_spec j i) as [-> | Ne]; cbn [negb].
    - now rewrite andb_false_r.
    - rewrite orb_false_r, andb_true_r. now apply Oi. }
  pose proof (no_request c Fc) as Ac.
  destruct (update_settles c) as [Iu Cu]. rewrite arbitrate_update, Ac in Iu, Cu.
  cbn [fst snd] in Iu, Cu.
  split; [ | split].
  - destruct (flag_banks _ _ i (same_banks_log (IO_write (1 << (i mod 32)) (Name (IFS (i / 32)) CLR))
                                  (update_irq_status c)) Hi) as [-> _].
    destruct (flag_banks _ _ i (same_banks_update c) Hi) as [<- _].
    destruct (flag_clear t i i Hi Hi) as [Fi _]. fold c in Fi.
    now rewrite Fi, Z.eqb_refl, andb_false_r.
  - unfold VALUE. rewrite iomem_log. exact Iu.
  - rewrite CP0_Cause_log. exact Cu.
Qed.

(** ** Two stores through the views of a register *)

Lemma alias_write_outcome (r : reg) (k : Wr.body) (v : alias) (s : pic32_t) (b : Z) :
  In (Wr.WRITEOP r k) Wr.cases ->
  k = Wr.return_ \/ k = Wr.goto_irq ->
  0 <= VALUE s r < 2 ^ 32 ->
  0 <= b < 2 ^ 32 ->
  exists s',
    pic32_io_write s (offset_of (Name r v)) b 4 = Return tt s' /\
    VALUE s' r = alias_rule v (VALUE s r) b.
Proof.
  intros Hc Hk Ha Hb.
  destruct (alias_write_applies_rule r k v s b Hc Ha Hb) as [V E].
  assert (W : word_offset (offset_of (Name r v)) = true)
    by (apply (write_label_word (Wr.WRITEOP r k)); [exact Hc | apply group_label]).
  unfold pic32_io_write. rewrite (word_address _ W), (u32_small b Hb), E.
  destruct Hk as [-> | ->]; cbn [write_body finish]; eexists; (split; [reflexivity | ]).
  - unfold VALUE at 1. rewrite iomem_log. exact V.
  - unfold VALUE at 1. rewrite iomem_log, iomem_update_irq_status; [exact V | ].
    now apply bank_not_INTSTAT.
Qed.

(** The rule of a view applied after the rule of a view, on one word [b]. *)
Lemma alias_rule_twice (v w : alias) (a b : Z) :
  alias_rule w (alias_rule v a b) b =
    match v, w with
    | _, PLAIN | PLAIN, SET => b
    | PLAIN, CLR | PLAIN, INV => 0
    | CLR, CLR | SET, CLR | INV, CLR | SET, INV => a .& ~~ b
    | CLR, SET | SET, SET | INV, SET | CLR, INV => a .| b
    | INV, INV => a
    end.
Proof.
  destruct v, w; cbn [alias_rule]; try reflexivity;
    apply Z.bits_inj'; intros i Hi;
    rewrite ?Z.lxor_spec, ?Z.lor_spec, ?Z.land_spec, ?Z.lnot_spec, ?Z.lxor_spec, ?Z.lor_spec,
      ?Z.land_spec, ?Z.lnot_spec, ?Z.bits_0 by lia;
    destruct (Z.testbit a i), (Z.testbit b i); reflexivity.
Qed.

(** X9: two stores of one word through the views of a register.
    For every alias group that calls no peripheral (the body is
    [return] or [goto irq]), a register holding a word [a] and a
    word [b]: after the store of [b] through view [v] and then
    through view [w], both stores have returned and the register
    holds [b] when [w] is the plain view, or [v] is plain and [w]
    is set; 0 when [v] is plain and [w] is clear or invert; and
    when [v] is not plain: [a & ~b] for [w] clear, [a | b] for [w]
    set, and for [w] invert [a | b] after clear, [a & ~b] after
    set and [a] again after invert. *)
Theorem alias_stores_compose (r : reg) (k : Wr.body) (v w : alias) (s : pic32_t) (b : Z) :
  In (Wr.WRITEOP r k) Wr.cases ->
  k = Wr.return_ \/ k = Wr.goto_irq ->
  0 <= VALUE s r < 2 ^ 32 ->
  0 <= b < 2 ^ 32 ->
  exists s1 s2,
    pic32_io_write s (offset_of (Name r v)) b 4 = Return tt s1 /\
    pic32_io_write s1 (offset_of (Name r w)) b 4 = Return tt s2 /\
    VALUE s2 r =
      match v, w with
      | _, PLAIN | PLAIN, SET => b
      | PLAIN, CLR | PLAIN, INV => 0
      | CLR, CLR | SET, CLR | INV, CLR | SET, INV => VALUE s r .& ~~ b
      | CLR, SET | SET, SET | INV, SET | CLR, INV => VALUE s r .| b
      | INV, INV => VALUE s r
      end.
Proof.
  intros Hc Hk Ha Hb.
  destruct (alias_write_outcome r k v s b Hc Hk Ha Hb) as (s1 & E1 & V1).
  assert (R1 : 0 <= VALUE s1 r < 2 ^ 32) by (rewrite V1; now apply alias_rule_range).
  destruct (alias_write_outcome r k w s1 b Hc Hk R1 Hb) as (s2 & E2 & V2).
  exists s1, s2. split; [exact E1 | split; [exact E2 | ]].
  rewrite V2, V1. apply alias_rule_twice.
Qed.

(** ** Narrow loads *)

Lemma halfword_bit (k : Z) : 0 <= k < 4 -> 2 * (k / 2) = if Z.testbit k 1 then 2 else 0.
Proof.
  intros Hk. assert (C : k = 0 \/ k = 1 \/ k = 2 \/ k = 3) by lia.
  destruct C as [-> | [-> | [-> | ->]]]; reflexivity.
Qed.

(** A load from a register whose case in [io_read32] is [break]. *)
Lemma narrow_read (r : reg) (s : pic32_t) (k bytes : Z) :
  In (Rd.STORAGE r Rd.break_) Rd.cases -> 0 <= k < 4 ->
  let w := VALUE s r in
  pic32_io_read s (offset_of r + k) bytes =
    match bytes with
    | 1 => let v := u8 (w >> (8 * k)) in Return v (log (IO_read 1 v r) s)
    | 2 => let v := u16 (w >> (if Z.testbit k 1 then 16 else 0)) in
           Return v (log (IO_read 2 v r) s)
    | _ => Return w (log (IO_read 4 w r) s)
    end.
Proof.
  intros Hr Hk w.
  assert (W : word_offset (offset_of r) = true)
    by (apply (read_label_word _ _ Hr); now left).
  destruct (word_of_address _ k W Hk) as (E1 & E2 & E3).
  pose proof (word_offset_spec _ W) as [_ Hm].
  pose proof (land_halfword _ k Hm Hk) as E4.
  unfold pic32_io_read. rewrite E1, E2, E3, E4.
  unfold io_read32. rewrite (switch_read _ r Hr) by now left.
  cbn [read_body]. fold (VALUE s r). fold w.
  assert (C : k = 0 \/ k = 1 \/ k = 2 \/ k = 3) by lia.
  destruct bytes as [ | [ [ | | ] | [ | | ] | ] | ]; try reflexivity;
    destruct C as [-> | [-> | [-> | ->]]]; reflexivity.
Qed.

(** The bits of byte [k] of a word, in place. *)
Lemma byte_lane_bit (w k i : Z) :
  0 <= k -> 0 <= i ->
  Z.testbit (u8 (w >> (8 * k)) << (8 * k)) i =
    (8 * k <=? i) && (i <? 8 * k + 8) && Z.testbit w i.
Proof.
  intros Hk Hi. destruct (Z.leb_spec (8 * k) i) as [Le | Lt]; cbn [andb].
  - rewrite Z.shiftl_spec by lia. unfold u8.
    destruct (Z.ltb_spec i (8 * k + 8)) as [Lt | Ge]; cbn [andb].
    + rewrite Z.mod_pow2_bits_low, Z.shiftr_spec by lia. f_equal. lia.
    + apply Z.mod_pow2_bits_high. lia.
  - apply Z.shiftl_spec_low. lia.
Qed.

(** A word is its four bytes. *)
Lemma word_bytes (w : Z) :
  0 <= w < 2 ^ 32 ->
  w = u8 (w >> (8 * 0)) << (8 * 0) .| (u8 (w >> (8 * 1)) << (8 * 1)) .|
      (u8 (w >> (8 * 2)) << (8 * 2)) .| (u8 (w >> (8 * 3)) << (8 * 3)).
Proof.
  intros Hw. apply Z.bits_inj'. intros i Hi.
  rewrite !Z.lor_spec, !byte_lane_bit by lia.
  destruct (Z.ltb_spec i 32) as [Lt | Ge].
  - assert (C : i < 8 \/ 8 <= i < 16 \/ 16 <= i < 24 \/ 24 <= i) by lia.
    destruct (Z.testbit w i); [ | now rewrite !andb_false_r].
    rewrite !andb_true_r.
    repeat match goal with
           | |- context [?a <=? ?b] => destruct (Z.leb_spec a b); try lia
           | |- context [?a <? ?b] => destruct (Z.ltb_spec a b); try lia
           end; reflexivity.
  - rewrite (testbit_high w i Hw Ge). now rewrite !andb_false_r.
Qed.

(** X10: a narrow load extracts its bytes.  For every register
    whose case in [io_read32] is [break], every state and every
    byte [k] of its word: the byte load at offset + [k] returns byte
    [k] of the word the register holds, the half-word load returns
    the upper half when bit 1 of [k] is set and the lower half
    otherwise, and a load of any other width returns the whole
    word, whatever [k] is.  The load only writes on the log: no
    cell changes.  When the register holds a word, the word is the
    four bytes the byte loads return, each in its lane. *)
Theorem narrow_load_extracts (r : reg) (s : pic32_t) (k bytes : Z) :
  In (Rd.STORAGE r Rd.break_) Rd.cases -> 0 <= k < 4 ->
  let w := VALUE s r in
  exists v s',
    pic32_io_read s (offset_of r + k) bytes = Return v s' /\
    v = match bytes with
        | 1 => u8 (w >> (8 * k))
        | 2 => u16 (w >> (if Z.testbit k 1 then 16 else 0))
        | _ => w
        end /\
    iomem s' = iomem s /\
    (0 <= w < 2 ^ 32 ->
     exists b0 b1 b2 b3 s0 s1 s2 s3,
       pic32_io_read s (offset_of r) 1 = Return b0 s0 /\
       pic32_io_read s (offset_of r + 1) 1 = Return b1 s1 /\
       pic32_io_read s (offset_of r + 2) 1 = Return b2 s2 /\
       pic32_io_read s (offset_of r + 3) 1 = Return b3 s3 /\
       w = b0 .| (b1 << 8) .| (b2 << 16) .| (b3 << 24)).
Proof.
  intros Hr Hk w.
  pose proof (narrow_read r s k bytes Hr Hk) as E. cbv zeta in E. fold w in E.
  assert (R : exists v s',
            pic32_io_read s (offset_of r + k) bytes = Return v s' /\
            v = match bytes with
                | 1 => u8 (w >> (8 * k))
                | 2 => u16 (w >> (if Z.testbit k 1 then 16 else 0))
                | _ => w
                end /\
            iomem s' = iomem s).
  { rewrite E. destruct bytes as [ | [ [ | | ] | [ | | ] | ] | ];
      do 2 eexists; (split; [reflexivity | split; [reflexivity | apply iomem_log]]). }
  destruct R as (v & s' & E1 & E2 & E3). exists v, s'.
  split; [exact E1 | split; [exact E2 | split; [exact E3 | ]]].
  intros Hw.
  pose proof (narrow_read r s 0 1 Hr) as R0. rewrite Z.add_0_r in R0.
  pose proof (narrow_read r s 1 1 Hr) as R1.
  pose proof (narrow_read r s 2 1 Hr) as R2.
  pose proof (narrow_read r s 3 1 Hr) as R3.
  cbv zeta in R0, R1, R2, R3. fold w in R0, R1, R2, R3.
  do 8 eexists.
  split; [apply R0; lia | ]. split; [apply R1; lia | ].
  split; [apply R2; lia | ]. split; [apply R3; lia | ].
  exact (word_bytes w Hw).
Qed.

(** ** A narrow store read back *)

(** A store into a register whose case in [io_write32] only stores. *)
Lemma narrow_write (r : reg) (b : Wr.body) (s : pic32_t) (k v bytes : Z) :
  In (Wr.STORAGE r b) Wr.cases -> Wr.stores_only b = true ->
  0 <= k < 4 -> bytes = 1 \/ bytes = 2 \/ bytes = 4 ->
  let d := match bytes with
           | 1 => u8 v << (8 * k)
           | 2 => u16 v << (if Z.testbit k 1 then 16 else 0)
           | _ => u32 v
           end in
  pic32_io_write s (offset_of r + k) v bytes =
    Return tt (log (IO_write d r) (store (offset_of r) d s)) /\
  0 <= d < 2 ^ 32.
Proof.
  intros Hw Hs Hk Hb d.
  assert (W : word_offset (offset_of r) = true)
    by (apply (write_label_word _ _ Hw); now left).
  destruct (word_of_address _ k W Hk) as (E1 & E2 & E3).
  pose proof (word_offset_spec _ W) as [_ Hm].
  pose proof (land_halfword _ k Hm Hk) as E4.
  pose proof (positioned_range v k bytes Hk) as R.
  assert (D : match bytes with
              | 1 => u8 v << (k * 8)
              | 2 => u16 v << (2 * (k / 2) * 8)
              | _ => u32 v
              end = d).
  { unfold d. destruct Hb as [-> | [-> | ->]]; [f_equal; lia | | reflexivity].
    rewrite (halfword_bit k Hk). now destruct (Z.testbit k 1). }
  rewrite D in R. split; [ | exact R].
  unfold pic32_io_write. rewrite E1, E2, E3, E4.
  assert (D' : u32 match bytes with
                   | 1 => u8 v << (k * 8)
                   | 2 => u16 v << (2 * (k / 2) * 8)
                   | _ => v
                   end = d).
  { rewrite <- D. destruct Hb as [-> | [-> | ->]]; [ | | reflexivity];
      rewrite D; now apply u32_small. }
  rewrite D'. unfold io_write32. rewrite (switch_write _ r Hw) by now left.
  assert (B : write_body b s (offset_of r) d = Break d s)
    by (destruct b; try discriminate Hs; reflexivity).
  rewrite B. reflexivity.
Qed.

Lemma byte_back (v k : Z) : 0 <= k -> u8 ((u8 v << k) >> k) = u8 v.
Proof.
  intros Hk. rewrite Z.shiftr_shiftl_l, Z.sub_diag, Z.shiftl_0_r by lia.
  unfold u8. now rewrite Z.mod_mod by lia.
Qed.

Lemma halfword_back (v k : Z) : 0 <= k -> u16 ((u16 v << k) >> k) = u16 v.
Proof.
  intros Hk. rewrite Z.shiftr_shiftl_l, Z.sub_diag, Z.shiftl_0_r by lia.
  unfold u16. now rewrite Z.mod_mod by lia.
Qed.

(** X11: a narrow store reads back.  For every register that is
    plain storage in both switches, every byte [k] of its word and
    every width in 1, 2, 4: the store of [v] at offset + [k]
    followed by the load of the same width at the same address
    returns [v] truncated to the width. *)
Theorem narrow_store_reads_back (r : reg) (b : Wr.body) (s : pic32_t) (k v bytes : Z) :
  In (Wr.STORAGE r b) Wr.cases ->
  Wr.stores_only b = true ->
  In (Rd.STORAGE r Rd.break_) Rd.cases ->
  0 <= k < 4 ->
  bytes = 1 \/ bytes = 2 \/ bytes = 4 ->
  exists s' s'',
    pic32_io_write s (offset_of r + k) v bytes = Return tt s' /\
    pic32_io_read s' (offset_of r + k) bytes =
      Return (match bytes with 1 => u8 v | 2 => u16 v | _ => u32 v end) s''.
Proof.
  intros Hw Hs Hr Hk Hb.
  destruct (narrow_write r b s k v bytes Hw Hs Hk Hb) as [E R].
  set (d := match bytes with
            | 1 => u8 v << (8 * k)
            | 2 => u16 v << (if Z.testbit k 1 then 16 else 0)
            | _ => u32 v
            end) in E, R.
  cbv zeta in E, R.
  assert (V : VALUE (log (IO_write d r) (store (offset_of r) d s)) r = d)
    by (unfold VALUE; now rewrite iomem_log, iomem_store_same, (u32_small _ R)).
  exists (log (IO_write d r) (store (offset_of r) d s)).
  rewrite (narrow_read r _ k bytes Hr Hk). cbv zeta. rewrite V. unfold d.
  destruct Hb as [-> | [-> | ->]]; eexists; (split; [exact E | ]).
  - rewrite byte_back by lia. reflexivity.
  - rewrite halfword_back by (destruct (Z.testbit k 1); lia). reflexivity.
  - reflexivity.
Qed.

(** X22: a store through a view is read back from the register.
    For every alias group that calls no peripheral and whose
    register has the case [break] in [io_read32], a register
    holding a word [a] and a word [b]: after the word store of [b]
    through a view, the word load from the register returns the
    value of the view's rule: [b], [a & ~b], [a | b] or [a ^ b]. *)
Theorem view_store_then_load (r : reg) (k : Wr.body) (v : alias) (s : pic32_t) (b : Z) :
  In (Wr.WRITEOP r k) Wr.cases ->
  k = Wr.return_ \/ k = Wr.goto_irq ->
  In (Rd.STORAGE r Rd.break_) Rd.cases ->
  0 <= VALUE s r < 2 ^ 32 ->
  0 <= b < 2 ^ 32 ->
  exists s' s'',
    pic32_io_write s (offset_of (Name r v)) b 4 = Return tt s' /\
    pic32_io_read s' (offset_of r) 4 =
      Return match v with
             | PLAIN => b
             | CLR => VALUE s r .& ~~ b
             | SET => VALUE s r .| b
             | INV => VALUE s r .^ b
             end s''.
Proof.
  intros Hc Hk Hr Ha Hb.
  destruct (alias_write_outcome r k v s b Hc Hk Ha Hb) as (s' & E & V).
  exists s'. eexists. split; [exact E | ].
  pose proof (narrow_read r s' 0 4 Hr) as R. rewrite Z.add_0_r in R.
  rewrite R by lia. cbv zeta. rewrite V. destruct v; reflexivity.
Qed.

(** ** The software reset register *)

Lemma RSWRST_read_case : In (Rd.STORAGE RSWRST Rd.RSWRST_stop) Rd.cases.
Proof. unfold Rd.cases. in_list. Qed.

Lemma stop_on_reset_log (m : message) (s : pic32_t) : stop_on_reset (log m s) = stop_on_reset s.
Proof. unfold log. now destruct (log_instr s). Qed.

Lemma truth_bit_0 (x : Z) : truth (x .& 1) = Z.testbit x 0.
Proof. rewrite <- (Z.shiftr_0_r x) at 1. now apply truth_shiftr_bit. Qed.

(** A load from the word of RSWRST. *)
Lemma RSWRST_read (s : pic32_t) (k bytes : Z) :
  0 <= k < 4 ->
  if Z.testbit (VALUE s RSWRST) 0 && truth (stop_on_reset s)
  then pic32_io_read s (offset_of RSWRST + k) bytes = Exit 0 s
  else exists w s', pic32_io_read s (offset_of RSWRST + k) bytes = Return w s' /\
                    iomem s' = iomem s.
Proof.
  intros Hk.
  assert (W : word_offset (offset_of RSWRST) = true)
    by (apply (read_label_word _ _ RSWRST_read_case); now left).
  destruct (word_of_address _ k W Hk) as (E1 & E2 & _).
  unfold pic32_io_read. rewrite E1, E2.
  unfold io_read32. rewrite (switch_read _ RSWRST RSWRST_read_case) by now left.
  cbn [read_body]. rewrite truth_bit_0.
  destruct (Z.testbit (VALUE s RSWRST) 0 && truth (stop_on_reset s)); [reflexivity | ].
  destruct bytes as [ | [ [ | | ] | [ | | ] | ] | ];
    do 2 eexists; (split; [reflexivity | apply iomem_log]).
Qed.

(** X12: how a software reset stops the simulation.  In every state
    with [stop_on_reset] set, as [pic32_init] sets it, a load of any
    width from the word of RSWRST ends the simulation with status 0
    when bit 0 of RSWRST is set, and returns without changing a cell
    when it is clear.  Hence, with the unlock state machine not in
    state 2, after the word store of [data] to RSWRST, which only
    stores, the next load from RSWRST exits with status 0 if bit 0
    of [data] is set and returns if it is clear. *)
Theorem software_reset_stops_simulation (s : pic32_t) (data k bytes : Z) :
  stop_on_reset s <> 0 -> 0 <= k < 4 ->
  (Z.testbit (VALUE s RSWRST) 0 = true ->
     pic32_io_read s (offset_of RSWRST + k) bytes = Exit 0 s) /\
  (Z.testbit (VALUE s RSWRST) 0 = false ->
     exists w s', pic32_io_read s (offset_of RSWRST + k) bytes = Return w s' /\
                  iomem s' = iomem s) /\
  (syskey_unlock s <> 2 ->
     exists s',
       pic32_io_write s (offset_of RSWRST) data 4 = Return tt s' /\
       (Z.testbit data 0 = true ->
          pic32_io_read s' (offset_of RSWRST + k) bytes = Exit 0 s') /\
       (Z.testbit data 0 = false ->
          exists w s'', pic32_io_read s' (offset_of RSWRST + k) bytes = Return w s'')).
Proof.
  intros St Hk.
  assert (T : forall t, stop_on_reset t = stop_on_reset s -> truth (stop_on_reset t) = true).
  { intros t ->. unfold truth. now destruct (Z.eqb_spec (stop_on_reset s) 0). }
  pose proof (RSWRST_read s k bytes Hk) as R. rewrite (T s eq_refl), andb_true_r in R.
  split; [intros B; now rewrite B in R | ].
  split; [intros B; now rewrite B in R | ].
  intros U.
  assert (W : word_offset (offset_of RSWRST) = true)
    by (apply (write_label_word _ _ RSWRST_case); now left).
  unfold pic32_io_write. rewrite (word_address _ W).
  unfold io_write32. rewrite (switch_write _ RSWRST RSWRST_case) by now left.
  cbn [write_body finish].
  replace (syskey_unlock (op RSWRST s (offset_of RSWRST) (u32 data)) =? 2) with false
    by (symmetry; now apply Z.eqb_neq).
  cbn [andb]. eexists. split; [reflexivity | ].
  set (s' := log _ _).
  pose proof (RSWRST_read s' k bytes Hk) as R'.
  assert (V : Z.testbit (VALUE s' RSWRST) 0 = Z.testbit data 0).
  { unfold s', VALUE. rewrite iomem_log, iomem_store_same, !u32_testbit. reflexivity. }
  rewrite V, T, andb_true_r in R' by (unfold s'; now rewrite stop_on_reset_log).
  split; intros B; rewrite B in R'; [exact R' | ].
  destruct R' as (w & s'' & E & _). now exists w, s''.
Qed.

(** ** The clock control register *)

Lemma RTCCON_case : In (Wr.WRITEOPR RTCCON Wr.RTCC_readonly Wr.RTCCON_clkon) Wr.cases.
Proof. unfold Wr.cases. in_list. Qed.

Lemma land_absorb (x c : Z) : (x .| c) .& c = c.
Proof.
  apply Z.bits_inj'. intros i Hi. rewrite Z.land_spec, Z.lor_spec.
  destruct (Z.testbit x i), (Z.testbit c i); reflexivity.
Qed.

Lemma land_lnot_same (x c : Z) : (x .& ~~ c) .& c = 0.
Proof.
  apply Z.bits_inj'. intros i Hi. rewrite !Z.land_spec, Z.lnot_spec, Z.bits_0 by lia.
  destruct (Z.testbit x i), (Z.testbit c i); reflexivity.
Qed.

(** X13: the clock runs when the calendar is on.  With the mask
    [PIC32_RTCC_CLKON] a word: for every state, every view of
    RTCCON and every data, the word store returns, and in the value
    it leaves in RTCCON the CLKON bits are set when an ON bit is
    set and clear when none is, whatever the program stored into
    CLKON. *)
Theorem RTCCON_clock_follows_on (v : alias) (s : pic32_t) (data : Z) :
  0 <= PIC32_RTCC_CLKON < 2 ^ 32 ->
  exists s',
    pic32_io_write s (offset_of (Name RTCCON v)) data 4 = Return tt s' /\
    VALUE s' RTCCON .& PIC32_RTCC_CLKON =
      if truth (VALUE s' RTCCON .& PIC32_RTCC_ON) then PIC32_RTCC_CLKON else 0.
Proof.
  intros Hc.
  assert (Hl : forall a, In (Name RTCCON a) (Wr.labels (Wr.WRITEOPR RTCCON Wr.RTCC_readonly Wr.RTCCON_clkon)))
    by (intros a; apply group_label).
  assert (W : forall a, word_offset (offset_of (Name RTCCON a)) = true)
    by (intros a; now apply (write_label_word _ _ RTCCON_case)).
  assert (A : addr RTCCON mod 16 = 0).
  { pose proof groups_aligned as G. rewrite forallb_forall in G.
    pose proof (G _ RTCCON_case) as Ga. now apply Z.eqb_eq in Ga. }
  assert (Hop : forall a, s32 (offset_of (Name RTCCON a)) .& 0xc = disp a).
  { intros a. destruct (word_offset_spec _ (W a)) as [Wa _].
    rewrite s32_small by (change (2 ^ 20) with 1048576 in Wa; change (2 ^ 31) with 2147483648; lia).
    now apply group_displacement. }
  unfold pic32_io_write. rewrite (word_address _ (W v)).
  unfold io_write32. rewrite (switch_write _ _ RTCCON_case (Hl v)).
  cbn [write_body finish]. eexists. split; [reflexivity | ].
  set (s1 := opr _ _ _ _ _).
  assert (R1 : 0 <= VALUE s1 RTCCON < 2 ^ 32).
  { unfold s1, opr, VALUE, assign. rewrite iomem_store_same. apply u32_range. }
  unfold RTCCONSET, RTCCONCLR.
  rewrite (write_op_rule _ _ _ SET R1 Hc (Hop SET)), (write_op_rule _ _ _ CLR R1 Hc (Hop CLR)).
  set (x := VALUE s1 RTCCON) in *. set (c := PIC32_RTCC_CLKON) in *.
  set (t := log _ _).
  assert (V : VALUE t RTCCON = if truth (x .& PIC32_RTCC_ON) then x .| c else x .& ~~ c).
  { unfold t, VALUE. rewrite iomem_log.
    destruct (truth (x .& PIC32_RTCC_ON)); unfold assign; rewrite iomem_store_same.
    - exact (u32_small _ (alias_rule_range SET _ _ R1 Hc)).
    - exact (u32_small _ (alias_rule_range CLR _ _ R1 Hc)). }
  rewrite V. destruct (truth (x .& PIC32_RTCC_ON)) eqn:T.
  - rewrite land_absorb.
    replace (truth ((x .| c) .& PIC32_RTCC_ON)) with true; [reflexivity | ].
    symmetry. unfold truth in *. apply negb_true_iff, Z.eqb_neq. intros E.
    rewrite Z.land_lor_distr_l in E. apply Z.lor_eq_0_iff in E. destruct E as [E _].
    rewrite E in T. discriminate.
  - rewrite land_lnot_same. apply truth_false in T.
    replace ((x .& ~~ c) .& PIC32_RTCC_ON) with 0; [reflexivity | ].
    rewrite <- Z.land_assoc, (Z.land_comm (~~ _)), Z.land_assoc, T. reflexivity.
Qed.

(** ** The port registers *)

(** X14: a store to a port register is a store to its latch.  For
    each of the ten ports (the cases [WRITEOPX(PORTx, LATx)]), each
    view, a latch holding a word and a word [b]: the word store
    through a view of PORTx and the word store through the same view
    of LATx both apply the rule of the view to the latch and hand
    the new value of the latch to [pic32_gpio_write]; they differ
    by the name on the log line only.  The switch stores nothing
    into the cell of PORTx. *)
Theorem port_store_goes_to_latch (r lat : reg) (port : Z) (v : alias) (s : pic32_t) (b : Z) :
  In (Wr.WRITEOPX r lat (Wr.gpio_write port lat)) Wr.cases ->
  In (Wr.WRITEOP lat (Wr.gpio_write port lat)) Wr.cases ->
  0 <= VALUE s lat < 2 ^ 32 ->
  0 <= b < 2 ^ 32 ->
  let x := alias_rule v (VALUE s lat) b in
  let s1 := assign lat x s in
  pic32_io_write s (offset_of (Name r v)) b 4 =
    Return tt (log (IO_write b (Name r v)) (pic32_gpio_write s1 port x)) /\
  pic32_io_write s (offset_of (Name lat v)) b 4 =
    Return tt (log (IO_write b (Name lat v)) (pic32_gpio_write s1 port x)) /\
  VALUE s1 r = VALUE s r.
Proof.
  intros Hx Hc Ha Hb x s1.
  assert (V : VALUE s1 lat = x).
  { unfold s1, VALUE, assign. rewrite iomem_store_same. apply u32_small.
    now apply alias_rule_range. }
  assert (Wx : word_offset (offset_of (Name r v)) = true)
    by (apply (write_label_word _ _ Hx); apply group_label).
  assert (Wl : word_offset (offset_of (Name lat v)) = true)
    by (apply (write_label_word _ _ Hc); apply group_label).
  assert (A : addr r mod 16 = 0).
  { pose proof groups_aligned as G. rewrite forallb_forall in G.
    pose proof (G _ Hx) as Ga. now apply Z.eqb_eq in Ga. }
  assert (Hop : s32 (offset_of (Name r v)) .& 0xc = disp v).
  { destruct (word_offset_spec _ Wx) as [Wa _].
    rewrite s32_small by (change (2 ^ 20) with 1048576 in Wa; change (2 ^ 31) with 2147483648; lia).
    now apply group_displacement. }
  split; [ | split].
  - unfold pic32_io_write. rewrite (word_address _ Wx), (u32_small b Hb).
    unfold io_write32. rewrite (switch_write _ _ Hx (group_label r v)).
    unfold op. rewrite (write_op_rule _ _ _ v Ha Hb Hop). fold x. fold s1.
    cbn [write_body finish]. now rewrite V.
  - destruct (alias_write_applies_rule lat _ v s b Hc Ha Hb) as [_ E].
    unfold pic32_io_write. rewrite (word_address _ Wl), (u32_small b Hb), E.
    fold x. fold s1. cbn [write_body finish]. now rewrite V.
  - unfold s1, VALUE, assign. apply iomem_store_other. intros E.
    destruct (write_cells_apart _ _ r lat Hx (group_label r PLAIN) Hc (group_label lat PLAIN) E)
      as [_ D].
    discriminate.
Qed.

(** ** The two switches compared *)

Lemma reg_code_inv (r : reg) : reg_of_code (reg_code r) = Some r.
Proof. destruct r; reflexivity. Qed.

Lemma reg_eqb_eq (r r' : reg) : reg_eqb r r' = true <-> r = r'.
Proof.
  unfold reg_eqb. split.
  - intros E. pose proof (reg_code_inv r) as I. pose proof (reg_code_inv r') as I'.
    destruct (reg_code r) as [f n], (reg_code r') as [f' n'].
    apply andb_prop in E. destruct E as [Ef En].
    apply Z.eqb_eq in Ef, En. subst f' n'. congruence.
  - intros <-. destruct (reg_code r) as [f n]. now rewrite !Z.eqb_refl.
Qed.

Lemma label_eqb_eq (l l' : label) : label_eqb l l' = true <-> l = l'.
Proof.
  unfold label_eqb, alias_eqb. destruct l as [r a], l' as [r' a']. cbn [base view]. split.
  - intros E. apply andb_prop in E. destruct E as [Er Ea].
    apply reg_eqb_eq in Er. subst r'. f_equal.
    destruct a, a'; try reflexivity; discriminate.
  - intros E. injection E as <- <-. rewrite (proj2 (reg_eqb_eq r r) eq_refl).
    now rewrite Z.eqb_refl.
Qed.

Lemma has_label_in (labels : list label) (l : label) :
  has_label labels l = true <-> In l labels.
Proof.
  unfold has_label. rewrite existsb_exists. split.
  - intros (l' & Hin & E). apply label_eqb_eq in E. now subst l'.
  - intros Hin. exists l. split; [exact Hin | now apply label_eqb_eq].
Qed.

Lemma in_write_labels (l : label) :
  In l io_write32_labels <-> exists c, In (l, c) io_write32_table.
Proof.
  unfold io_write32_labels. rewrite in_map_iff. split.
  - intros ([l' c] & <- & Hin). now exists c.
  - intros (c & Hin). now exists (l, c).
Qed.

Lemma in_read_labels (l : label) :
  In l io_read32_labels <-> exists c, In (l, c) io_read32_table.
Proof.
  unfold io_read32_labels. rewrite in_map_iff. split.
  - intros ([l' c] & <- & Hin). now exists c.
  - intros (c & Hin). now exists (l, c).
Qed.

(** Every label of [io_read32] is a label of [io_write32]. *)
Lemma read_labels_written (l : label) : In l io_read32_labels -> In l io_write32_labels.
Proof.
  assert (F : forallb (has_label io_write32_labels) io_read32_labels = true)
    by (vm_compute; reflexivity).
  rewrite forallb_forall in F. intros Hin. now apply has_label_in, F.
Qed.

(** A label of [io_write32] that is no label of [io_read32] is at
    the offset of no label of [io_read32]. *)
Lemma write_only_offset (l : label) :
  In l io_write32_labels -> ~ In l io_read32_labels ->
  word_offset (offset_of l) = true /\ ~ In (offset_of l) io_read32_offsets.
Proof.
  intros Hw Hr. apply in_write_labels in Hw. destruct Hw as (c & Hc). split.
  - pose proof write_labels_words as W. rewrite forallb_forall in W. apply W.
    now apply (in_map (fun e => offset_of (fst e)) io_write32_table (l, c)).
  - intros Hin. unfold io_read32_offsets in Hin. apply in_map_iff in Hin.
    destruct Hin as ([l' c'] & E & Hin). cbn [fst] in E.
    assert (Hw' : In l' io_write32_labels)
      by (apply read_labels_written, in_read_labels; now exists c').
    apply in_write_labels in Hw'. destruct Hw' as (c'' & Hc'').
    destruct (labels_apart io_write32_table l' l c'' c write_labels_distinct Hc'' Hc E)
      as [-> _].
    apply Hr, in_read_labels. now exists c'.
Qed.

(** X15: what can be stored but not loaded.  Every label of
    [io_read32] is a label of [io_write32].  Of the registers with a
    case in [io_write32], IPTMR alone has none in [io_read32]; and
    no clear, set or invert view of a flag, enable or priority
    register (IFS0-5, IEC0-5, IPC0-47) has one.  A load of any width
    from the word of a label that [io_write32] has and [io_read32]
    has not prints the diagnostic for an unsupported read and ends
    the simulation with status 1. *)
Theorem stored_but_not_loaded :
  (forall l, In l io_read32_labels -> In l io_write32_labels) /\
  (forall r : reg, In (canonical r) io_write32_labels -> r <> IPTMR ->
     In (canonical r) io_read32_labels) /\
  In (canonical IPTMR) io_write32_labels /\
  ~ In (canonical IPTMR) io_read32_labels /\
  (forall r v, In (Wr.WRITEOP r Wr.goto_irq) Wr.cases -> v <> PLAIN ->
     In (Name r v) io_write32_labels /\ ~ In (Name r v) io_read32_labels) /\
  (forall l s k bytes,
     In l io_write32_labels -> ~ In l io_read32_labels -> 0 <= k < 4 ->
     pic32_io_read s (offset_of l + k) bytes =
       Exit 1 (log (Read_not_supported (offset_of l))
                 (emit (printf (Read_not_supported (offset_of l))) s))).
Proof.
  split; [exact read_labels_written | ].
  split.
  { assert (F : forallb (fun l => match view l with
                                  | PLAIN => reg_eqb (base l) IPTMR || has_label io_read32_labels l
                                  | _ => true
                                  end) io_write32_labels = true)
      by (vm_compute; reflexivity).
    rewrite forallb_forall in F. intros r Hw Ne. specialize (F _ Hw). cbn [view base canonical] in F.
    apply orb_prop in F. destruct F as [F | F]; [now apply reg_eqb_eq in F | now apply has_label_in]. }
  split; [apply has_label_in; vm_compute; reflexivity | ].
  split.
  { intros Hin. apply has_label_in in Hin. vm_compute in Hin. discriminate. }
  split.
  { assert (F : forallb (fun c => match c with
                                  | Wr.WRITEOP r Wr.goto_irq =>
                                      forallb (fun v => negb (has_label io_read32_labels (Name r v)))
                                        [CLR; SET; INV]
                                  | _ => true
                                  end) Wr.cases = true)
      by (vm_compute; reflexivity).
    rewrite forallb_forall in F. intros r v Hc Hv. specialize (F _ Hc). cbn beta iota in F.
    rewrite forallb_forall in F. split.
    - apply in_write_labels. exists (Wr.WRITEOP r Wr.goto_irq).
      apply in_write_table; [exact Hc | apply group_label].
    - intros Hin. apply has_label_in in Hin.
      assert (Hv' : In v [CLR; SET; INV]) by (destruct v; [easy | in_list ..]).
      specialize (F _ Hv'). now rewrite Hin in F. }
  intros l s k bytes Hw Hr Hk.
  destruct (write_only_offset l Hw Hr) as [W N].
  destruct (word_of_address _ k W Hk) as (E1 & E2 & _).
  unfold pic32_io_read. rewrite E1, E2.
  unfold io_read32. now rewrite (switch_default io_read32_table _ N).
Qed.

(** ** The device reset *)

(** *** What the reset leaves alone *)

Lemma reset_frame_nil (s : pic32_t) (a : Z) :
  ~ In a [] -> iomem (fold_left (fun s statement => statement s) [] s) a = iomem s a.
Proof. reflexivity. Qed.

Lemma reset_frame_step (f : pic32_t -> pic32_t) (o : Z)
    (fs : list (pic32_t -> pic32_t)) (B : list Z) :
  (forall s a, a <> o -> iomem (f s) a = iomem s a) ->
  (forall s a, ~ In a B -> iomem (fold_left (fun s statement => statement s) fs s) a = iomem s a) ->
  forall s a, ~ In a (o :: B) ->
    iomem (fold_left (fun s statement => statement s) (f :: fs) s) a = iomem s a.
Proof.
  intros Hf Hfs s a Ha. cbn [fold_left].
  rewrite Hfs by (intros Hin; apply Ha; now right).
  apply Hf. intros E. apply Ha. now left.
Qed.

Lemma reset_frame_skip (f : pic32_t -> pic32_t)
    (fs : list (pic32_t -> pic32_t)) (B : list Z) :
  (forall s, iomem (f s) = iomem s) ->
  (forall s a, ~ In a B -> iomem (fold_left (fun s statement => statement s) fs s) a = iomem s a) ->
  forall s a, ~ In a B ->
    iomem (fold_left (fun s statement => statement s) (f :: fs) s) a = iomem s a.
Proof. intros Hf Hfs s a Ha. cbn [fold_left]. now rewrite Hfs, Hf. Qed.

(** A statement of [io_reset] stores into the cell of its register only. *)
Ltac reset_statement_frame :=
  let s := fresh "s" in
  let a := fresh "a" in
  let Ha := fresh "Ha" in
  intros s a Ha;
  first
    [ apply iomem_store_other; exact Ha
    | unfold SPLLCON_of_board, PORTB_of_board, LATC_of_board;
      destruct (board_type s); try reflexivity; apply iomem_store_other; exact Ha ].

Lemma io_reset_frame (s : pic32_t) (a : Z) :
  ~ In a (map (fun r : reg => offset_of r) reset_registers) ->
  iomem (io_reset s) a = iomem s a.
Proof.
  revert s a. unfold io_reset, io_reset_body, reset_registers. cbn [map].
  repeat first [ apply reset_frame_skip; [reflexivity | ]
               | apply reset_frame_step; [reset_statement_frame | ] ].
  exact reset_frame_nil.
Qed.

Lemma io_reset_fields (s : pic32_t) :
  syskey_unlock (io_reset s) = 0 /\
  spi (io_reset s) = map (fun _ => (0, 0)) (spi s) /\
  board_type (io_reset s) = board_type s /\
  stop_on_reset (io_reset s) = stop_on_reset s /\
  CP0_Cause (io_reset s) = CP0_Cause s /\
  log_instr (io_reset s) = log_instr s /\
  trace (io_reset s) = trace s /\
  gmtime_now (io_reset s) = host_clock s 0 /\
  (forall n, host_clock (io_reset s) n = host_clock s (S n)).
Proof.
  destruct s as [m u b st sp c l h g tr]. destruct b; repeat split; reflexivity.
Qed.

(** *** What the reset forgets *)

Lemma agree_nil (A : list Z) (s t : pic32_t) :
  agree A s t ->
  agree A (fold_left (fun s statement => statement s) [] s)
          (fold_left (fun s statement => statement s) [] t).
Proof. now intros Ag. Qed.

Lemma agree_step (f : pic32_t -> pic32_t) (o : Z)
    (fs : list (pic32_t -> pic32_t)) (A B : list Z) :
  (forall s t, agree A s t -> agree (o :: A) (f s) (f t)) ->
  (forall s t, agree (o :: A) s t ->
     agree B (fold_left (fun s statement => statement s) fs s)
             (fold_left (fun s statement => statement s) fs t)) ->
  forall s t, agree A s t ->
    agree B (fold_left (fun s statement => statement s) (f :: fs) s)
            (fold_left (fun s statement => statement s) (f :: fs) t).
Proof. intros Hf Hfs s t Ag. cbn [fold_left]. now apply Hfs, Hf. Qed.

Lemma agree_skip (f : pic32_t -> pic32_t)
    (fs : list (pic32_t -> pic32_t)) (A B : list Z) :
  (forall s t, agree A s t -> agree A (f s) (f t)) ->
  (forall s t, agree A s t ->
     agree B (fold_left (fun s statement => statement s) fs s)
             (fold_left (fun s statement => statement s) fs t)) ->
  forall s t, agree A s t ->
    agree B (fold_left (fun s statement => statement s) (f :: fs) s)
            (fold_left (fun s statement => statement s) (f :: fs) t).
Proof. intros Hf Hfs s t Ag. cbn [fold_left]. now apply Hfs, Hf. Qed.

(** Two stores of one word into one cell. *)
Lemma agree_assign (r : reg) (v w : Z) (A : list Z) (s t : pic32_t) :
  agree A s t -> u32 v = u32 w ->
  agree (offset_of r :: A) (assign r v s) (assign r w t).
Proof.
  intros (Hb & Hg & Hc) E. split; [exact Hb | split; [exact Hg | ]].
  intros a Ha. unfold assign. rewrite !iomem_store, E.
  destruct (Z.eqb_spec a (offset_of r)) as [Eq | Ne]; [reflexivity | ].
  apply Hc. destruct Ha as [Ha | Ha]; [congruence | exact Ha].
Qed.

Lemma agree_again (o : Z) (A : list Z) (s t : pic32_t) :
  agree A s t -> In o A -> agree (o :: A) s t.
Proof.
  intros (Hb & Hg & Hc) Ho. split; [exact Hb | split; [exact Hg | ]].
  intros a [<- | Ha]; now apply Hc.
Qed.

(** A statement of [io_reset] stores a value that the board, the
    clock and the cells stored into before it determine. *)
Ltac reset_statement_agree :=
  let s := fresh "s" in
  let t := fresh "t" in
  let Ag := fresh "Ag" in
  let Hb := fresh "Hb" in
  let Hg := fresh "Hg" in
  let Hc := fresh "Hc" in
  intros s t Ag;
  first
    [ now apply agree_assign
    | pose proof Ag as (Hb & Hg & Hc);
      unfold SPLLCON_of_board, RTCTIME_of_clock, RTCDATE_of_clock, PORTB_of_board, LATC_of_board;
      rewrite <- ?Hb, <- ?Hg; try destruct (board_type s);
      first [ now apply agree_assign
            | apply agree_again; [exact Ag | now left]
            | apply agree_assign; [exact Ag | ]; unfold VALUE; rewrite (Hc _ (or_introl eq_refl));
              reflexivity ] ].

(** The statements before the call of [time] read no clock and
    those after it read the [struct tm] only: the reset does what
    its stores do after the call. *)
Lemma clock_first (fs : list (pic32_t -> pic32_t)) :
  Forall (fun f : pic32_t -> pic32_t => forall s, f (time_gmtime s) = time_gmtime (f s)) fs ->
  forall s, fold_left (fun s statement => statement s) fs (time_gmtime s) =
            time_gmtime (fold_left (fun s statement => statement s) fs s).
Proof.
  intros F. induction F as [ | f fs Hf _ IH]; intros s; cbn [fold_left]; [reflexivity | ].
  now rewrite Hf, IH.
Qed.

Lemma io_reset_reads_clock_once (s : pic32_t) :
  io_reset s =
  fold_left (fun s statement => statement s)
    (firstn 16 io_reset_body ++ skipn 17 io_reset_body) (time_gmtime s).
Proof.
  transitivity
    (fold_left (fun s statement => statement s) (skipn 17 io_reset_body)
       (time_gmtime (fold_left (fun s statement => statement s) (firstn 16 io_reset_body) s))).
  - unfold io_reset, io_reset_body. cbn [firstn skipn fold_left]. reflexivity.
  - rewrite fold_left_app. f_equal. symmetry. apply clock_first.
    unfold io_reset_body. cbn [firstn].
    repeat constructor; intros u;
      first [ reflexivity
            | unfold SPLLCON_of_board; cbn [board_type time_gmtime];
              now destruct (board_type u) ].
Qed.

Lemma io_reset_agree (s t : pic32_t) :
  board_type s = board_type t ->
  host_clock s 0 = host_clock t 0 ->
  agree (rev (map (fun r : reg => offset_of r) reset_registers)) (io_reset s) (io_reset t).
Proof.
  intros Hb Hg. rewrite !io_reset_reads_clock_once.
  assert (Ag : agree [] (time_gmtime s) (time_gmtime t))
    by (split; [exact Hb | split; [exact Hg | easy]]).
  revert Ag. generalize (time_gmtime s) (time_gmtime t). clear s t Hb Hg.
  unfold io_reset_body, reset_registers. cbn [firstn skipn map rev app].
  repeat first [ apply agree_skip; [exact (fun s t Ag => Ag) | ]
               | eapply agree_step; [reset_statement_agree | ] ].
  apply agree_nil.
Qed.

(** X16: the reset stores into the cells of its registers only.
    [io_reset] leaves every cell that is not the cell of a register
    it stores into as it was; it locks the unlock state machine,
    empties the FIFOs of every SPI port, takes one reading of the
    host clock, and changes nothing else: not the board type, not
    [stop_on_reset], not the Cause register of the CPU, not the
    trace. *)
Theorem io_reset_stores_into_its_registers_only (s : pic32_t) (a : Z) :
  ~ In a (map (fun r : reg => offset_of r) reset_registers) ->
  iomem (io_reset s) a = iomem s a /\
  syskey_unlock (io_reset s) = 0 /\
  spi (io_reset s) = map (fun _ => (0, 0)) (spi s) /\
  board_type (io_reset s) = board_type s /\
  stop_on_reset (io_reset s) = stop_on_reset s /\
  CP0_Cause (io_reset s) = CP0_Cause s /\
  log_instr (io_reset s) = log_instr s /\
  trace (io_reset s) = trace s /\
  gmtime_now (io_reset s) = host_clock s 0 /\
  (forall n, host_clock (io_reset s) n = host_clock s (S n)).
Proof.
  intros Ha. split; [now apply io_reset_frame | apply io_reset_fields].
Qed.

(** X17: the reset forgets.  After [io_reset], the value of every
    register it stores into is determined by the board type and the
    reading of the host clock that the call takes: two states with
    the same board whose clocks give the same reading next hold the
    same values in these registers after the reset, whatever they
    held before.  Each call reads the clock anew: a second reset in
    a row changes no cell when the clock gives it the reading it
    gave the first. *)
Theorem io_reset_forgets (s t : pic32_t) :
  board_type s = board_type t ->
  host_clock s 0 = host_clock t 0 ->
  (forall r, In r reset_registers -> VALUE (io_reset s) r = VALUE (io_reset t) r) /\
  (host_clock s 1 = host_clock s 0 ->
   forall a, iomem (io_reset (io_reset s)) a = iomem (io_reset s) a).
Proof.
  intros Hb Hg.
  assert (F : forall u v, board_type u = board_type v -> host_clock u 0 = host_clock v 0 ->
              forall a, In a (map (fun r : reg => offset_of r) reset_registers) ->
              iomem (io_reset u) a = iomem (io_reset v) a).
  { intros u v Ub Ug a Ha.
    destruct (io_reset_agree u v Ub Ug) as (_ & _ & Hc).
    apply Hc. now apply in_rev in Ha. }
  split.
  - intros r Hr. unfold VALUE. apply F; [exact Hb | exact Hg | ].
    now apply (in_map (fun r : reg => offset_of r)).
  - intros Same a.
    destruct (in_dec Z.eq_dec a (map (fun r : reg => offset_of r) reset_registers)) as [Hin | Hn].
    + destruct (io_reset_fields s) as (_ & _ & Ub & _ & _ & _ & _ & _ & Uh).
      apply F; [exact Ub | now rewrite Uh | exact Hin].
    + now rewrite !io_reset_frame.
Qed.

(** *** What survives the reset *)

(** A register of [io_write32] that is none of the registers of
    [io_reset] has a cell of its own, when the registers [io_reset]
    stores into without a case in [io_write32] lie outside the
    offsets of the switch. *)
Lemma kept_by_reset (l : label) :
  (forall q, In q reset_only_registers -> ~ In (offset_of q) io_write32_offsets) ->
  In l io_write32_labels ->
  has_label (map canonical reset_registers) l = false ->
  ~ In (offset_of l) (map (fun r : reg => offset_of r) reset_registers).
Proof.
  intros Ho Hw Hn Hin. apply in_map_iff in Hin. destruct Hin as (r & E & Hr).
  apply in_write_labels in Hw. destruct Hw as (c & Hc).
  destruct (has_label io_write32_labels r) eqn:Hl.
  - apply has_label_in, in_write_labels in Hl. destruct Hl as (c' & Hc').
    destruct (labels_apart io_write32_table _ _ _ _ write_labels_distinct Hc' Hc E) as [<- _].
    assert (T : has_label (map canonical reset_registers) r = true)
      by (apply has_label_in; now apply in_map).
    congruence.
  - apply (Ho r).
    + unfold reset_only_registers. apply filter_In. split; [exact Hr | now rewrite Hl].
    + rewrite E. now apply (in_map (fun e => offset_of (fst e)) io_write32_table (l, c)).
Qed.

(** X18: the interrupt state survives the reset.  The registers
    [io_reset] stores into without a case in [io_write32] are those
    of SPI5 and SPI6; when they lie outside the offsets of the
    switch, [io_reset] leaves the flag, enable and priority banks,
    INTSTAT, the device identifier DEVID and the oscillator control
    OSCCON as they were.  A request pending before a reset is still
    pending and still selected after it, and if INTSTAT and
    Cause.RIPL showed the arbitration before, they show it after. *)
Theorem interrupt_state_survives_reset (s : pic32_t) :
  (forall q, In q reset_only_registers -> ~ In (offset_of q) io_write32_offsets) ->
  reset_only_registers =
    [SPI5CON; SPI5STAT; SPI5BRG; SPI6CON; SPI6STAT; SPI6BRG; SPI5CON2; SPI6CON2] /\
  same_banks (io_reset s) s /\
  VALUE (io_reset s) INTSTAT = VALUE s INTSTAT /\
  VALUE (io_reset s) DEVID = VALUE s DEVID /\
  VALUE (io_reset s) OSCCON = VALUE s OSCCON /\
  arbitrate (io_reset s) = arbitrate s /\
  (settled s -> settled (io_reset s)).
Proof.
  intros Ho. split; [vm_compute; reflexivity | ].
  assert (K : forall (c : Wr.case) (r : reg),
            In c Wr.cases -> In (canonical r) (Wr.labels c) ->
            has_label (map canonical reset_registers) r = false ->
            VALUE (io_reset s) r = VALUE s r).
  { intros c r Hc Hl Hn. unfold VALUE. apply io_reset_frame, (kept_by_reset _ Ho); [ | exact Hn].
    apply in_write_labels. exists c. now apply in_write_table. }
  assert (B : same_banks (io_reset s) s).
  { split; [intros n Hn; split | intros n Hn].
    - apply (K _ _ (IFS_case n Hn)); [now left | vm_compute; reflexivity].
    - apply (K _ _ (IEC_case n Hn)); [now left | vm_compute; reflexivity].
    - apply (K _ _ (IPC_case n Hn)); [now left | vm_compute; reflexivity]. }
  assert (I : VALUE (io_reset s) INTSTAT = VALUE s INTSTAT)
    by (apply (K _ _ INTSTAT_case); [now left | vm_compute; reflexivity]).
  split; [exact B | split; [exact I | ]].
  split; [apply (K (Wr.READONLY DEVID)); [unfold Wr.cases; in_list | now left | vm_compute; reflexivity] | ].
  split; [apply (K (Wr.STORAGE OSCCON Wr.break_));
          [unfold Wr.cases; in_list | now left | vm_compute; reflexivity] | ].
  split; [now apply arbitrate_banks | ].
  intros [Si Sc]. unfold settled. rewrite (arbitrate_banks _ _ B), I.
  destruct (io_reset_fields s) as (_ & _ & _ & _ & -> & _). now split.
Qed.

End Properties.

(** ** Binary-coded decimals *)

(** X19: [TOBCD] of a number below 100 is its two decimal digits.
    For [0 <= x < 100] the upper nibble of the code is [x / 10] and
    the lower nibble is [x % 10]; the code is at most 0x99, the
    number is read back as [10 * (bcd >> 4) + (bcd & 15)], and two
    numbers below 100 with the same code are equal. *)
Theorem TOBCD_digits (x y : Z) :
  0 <= x < 100 ->
  TOBCD x >> 4 = x / 10 /\
  TOBCD x .& 0xf = x mod 10 /\
  10 * (TOBCD x >> 4) + (TOBCD x .& 0xf) = x /\
  0 <= TOBCD x <= 0x99 /\
  (0 <= y < 100 -> TOBCD x = TOBCD y -> x = y).
Proof.
  intros Hx.
  assert (E : forall z, 0 <= z < 100 -> TOBCD z = 16 * (z / 10) + z mod 10).
  { intros z Hz. unfold TOBCD. rewrite Z.quot_div_nonneg, Z.rem_mod_nonneg by lia. lia. }
  assert (Hi : TOBCD x >> 4 = x / 10).
  { rewrite (E x Hx), Z.shiftr_div_pow2 by lia. change (2 ^ 4) with 16. divmod. }
  assert (Lo : TOBCD x .& 0xf = x mod 10).
  { change 0xf with (Z.ones 4). rewrite Z.land_ones, (E x Hx) by lia.
    change (2 ^ 4) with 16. divmod. }
  split; [exact Hi | split; [exact Lo | ]].
  split; [rewrite Hi, Lo; divmod | ].
  split; [rewrite (E x Hx); divmod | ].
  intros Hy Eq. rewrite (E x Hx), (E y Hy) in Eq. divmod.
Qed.

(** ** The flash memories *)

Lemma program_index (address : Z) :
  0 <= address -> address .& 0xfffff = address mod 2 ^ 20.
Proof. intros _. change 0xfffff with (Z.ones 20). apply Z.land_ones. lia. Qed.

Lemma boot_index (address : Z) : address .& 0xffff = address mod 2 ^ 16.
Proof. change 0xffff with (Z.ones 16). apply Z.land_ones. lia. Qed.

(** The test of a window of addresses. *)
Lemma window_test (a lo size : Z) :
  (a >=? lo) && (a <? lo + size) = true <-> lo <= a < lo + size.
Proof.
  rewrite Z.geb_leb, andb_true_iff, Z.leb_le, Z.ltb_lt. reflexivity.
Qed.

Lemma window_test_false (a lo size : Z) :
  ~ lo <= a < lo + size -> (a >=? lo) && (a <? lo + size) = false.
Proof.
  intros N. destruct ((a >=? lo) && (a <? lo + size)) eqn:E; [ | reflexivity].
  apply window_test in E. contradiction.
Qed.

(** X20: [store_byte] stores into the two flash memories only.  The
    address is an [unsigned]: for every 32-bit word, an
    address of the 2 Mbytes at [PROGRAM_FLASH_START] stores the byte
    into the program memory at index [address & 0xfffff] and changes
    no other byte of either memory; an address of the 64 kbytes at
    [BOOT_FLASH_START] stores it into the boot memory at the
    distance of the address from [BOOT_FLASH_START], so that every
    address of the boot flash has a byte of its own; any other
    address stores nothing and ends the simulation with the
    diagnostic for a bad hex file.  A value beyond 32 bits is
    converted: it does what its low 32 bits do. *)
Theorem store_byte_windows (f : flash) (address byte : Z) :
  0 <= address < 2 ^ 32 ->
  (PROGRAM_FLASH_START <= address < PROGRAM_FLASH_START + PROGRAM_FLASH_SIZE ->
     exists f',
       store_byte f address byte = Stored f' /\
       prog f' (address .& 0xfffff) = u8 byte /\
       (forall i, i <> address .& 0xfffff -> prog f' i = prog f i) /\
       boot f' = boot f /\
       address .& 0xfffff = (address - PROGRAM_FLASH_START) mod 2 ^ 20) /\
  (BOOT_FLASH_START <= address < BOOT_FLASH_START + BOOT_FLASH_SIZE ->
     exists f',
       store_byte f address byte = Stored f' /\
       boot f' (address - BOOT_FLASH_START) = u8 byte /\
       (forall i, i <> address - BOOT_FLASH_START -> boot f' i = boot f i) /\
       prog f' = prog f) /\
  (~ PROGRAM_FLASH_START <= address < PROGRAM_FLASH_START + PROGRAM_FLASH_SIZE ->
   ~ BOOT_FLASH_START <= address < BOOT_FLASH_START + BOOT_FLASH_SIZE ->
     store_byte f address byte = Bad_hex_file address) /\
  (forall k, store_byte f (address + k * 2 ^ 32) byte = store_byte f address byte).
Proof.
  intros Hw.
  assert (K : forall k, store_byte f (address + k * 2 ^ 32) byte = store_byte f address byte).
  { intros k. unfold store_byte. replace (u32 (address + k * 2 ^ 32)) with (u32 address);
      [reflexivity | unfold u32; now rewrite Z.mod_add]. }
  split; [ | split; [ | split; [ | exact K]]]; clear K;
    unfold store_byte; rewrite (u32_small address Hw); cbv zeta; clear Hw.
  - intros Hp. rewrite (proj2 (window_test _ _ _) Hp).
    unfold PROGRAM_FLASH_START, PROGRAM_FLASH_SIZE in *.
    eexists. split; [reflexivity | ]. cbn [prog boot].
    split; [now rewrite Z.eqb_refl | ].
    split; [intros i Hi; now destruct (Z.eqb_spec i (address .& 1048575)) | ].
    split; [reflexivity | ].
    rewrite program_index by lia. change (2 ^ 20) with 1048576. divmod.
  - intros Hb. rewrite (proj2 (window_test _ _ _) Hb), window_test_false
      by (unfold PROGRAM_FLASH_START, PROGRAM_FLASH_SIZE, BOOT_FLASH_START, BOOT_FLASH_SIZE in *; lia).
    unfold BOOT_FLASH_START, BOOT_FLASH_SIZE in *.
    assert (E : address .& 65535 = address - 532676608)
      by (rewrite boot_index; change (2 ^ 16) with 65536; divmod).
    rewrite E. eexists. split; [reflexivity | ]. cbn [prog boot].
    split; [now rewrite Z.eqb_refl | ].
    split; [intros i Hi; now destruct (Z.eqb_spec i (address - 532676608)) | reflexivity].
  - intros Np Nb. now rewrite !window_test_false.
Qed.

(** X21: the upper half of the program flash folds onto the lower.
    The program flash is 2 Mbytes, and [store_byte] indexes it with
    the low 20 bits of the address: for every address of the first
    Mbyte, a store at the address 1 Mbyte above does what a store at
    the address itself does.  A byte stored in the first Mbyte is
    lost when a byte is then stored 1 Mbyte above it. *)
Theorem program_flash_upper_half_folds (f : flash) (address b1 b2 : Z) :
  PROGRAM_FLASH_START <= address < PROGRAM_FLASH_START + 2 ^ 20 ->
  store_byte f (address + 2 ^ 20) b2 = store_byte f address b2 /\
  exists f1 f2,
    store_byte f address b1 = Stored f1 /\
    store_byte f1 (address + 2 ^ 20) b2 = Stored f2 /\
    prog f2 (address - PROGRAM_FLASH_START) = u8 b2.
Proof.
  intros Ha. unfold PROGRAM_FLASH_START in Ha. change (2 ^ 20) with 1048576 in *.
  assert (I : forall a, 486539264 <= a < 486539264 + 2 * 1048576 ->
              forall g b, store_byte g a b =
                Stored {| prog := fun i => if i =? (a - 486539264) mod 1048576
                                           then u8 b else prog g i;
                          boot := boot g |}).
  { intros a Hr g b. unfold store_byte.
    rewrite (u32_small a) by (change (2 ^ 32) with 4294967296; lia). cbv zeta.
    unfold PROGRAM_FLASH_START, PROGRAM_FLASH_SIZE.
    change (2 * 1024 * 1024) with (2 * 1048576).
    rewrite (proj2 (window_test _ _ _)) by lia.
    rewrite program_index by lia. change (2 ^ 20) with 1048576.
    replace (a mod 1048576) with ((a - 486539264) mod 1048576) by divmod. reflexivity. }
  assert (E : (address + 1048576 - 486539264) mod 1048576 = address - 486539264) by divmod.
  assert (E' : (address - 486539264) mod 1048576 = address - 486539264) by divmod.
  split.
  - rewrite !I by lia. now rewrite E, E'.
  - do 2 eexists. split; [apply I; lia | ]. split; [apply I; lia | ].
    cbn [prog]. unfold PROGRAM_FLASH_START. now rewrite E, Z.eqb_refl.
Qed.

(** ** The theorems on the sample instance *)

#[local] Existing Instance sample_h.
#[local] Existing Instance sample_p.

Lemma sample_ok : header_ok = true.
Proof. vm_compute. reflexivity. Qed.

(** The unlock sequence on the sample machine after reset. *)
Lemma unlock_sequence_stays_locked_witness :
  header_ok = true /\
  syskey_unlock sample_reset = 0 /\
  exists s1 s2 s3,
    pic32_io_write sample_reset (offset_of SYSKEY) 0xaa996655 4
      = Return tt s1 /\
    pic32_io_write s1 (offset_of SYSKEY) 0x556699aa 4 = Return tt s2 /\
    syskey_unlock s2 = 0 /\
    pic32_io_write s2 (offset_of RSWRST) 1 4 = Return tt s3 /\
    syskey_unlock s3 = 0 /\
    (In qemu_system_reset_request (trace s3) ->
     In qemu_system_reset_request (trace sample_reset)).
Proof.
  split; [vm_compute; reflexivity | ].
  split; [vm_compute; reflexivity | ].
  destruct (unlock_sequence_stays_locked sample_ok sample_reset 1)
    as (s1 & s2 & s3 & E1 & E2 & _ & U2 & E3 & U3 & _ & _ & T3);
    [vm_compute; reflexivity | ].
  exists s1, s2, s3. repeat split; assumption.
Defined.

(** The four views of IEC0 on the sample machine, with 0x3C in
    IEC0: the word write of 0x12 leaves 0x12 through the canonical
    offset, 0x2C through the clear alias, 0x3E through the set alias
    and 0x2E through the invert alias. *)
Lemma alias_write_rule_witness :
  let s := assign IEC0 0x3C sample_reset in
  let left_by v :=
    exists s', pic32_io_write s (offset_of (Name IEC0 v)) 0x12 4 = Return tt s' /\
               VALUE s' IEC0 = match v with
                               | PLAIN => 0x12 | CLR => 0x2C | SET => 0x3E | INV => 0x2E
                               end in
  header_ok = true /\
  In (Wr.WRITEOP IEC0 Wr.goto_irq) Wr.cases /\
  VALUE s IEC0 = 0x3C /\
  0 <= VALUE s IEC0 < 2 ^ 32 /\
  0 <= 0x12 < 2 ^ 32 /\
  left_by PLAIN /\ left_by CLR /\ left_by SET /\ left_by INV.
Proof.
  intros s left_by.
  assert (C : In (Wr.WRITEOP IEC0 Wr.goto_irq) Wr.cases) by (unfold Wr.cases; in_list).
  assert (A : 0 <= VALUE s IEC0 < 2 ^ 32) by (vm_compute; split; [discriminate | reflexivity]).
  assert (B : 0 <= 0x12 < 2 ^ 32) by (vm_compute; split; [discriminate | reflexivity]).
  assert (R : forall v, left_by v).
  { intros v.
    destruct (alias_write_rule sample_ok IEC0 Wr.goto_irq v s 0x12 C (or_intror eq_refl) A B)
      as (s' & E & V).
    exists s'. split; [exact E | ]. rewrite V. now destruct v. }
  split; [vm_compute; reflexivity | ].
  split; [exact C | ]. split; [reflexivity | ]. split; [exact A | ]. split; [exact B | ].
  split; [apply R | split; [apply R | split; [apply R | apply R]]].
Defined.

(** C2, the counterexample: RTCCON is a canonical register of an
    alias group, and on the sample machine after reset it holds 0.
    The word write of 0x8000, the ON bit, to its canonical offset
    leaves 0x8040 and not 0x8000: after the rule is applied the case
    sets CLKON, 0x40, because ON is set. *)
Lemma RTCCON_write_leaves_another_word :
  (existsb (fun c => match c with
                     | Wr.WRITEOPR RTCCON _ _ => true
                     | _ => false
                     end) Wr.cases,
   PIC32_RTCC_ON, PIC32_RTCC_CLKON,
   VALUE sample_reset RTCCON,
   match pic32_io_write sample_reset (offset_of RTCCON) 0x8000 4 with
   | Return _ s' => Some (VALUE s' RTCCON)
   | Exit _ _ => None
   end) = (true, 0x8000, 0x0040, 0, Some 0x8040).
Proof. vm_compute. reflexivity. Qed.

(** Two sources of one level on the sample machine: sources 1 and 2
    are flagged and enabled at level 3, and source 1 is selected. *)
Lemma arbitration_selects_highest_level_witness :
  let s := assign IEC0 6 (assign IFS0 6 (assign IPC0 0xC0C00 sample_reset)) in
  header_ok = true /\
  (exists i, source i /\ flag s i && enable s i = true /\ 0 < priority s i) /\
  arbitrate s = (1, 3) /\
  VALUE (update_irq_status s) INTSTAT = 1 .| (3 << 8) /\
  (forall i, source i -> flag s i && enable s i = true -> priority s i <= 3) /\
  (forall i, source i -> flag s i && enable s i = true -> priority s i = 3 -> 1 <= i).
Proof.
  intros s.
  assert (A : arbitrate s = (1, 3)) by (vm_compute; reflexivity).
  assert (E : exists i, source i /\ flag s i && enable s i = true /\ 0 < priority s i).
  { exists 2. split; [unfold source; cbn; lia | ]. split; vm_compute; reflexivity. }
  destruct (arbitration_selects_highest_level sample_ok s) as (I & _ & C & _).
  destruct (C E) as (_ & _ & _ & M & T).
  rewrite A in I, M, T. cbn [fst snd] in I, M, T.
  split; [vm_compute; reflexivity | ].
  split; [exact E | ]. split; [exact A | ]. split; [exact I | ]. split; [exact M | exact T].
Defined.

(** C3, the counterexample: on the sample machine after reset,
    where every priority word is 0, the firmware sets bit 1 of IEC0
    by a word write and a peripheral raises source 1.  Source 1 is
    then the one source with its flag bit and its enable bit set,
    its level is 0, and the arbiter selects vector 0, a source
    whose flag bit is not set, and leaves 0 in INTSTAT. *)
Lemma level_0_source_is_not_selected :
  match pic32_io_write sample_reset (offset_of IEC0) 2 4 with
  | Return _ s =>
      let s := irq_raise s 1 in
      (flag s 1 && enable s 1, priority s 1,
       forallb (fun i => (i =? 1) || negb (flag s i && enable s i)) irqs,
       arbitrate s, flag s 0 && enable s 0, VALUE s INTSTAT)
  | Exit _ _ => (false, 0, false, (0, 0), false, 0)
  end = (true, 0, true, (0, 0), false, 0).
Proof. vm_compute. reflexivity. Qed.

Lemma irq_raise_idempotent_witness :
  header_ok = true /\
  source 5 /\
  irq_raise (irq_raise sample_reset 5) 5 = irq_raise sample_reset 5.
Proof.
  split; [vm_compute; reflexivity | ].
  split; [unfold source; cbn; lia | ].
  apply (irq_raise_idempotent sample_ok). unfold source. cbn. lia.
Defined.

(** The sample machine after reset has no request. *)
Lemma no_request_no_interrupt_witness :
  header_ok = true /\
  (forall i, source i -> flag sample_reset i && enable sample_reset i = false) /\
  arbitrate sample_reset = (0, 0) /\
  VALUE (update_irq_status sample_reset) INTSTAT = 0 /\
  ripl_of (CP0_Cause (update_irq_status sample_reset)) = 0.
Proof.
  assert (N : forall i, source i -> flag sample_reset i && enable sample_reset i = false).
  { assert (F : forallb (fun i => negb (flag sample_reset i && enable sample_reset i)) irqs
                = true) by (vm_compute; reflexivity).
    rewrite forallb_forall in F. intros i Hi.
    apply negb_true_iff, F. now apply (in_irqs sample_ok). }
  split; [vm_compute; reflexivity | ]. split; [exact N | ].
  destruct (no_request_no_interrupt sample_ok sample_reset) as (_ & Z & _).
  exact (Z N).
Defined.

(** A byte written into OSCCON on the sample machine. *)
Lemma narrow_write_replaces_word_witness :
  header_ok = true /\
  In (Wr.STORAGE OSCCON Wr.break_) Wr.cases /\
  Wr.stores_only Wr.break_ = true /\
  In (Rd.STORAGE OSCCON Rd.break_) Rd.cases /\
  0 <= 2 < 4 /\
  (1 = 1 \/ 1 = 2 \/ 1 = 4) /\
  exists s' s'' w,
    pic32_io_write sample_reset (offset_of OSCCON + 2) 0xAB 1 = Return tt s' /\
    pic32_io_read s' (offset_of OSCCON) 4 = Return w s'' /\
    w = 0x00AB0000.
Proof.
  split; [vm_compute; reflexivity | ].
  split; [unfold Wr.cases; in_list | ].
  split; [reflexivity | ].
  split; [unfold Rd.cases; in_list | ].
  split; [lia | ]. split; [now left | ].
  destruct (narrow_write_replaces_word sample_ok OSCCON Wr.break_ sample_reset 2 0xAB 1)
    as (s' & s'' & w & E1 & E2 & E3);
    [unfold Wr.cases; in_list | reflexivity | unfold Rd.cases; in_list | lia | now left | ].
  exists s', s'', w. split; [exact E1 | split; [exact E2 | ]].
  rewrite E3. vm_compute. reflexivity.
Defined.

(** C6, the counterexample: on the sample machine after reset
    OSCCON holds 0x00001120; after the write of the byte 0xAB at
    offset + 2 the word read back is 0x00AB0000: bytes 0 and 1,
    which the write did not address, have gone from 0x20 and 0x11
    to 0. *)
Lemma narrow_write_clears_other_bytes :
  (VALUE sample_reset OSCCON,
   match pic32_io_write sample_reset (offset_of OSCCON + 2) 0xAB 1 with
   | Return _ s' =>
       match pic32_io_read s' (offset_of OSCCON) 4 with
       | Return w _ => Some w
       | Exit _ _ => None
       end
   | Exit _ _ => None
   end) = (0x00001120, Some 0x00AB0000).
Proof. vm_compute. reflexivity. Qed.

(** A read through the clear alias of PB1DIV on the sample machine. *)
Lemma alias_read_is_zero_witness :
  header_ok = true /\
  In (Rd.STORAGE PB1DIVCLR Rd.zero) Rd.cases /\
  CLR <> PLAIN /\
  exists s'',
    pic32_io_read sample_reset (offset_of PB1DIVCLR) 4 = Return 0 s'' /\
    VALUE s'' PB1DIV = VALUE sample_reset PB1DIV.
Proof.
  split; [vm_compute; reflexivity | ].
  split; [unfold Rd.cases; in_list | ].
  split; [discriminate | ].
  destruct (alias_read_is_zero sample_ok PB1DIV CLR Rd.zero sample_reset 4)
    as (s' & s'' & _ & E & _ & V); [unfold Rd.cases; in_list | discriminate | ].
  exists s''. split; [exact E | exact V].
Defined.

(** C7, the counterexample: on the sample machine after reset
    PB1DIV holds 0x00008801, and the word read through its clear
    alias returns 0. *)
Lemma alias_read_differs_from_register :
  (VALUE sample_reset PB1DIV,
   match pic32_io_read sample_reset (offset_of PB1DIVCLR) 4 with
   | Return w _ => Some w
   | Exit _ _ => None
   end) = (0x00008801, Some 0).
Proof. vm_compute. reflexivity. Qed.

(** Offset 0 is no register of the sample header. *)
Lemma unmapped_access_is_fatal_witness :
  ~ In 0 io_read32_offsets /\
  ~ In 0 io_write32_offsets /\
  pic32_io_read sample_reset 0 4 =
    Exit 1 (log (Read_not_supported 0) (emit (printf (Read_not_supported 0)) sample_reset)) /\
  io_write32 sample_reset 0 0x55 =
    Exit 1 (log (Write_not_supported 0x55 0)
              (emit (printf (Write_not_supported 0x55 0)) sample_reset)).
Proof.
  assert (R : ~ In 0 io_read32_offsets) by (apply distinct_not_in; vm_compute; reflexivity).
  assert (W : ~ In 0 io_write32_offsets) by (apply distinct_not_in; vm_compute; reflexivity).
  split; [exact R | split; [exact W | ]].
  destruct (unmapped_access_is_fatal sample_reset 0 0x55 4) as [Hr Hw].
  split; [apply (Hr R) | apply (Hw W)].
Defined.

(** A write to DEVID on the sample machine. *)
Lemma readonly_write_is_discarded_witness :
  header_ok = true /\
  In DEVID readonly_registers /\
  io_write32 sample_reset (offset_of DEVID) 0x1234 =
    Return None (log (Write_readonly 0x1234 DEVID)
                   (emit (printf (Write_readonly 0x1234 DEVID)) sample_reset)) /\
  VALUE (log (Write_readonly 0x1234 DEVID)
           (emit (printf (Write_readonly 0x1234 DEVID)) sample_reset)) DEVID
    = VALUE sample_reset DEVID.
Proof.
  assert (D : In DEVID readonly_registers) by (vm_compute; auto).
  split; [vm_compute; reflexivity | ]. split; [exact D | ].
  destruct (readonly_write_is_discarded sample_ok DEVID sample_reset 0x1234 D)
    as (_ & E & _ & V & _).
  split; [exact E | exact V].
Defined.

(** A write of all ones to CFGCON on the sample machine. *)
Lemma CFGCON_write_keeps_unwritable_bits_witness :
  header_ok = true /\
  exists s',
    pic32_io_write sample_reset (offset_of CFGCON) 0xFFFFFFFF 4 = Return tt s' /\
    (forall i, 0 <= i < 32 -> Z.testbit CFGCON_writable i = false ->
       Z.testbit (VALUE s' CFGCON) i = Z.testbit (VALUE sample_reset CFGCON) i).
Proof.
  split; [vm_compute; reflexivity | ].
  destruct (CFGCON_write_keeps_unwritable_bits sample_ok sample_reset 0xFFFFFFFF)
    as (s' & E & K & _).
  exists s'. split; [exact E | exact K].
Defined.

(** ** The further properties on the sample instance *)

Lemma sample_settled : settled sample_reset.
Proof. split; vm_compute; reflexivity. Qed.

(** The arbiter at rest on the sample machine after reset. *)
Lemma update_irq_status_settles_witness :
  header_ok = true /\
  settled sample_reset /\
  settled (update_irq_status sample_reset) /\
  trace (update_irq_status sample_reset) = trace sample_reset.
Proof.
  split; [vm_compute; reflexivity | ]. split; [exact sample_settled | ].
  destruct (update_irq_status_settles sample_ok sample_reset) as [S R].
  split; [exact S | ]. now destruct (R sample_settled) as (_ & _ & T).
Defined.

Lemma update_irq_status_frame_witness :
  header_ok = true /\
  forall a, a <> offset_of INTSTAT ->
    iomem (update_irq_status sample_reset) a = iomem sample_reset a.
Proof.
  split; [vm_compute; reflexivity | ].
  exact (proj1 (update_irq_status_frame sample_ok sample_reset)).
Defined.

(** Sources 5 and 7 on the sample machine. *)
Lemma irq_calls_change_one_flag_witness :
  header_ok = true /\ source 5 /\ source 7 /\
  flag (irq_raise sample_reset 5) 7 = flag sample_reset 7 || (7 =? 5) /\
  flag (irq_clear sample_reset 5) 7 = flag sample_reset 7 && negb (7 =? 5).
Proof.
  assert (S5 : source 5) by (unfold source; cbn; lia).
  assert (S7 : source 7) by (unfold source; cbn; lia).
  split; [vm_compute; reflexivity | ]. split; [exact S5 | split; [exact S7 | ]].
  destruct (irq_calls_change_one_flag sample_ok sample_reset 5 7 S5 S7) as (Fr & Fc & _).
  split; [exact Fr | exact Fc].
Defined.

Lemma irq_calls_keep_settled_witness :
  header_ok = true /\ source 5 /\ settled sample_reset /\
  settled (irq_raise sample_reset 5) /\ settled (irq_clear sample_reset 5).
Proof.
  assert (S5 : source 5) by (unfold source; cbn; lia).
  split; [vm_compute; reflexivity | ]. split; [exact S5 | split; [exact sample_settled | ]].
  exact (irq_calls_keep_settled sample_ok sample_reset 5 S5 sample_settled).
Defined.

Lemma raise_then_clear_restores_banks_witness :
  header_ok = true /\ source 5 /\ flag sample_reset 5 = false /\
  0 <= VALUE sample_reset (IFS (5 / 32)) < 2 ^ 32 /\
  same_banks (irq_clear (irq_raise sample_reset 5) 5) sample_reset /\
  settled (irq_clear (irq_raise sample_reset 5) 5).
Proof.
  assert (S5 : source 5) by (unfold source; cbn; lia).
  assert (F : flag sample_reset 5 = false) by (vm_compute; reflexivity).
  assert (W : 0 <= VALUE sample_reset (IFS (5 / 32)) < 2 ^ 32)
    by (vm_compute; split; [discriminate | reflexivity]).
  split; [vm_compute; reflexivity | ]. split; [exact S5 | split; [exact F | split; [exact W | ]]].
  destruct (raise_then_clear_restores_banks sample_ok sample_reset 5 S5 F W) as (B & _ & S).
  split; [exact B | exact S].
Defined.

(** The timer and software interrupt 0 on the sample machine. *)
Lemma eic_hooks_raise_sources_witness :
  header_ok = true /\ source (0 + 1) /\ source 0 /\
  flag (snd (pic32_timer_irq sample_reset 0x9d001000 1)) 0 = true /\
  flag (snd (pic32_soft_irq sample_reset 0x9d001000 0)) 0 = false.
Proof.
  assert (S1 : source (0 + 1)) by (unfold source; cbn; lia).
  assert (S0 : source 0) by (unfold source; cbn; lia).
  split; [vm_compute; reflexivity | ]. split; [exact S1 | split; [exact S0 | ]].
  destruct (eic_hooks_raise_sources sample_ok sample_reset 0x9d001000 1 0 0 S1 S0)
    as (Ft & Fu & _).
  split; [rewrite Ft | rewrite Fu]; vm_compute; reflexivity.
Defined.

(** The set view of IEC0 on the sample machine after reset. *)
Lemma bank_store_rearbitrates_witness :
  header_ok = true /\
  In (Wr.WRITEOP IEC0 Wr.goto_irq) Wr.cases /\
  0 <= VALUE sample_reset IEC0 < 2 ^ 32 /\
  0 <= 0x12 < 2 ^ 32 /\
  exists s',
    pic32_io_write sample_reset (offset_of (Name IEC0 SET)) 0x12 4 = Return tt s' /\
    settled s'.
Proof.
  assert (C : In (Wr.WRITEOP IEC0 Wr.goto_irq) Wr.cases) by (unfold Wr.cases; in_list).
  assert (W : 0 <= VALUE sample_reset IEC0 < 2 ^ 32)
    by (vm_compute; split; [discriminate | reflexivity]).
  assert (B : 0 <= 0x12 < 2 ^ 32) by (vm_compute; split; [discriminate | reflexivity]).
  split; [vm_compute; reflexivity | ]. split; [exact C | split; [exact W | split; [exact B | ]]].
  destruct (bank_store_rearbitrates sample_ok IEC0 SET sample_reset 0x12 C W B)
    as (s' & E & _ & _ & S).
  exists s'. split; [exact E | exact S].
Defined.

(** Source 3, enabled at level 5 on the sample machine. *)
Lemma request_then_acknowledge_witness :
  let s := assign IEC0 8 (assign IPC0 0x14000000 sample_reset) in
  header_ok = true /\ source 3 /\
  flag s 3 = false /\ enable s 3 = true /\ 0 < priority s 3 /\
  (forall j, source j -> j <> 3 -> flag s j && enable s j = false) /\
  VALUE (irq_raise s 3) INTSTAT = 3 .| (5 << 8) /\
  exists u,
    pic32_io_write (irq_raise s 3) (offset_of (Name (IFS (3 / 32)) CLR)) (1 << (3 mod 32)) 4
      = Return tt u /\
    VALUE u INTSTAT = 0.
Proof.
  intros s.
  assert (S3 : source 3) by (unfold source; cbn; lia).
  assert (F : flag s 3 = false) by (vm_compute; reflexivity).
  assert (E : enable s 3 = true) by (vm_compute; reflexivity).
  assert (L : priority s 3 = 5) by (vm_compute; reflexivity).
  assert (O : forall j, source j -> j <> 3 -> flag s j && enable s j = false).
  { assert (A : forallb (fun i => (i =? 3) || negb (flag s i && enable s i)) irqs = true)
      by (vm_compute; reflexivity).
    rewrite forallb_forall in A. intros j Hj Ne.
    specialize (A j (proj2 (in_irqs sample_ok j) Hj)).
    rewrite (proj2 (Z.eqb_neq j 3) Ne) in A. now apply negb_true_iff in A. }
  split; [vm_compute; reflexivity | ]. split; [exact S3 | split; [exact F | split; [exact E | ]]].
  split; [rewrite L; lia | split; [exact O | ]].
  destruct (request_then_acknowledge sample_ok s 3 S3 F E) as (I & _ & u & W & _ & Iu & _);
    [rewrite L; lia | exact O | ].
  rewrite L in I. split; [exact I | ]. exists u. split; [exact W | exact Iu].
Defined.

(** Set and then clear on IEC0. *)
Lemma alias_stores_compose_witness :
  header_ok = true /\
  In (Wr.WRITEOP IEC0 Wr.goto_irq) Wr.cases /\
  0 <= VALUE sample_reset IEC0 < 2 ^ 32 /\
  0 <= 0x12 < 2 ^ 32 /\
  exists s1 s2,
    pic32_io_write sample_reset (offset_of (Name IEC0 SET)) 0x12 4 = Return tt s1 /\
    pic32_io_write s1 (offset_of (Name IEC0 CLR)) 0x12 4 = Return tt s2 /\
    VALUE s2 IEC0 = VALUE sample_reset IEC0 .& ~~ 0x12.
Proof.
  assert (C : In (Wr.WRITEOP IEC0 Wr.goto_irq) Wr.cases) by (unfold Wr.cases; in_list).
  assert (W : 0 <= VALUE sample_reset IEC0 < 2 ^ 32)
    by (vm_compute; split; [discriminate | reflexivity]).
  assert (B : 0 <= 0x12 < 2 ^ 32) by (vm_compute; split; [discriminate | reflexivity]).
  split; [vm_compute; reflexivity | ]. split; [exact C | split; [exact W | split; [exact B | ]]].
  exact (alias_stores_compose sample_ok IEC0 Wr.goto_irq SET CLR sample_reset 0x12 C
           (or_intror eq_refl) W B).
Defined.

(** Byte 1 of OSCCON on the sample machine after reset. *)
Lemma narrow_load_extracts_witness :
  header_ok = true /\
  In (Rd.STORAGE OSCCON Rd.break_) Rd.cases /\
  0 <= 1 < 4 /\
  exists v s',
    pic32_io_read sample_reset (offset_of OSCCON + 1) 1 = Return v s' /\
    v = 0x11.
Proof.
  assert (C : In (Rd.STORAGE OSCCON Rd.break_) Rd.cases) by (unfold Rd.cases; in_list).
  assert (K : 0 <= 1 < 4) by lia.
  split; [vm_compute; reflexivity | ]. split; [exact C | split; [exact K | ]].
  destruct (narrow_load_extracts sample_ok OSCCON sample_reset 1 1 C K) as (v & s' & E & V & _).
  exists v, s'. split; [exact E | ]. rewrite V. vm_compute. reflexivity.
Defined.

(** A half-word stored into the upper half of OSCCON. *)
Lemma narrow_store_reads_back_witness :
  header_ok = true /\
  In (Wr.STORAGE OSCCON Wr.break_) Wr.cases /\
  Wr.stores_only Wr.break_ = true /\
  In (Rd.STORAGE OSCCON Rd.break_) Rd.cases /\
  0 <= 2 < 4 /\
  (2 = 1 \/ 2 = 2 \/ 2 = 4) /\
  exists s' s'',
    pic32_io_write sample_reset (offset_of OSCCON + 2) 0x12345 2 = Return tt s' /\
    pic32_io_read s' (offset_of OSCCON + 2) 2 = Return 0x2345 s''.
Proof.
  assert (Cw : In (Wr.STORAGE OSCCON Wr.break_) Wr.cases) by (unfold Wr.cases; in_list).
  assert (Cr : In (Rd.STORAGE OSCCON Rd.break_) Rd.cases) by (unfold Rd.cases; in_list).
  assert (K : 0 <= 2 < 4) by lia.
  assert (B : 2 = 1 \/ 2 = 2 \/ 2 = 4) by (right; now left).
  split; [vm_compute; reflexivity | ]. split; [exact Cw | split; [reflexivity | ]].
  split; [exact Cr | split; [exact K | split; [exact B | ]]].
  exact (narrow_store_reads_back sample_ok OSCCON Wr.break_ sample_reset 2 0x12345 2
           Cw eq_refl Cr K B).
Defined.

(** The invert view of IEC0 read back. *)
Lemma view_store_then_load_witness :
  header_ok = true /\
  In (Wr.WRITEOP IEC0 Wr.goto_irq) Wr.cases /\
  In (Rd.STORAGE IEC0 Rd.break_) Rd.cases /\
  0 <= VALUE sample_reset IEC0 < 2 ^ 32 /\
  0 <= 0x12 < 2 ^ 32 /\
  exists s' s'',
    pic32_io_write sample_reset (offset_of (Name IEC0 INV)) 0x12 4 = Return tt s' /\
    pic32_io_read s' (offset_of IEC0) 4 = Return (VALUE sample_reset IEC0 .^ 0x12) s''.
Proof.
  assert (C : In (Wr.WRITEOP IEC0 Wr.goto_irq) Wr.cases) by (unfold Wr.cases; in_list).
  assert (R : In (Rd.STORAGE IEC0 Rd.break_) Rd.cases) by (unfold Rd.cases; in_list).
  assert (W : 0 <= VALUE sample_reset IEC0 < 2 ^ 32)
    by (vm_compute; split; [discriminate | reflexivity]).
  assert (B : 0 <= 0x12 < 2 ^ 32) by (vm_compute; split; [discriminate | reflexivity]).
  split; [vm_compute; reflexivity | ].
  split; [exact C | split; [exact R | split; [exact W | split; [exact B | ]]]].
  exact (view_store_then_load sample_ok IEC0 Wr.goto_irq INV sample_reset 0x12 C
           (or_intror eq_refl) R W B).
Defined.

(** The store of 1 to RSWRST on the sample machine, then a load. *)
Lemma software_reset_stops_simulation_witness :
  header_ok = true /\
  stop_on_reset sample_reset <> 0 /\
  0 <= 0 < 4 /\
  syskey_unlock sample_reset <> 2 /\
  exists s',
    pic32_io_write sample_reset (offset_of RSWRST) 1 4 = Return tt s' /\
    pic32_io_read s' (offset_of RSWRST + 0) 4 = Exit 0 s'.
Proof.
  assert (St : stop_on_reset sample_reset <> 0) by (vm_compute; discriminate).
  assert (K : 0 <= 0 < 4) by lia.
  assert (U : syskey_unlock sample_reset <> 2) by (vm_compute; discriminate).
  split; [vm_compute; reflexivity | ]. split; [exact St | split; [exact K | split; [exact U | ]]].
  destruct (software_reset_stops_simulation sample_ok sample_reset 1 0 4 St K) as (_ & _ & W).
  destruct (W U) as (s' & E & X & _). exists s'. split; [exact E | now apply X].
Defined.

Lemma RTCCON_clock_follows_on_witness :
  header_ok = true /\
  0 <= PIC32_RTCC_CLKON < 2 ^ 32 /\
  exists s',
    pic32_io_write sample_reset (offset_of (Name RTCCON SET)) 0x8000 4 = Return tt s' /\
    VALUE s' RTCCON .& PIC32_RTCC_CLKON =
      if truth (VALUE s' RTCCON .& PIC32_RTCC_ON) then PIC32_RTCC_CLKON else 0.
Proof.
  assert (C : 0 <= PIC32_RTCC_CLKON < 2 ^ 32)
    by (vm_compute; split; [discriminate | reflexivity]).
  split; [vm_compute; reflexivity | ]. split; [exact C | ].
  exact (RTCCON_clock_follows_on sample_ok SET sample_reset 0x8000 C).
Defined.

(** Port A on the sample machine. *)
Lemma port_store_goes_to_latch_witness :
  header_ok = true /\
  In (Wr.WRITEOPX PORTA LATA (Wr.gpio_write 0 LATA)) Wr.cases /\
  In (Wr.WRITEOP LATA (Wr.gpio_write 0 LATA)) Wr.cases /\
  0 <= VALUE sample_reset LATA < 2 ^ 32 /\
  0 <= 0x21 < 2 ^ 32 /\
  VALUE (assign LATA (alias_rule CLR (VALUE sample_reset LATA) 0x21) sample_reset) PORTA
    = VALUE sample_reset PORTA.
Proof.
  assert (Cx : In (Wr.WRITEOPX PORTA LATA (Wr.gpio_write 0 LATA)) Wr.cases)
    by (unfold Wr.cases; in_list).
  assert (Cl : In (Wr.WRITEOP LATA (Wr.gpio_write 0 LATA)) Wr.cases)
    by (unfold Wr.cases; in_list).
  assert (W : 0 <= VALUE sample_reset LATA < 2 ^ 32)
    by (vm_compute; split; [discriminate | reflexivity]).
  assert (B : 0 <= 0x21 < 2 ^ 32) by (vm_compute; split; [discriminate | reflexivity]).
  split; [vm_compute; reflexivity | ].
  split; [exact Cx | split; [exact Cl | split; [exact W | split; [exact B | ]]]].
  exact (proj2 (proj2 (port_store_goes_to_latch sample_ok PORTA LATA 0 CLR sample_reset 0x21
                         Cx Cl W B))).
Defined.

(** A load from IPTMR on the sample machine. *)
Lemma stored_but_not_loaded_witness :
  header_ok = true /\
  In (canonical IPTMR) io_write32_labels /\
  ~ In (canonical IPTMR) io_read32_labels /\
  pic32_io_read sample_reset (offset_of IPTMR + 0) 4 =
    Exit 1 (log (Read_not_supported (offset_of IPTMR))
              (emit (printf (Read_not_supported (offset_of IPTMR))) sample_reset)).
Proof.
  split; [vm_compute; reflexivity | ].
  destruct (stored_but_not_loaded sample_ok) as (_ & _ & W & R & _ & X).
  split; [exact W | split; [exact R | ]].
  apply X; [exact W | exact R | lia].
Defined.

(** Offset 0 is the cell of no register of the sample header. *)
Lemma io_reset_stores_into_its_registers_only_witness :
  ~ In 0 (map (fun r : reg => offset_of r) reset_registers) /\
  iomem (io_reset sample_init) 0 = iomem sample_init 0 /\
  syskey_unlock (io_reset sample_init) = 0.
Proof.
  assert (N : ~ In 0 (map (fun r : reg => offset_of r) reset_registers))
    by (apply distinct_not_in; vm_compute; reflexivity).
  split; [exact N | ].
  destruct (io_reset_stores_into_its_registers_only sample_init 0 N) as (M & U & _).
  split; [exact M | exact U].
Defined.

(** The sample machine, whose clock is read twice a second, and a
    machine that holds other words in PORTA and RTCTIME at the same
    moment: after the reset they hold the same.  The second reset in
    a row finds the reading of the first and changes no cell; the
    third finds the next second and stores another RTCTIME. *)
Lemma io_reset_forgets_witness :
  let t := assign RTCTIME 0x12345678 (assign PORTA 0x1234 sample_init) in
  board_type sample_init = board_type t /\
  host_clock sample_init 0 = host_clock t 0 /\
  host_clock sample_init 1 = host_clock sample_init 0 /\
  VALUE sample_init PORTA <> VALUE t PORTA /\
  (forall r, In r reset_registers -> VALUE (io_reset sample_init) r = VALUE (io_reset t) r) /\
  (forall a, iomem (io_reset sample_reset) a = iomem sample_reset a) /\
  VALUE (io_reset (io_reset sample_reset)) RTCTIME <> VALUE sample_reset RTCTIME.
Proof.
  intros t.
  assert (B : board_type sample_init = board_type t) by reflexivity.
  assert (G : host_clock sample_init 0 = host_clock t 0) by reflexivity.
  assert (S : host_clock sample_init 1 = host_clock sample_init 0) by reflexivity.
  destruct (io_reset_forgets sample_init t B G) as [F I].
  split; [exact B | split; [exact G | split; [exact S | ]]].
  split; [vm_compute; discriminate | ].
  split; [exact F | ]. split; [exact (I S) | ].
  vm_compute. discriminate.
Defined.

(** A request pending on the sample machine when it is reset. *)
Lemma interrupt_state_survives_reset_witness :
  let s := irq_raise (assign IEC0 8 (assign IPC0 0x14000000 sample_reset)) 3 in
  header_ok = true /\
  (forall q, In q reset_only_registers -> ~ In (offset_of q) io_write32_offsets) /\
  VALUE s INTSTAT = 3 .| (5 << 8) /\
  VALUE (io_reset s) INTSTAT = VALUE s INTSTAT /\
  arbitrate (io_reset s) = arbitrate s.
Proof.
  intros s.
  assert (O : forall q, In q reset_only_registers -> ~ In (offset_of q) io_write32_offsets).
  { assert (A : forallb (fun q : reg => negb (existsb (Z.eqb (offset_of q)) io_write32_offsets))
                  reset_only_registers = true) by (vm_compute; reflexivity).
    rewrite forallb_forall in A. intros q Hq. apply distinct_not_in.
    apply negb_true_iff. exact (A q Hq). }
  split; [vm_compute; reflexivity | ]. split; [exact O | ].
  split; [vm_compute; reflexivity | ].
  destruct (interrupt_state_survives_reset sample_ok s O) as (_ & _ & I & _ & _ & A & _).
  split; [exact I | exact A].
Defined.

Lemma TOBCD_digits_witness :
  0 <= 59 < 100 /\ TOBCD 59 = 0x59 /\
  10 * (TOBCD 59 >> 4) + (TOBCD 59 .& 0xf) = 59.
Proof.
  assert (R : 0 <= 59 < 100) by lia.
  split; [exact R | split; [reflexivity | ]].
  now destruct (TOBCD_digits 59 0 R) as (_ & _ & D & _).
Defined.

(** A byte at 0x1d000010 and a byte 1 Mbyte above it. *)
(** A byte of the program flash, a byte of the boot flash, an address
    of neither, and an address beyond 32 bits. *)
Lemma store_byte_windows_witness :
  let f := {| prog := fun _ => 0xff; boot := fun _ => 0xff |} in
  0 <= 0x1d000020 < 2 ^ 32 /\
  (exists f', store_byte f 0x1d000020 0x3c = Stored f' /\ prog f' 0x20 = 0x3c) /\
  store_byte f 0x11d000020 0x3c = store_byte f 0x1d000020 0x3c /\
  (exists f', store_byte f 0x1fc00010 0x3c = Stored f' /\ boot f' 0x10 = 0x3c) /\
  store_byte f 0x1d200000 0x3c = Bad_hex_file 0x1d200000.
Proof.
  intros f.
  assert (R : forall a, 0 <= a < 4294967296 -> 0 <= a < 2 ^ 32)
    by (intros a Ha; change (2 ^ 32) with 4294967296; exact Ha).
  destruct (store_byte_windows f 0x1d000020 0x3c (R 0x1d000020 ltac:(lia))) as (P & _ & _ & K).
  destruct (store_byte_windows f 0x1fc00010 0x3c (R 0x1fc00010 ltac:(lia))) as (_ & B & _ & _).
  destruct (store_byte_windows f 0x1d200000 0x3c (R 0x1d200000 ltac:(lia))) as (_ & _ & N & _).
  split; [apply R; lia | ].
  split; [destruct P as (f' & E & V & _);
          [unfold PROGRAM_FLASH_START, PROGRAM_FLASH_SIZE; lia | exists f'; split; [exact E | exact V]] | ].
  split; [exact (K 1) | ].
  split; [destruct B as (f' & E & V & _);
          [unfold BOOT_FLASH_START, BOOT_FLASH_SIZE; lia | exists f'; split; [exact E | exact V]] | ].
  apply N; unfold PROGRAM_FLASH_START, PROGRAM_FLASH_SIZE, BOOT_FLASH_START, BOOT_FLASH_SIZE; lia.
Defined.

Lemma program_flash_upper_half_folds_witness :
  let f := {| prog := fun _ => 0xff; boot := fun _ => 0xff |} in
  PROGRAM_FLASH_START <= 0x1d000010 < PROGRAM_FLASH_START + 2 ^ 20 /\
  exists f1 f2,
    store_byte f 0x1d000010 0xaa = Stored f1 /\
    store_byte f1 (0x1d000010 + 2 ^ 20) 0xbb = Stored f2 /\
    prog f1 0x10 = 0xaa /\
    prog f2 0x10 = 0xbb.
Proof.
  intros f.
  assert (R : PROGRAM_FLASH_START <= 0x1d000010 < PROGRAM_FLASH_START + 2 ^ 20)
    by (vm_compute; split; discriminate || reflexivity).
  split; [exact R | ].
  destruct (program_flash_upper_half_folds f 0x1d000010 0xaa 0xbb R) as (_ & f1 & f2 & E1 & E2 & V).
  exists f1, f2. split; [exact E1 | split; [exact E2 | ]].
  split; [ | exact V].
  vm_compute in E1. injection E1 as <-. reflexivity.
Defined.

(** Source 3, enabled at level 5, raised on the sample machine. *)
Lemma raise_never_lowers_level_witness :
  let s := assign IEC0 8 (assign IPC0 0x14000000 sample_reset) in
  header_ok = true /\ source 3 /\
  snd (arbitrate s) = 0 /\
  snd (arbitrate (irq_raise s 3)) = 5 /\
  snd (arbitrate s) <= snd (arbitrate (irq_raise s 3)).
Proof.
  intros s.
  assert (S3 : source 3) by (unfold source; cbn; lia).
  split; [vm_compute; reflexivity | ]. split; [exact S3 | ].
  split; [vm_compute; reflexivity | ]. split; [vm_compute; reflexivity | ].
  exact (proj1 (raise_never_lowers_level sample_ok s 3 S3)).
Defined.

Lemma INTSTAT_fields_witness :
  let s := irq_raise (assign IEC0 8 (assign IPC0 0x14000000 sample_reset)) 3 in
  header_ok = true /\ settled s /\
  VALUE s INTSTAT = 0x503 /\
  VALUE s INTSTAT .& 0xff = fst (arbitrate s) /\
  VALUE s INTSTAT >> 8 = snd (arbitrate s).
Proof.
  intros s.
  assert (S : settled s) by (split; vm_compute; reflexivity).
  split; [vm_compute; reflexivity | ]. split; [exact S | ].
  split; [vm_compute; reflexivity | ].
  destruct (INTSTAT_fields sample_ok s S) as (F1 & F2 & _).
  split; [exact F1 | exact F2].
Defined.
